(** * do-mpc moving horizon estimator ([do_mpc/estimator.py])

    A shallow embedding of the estimator classes of [estimator.py]
    ([Estimator], [MHE]) together with the properties of the estimator
    that the design document states.

    Python objects become records, attribute assignment becomes explicit
    state passing in a state-and-exception monad, a raised exception is a
    [Raise] result that keeps the store as it was when the exception left
    the method.  CasADi symbolic structures are ordered lists of named
    entries holding symbols; numeric structures are their labels and their
    flat value vector. *)

From stdpp Require Import gmap strings list fin_maps.

Set Warnings "-register-all".

Open Scope string_scope.
Open Scope list_scope.

(** ** Numeric values

    The code only moves floating point numbers around, scales them and
    compares bounds.  The number type is kept abstract. *)

Class Num (V : Type) := {
  vzero : V;
  vone : V;
  vinf : V;
  vneg_inf : V;
  vadd : V -> V -> V;
  vmul : V -> V -> V;
  vdiv : V -> V -> V;
  (* [a > b] on floats *)
  vgt : V -> V -> bool
}.

(** Elementwise operations of numpy / CasADi vectors of equal shape. *)
Definition vec_mul `{Num V} (a b : list V) : list V := zip_with vmul a b.
Definition vec_div `{Num V} (a b : list V) : list V := zip_with vdiv a b.
Definition vec_gt `{Num V} (a b : list V) : list bool := zip_with vgt a b.

(** ** Exceptions and results *)

(** A label of a CasADi structure, e.g. [[y_meas,3,T,0]]. *)
Definition label : Type := list (string + nat).

Inductive exn :=
| AssertionError (msg : string)
| Exception (msg : string) (fmt_args : list label)
| AttributeError (attr : string)
| IndexError (what : string)
| RuntimeError (msg : string).

Inductive res (A : Type) :=
| Ok (a : A)
| Raise (e : exn).
Arguments Ok {A} a.
Arguments Raise {A} e.

Definition is_ok {A} (r : res A) : bool :=
  match r with Ok _ => true | Raise _ => false end.

(** State and exception monad: the store that a raising computation
    returns is the store at the moment of the [raise]. *)
Definition M (S A : Type) : Type := S -> res A * S.

Definition ret {S A} (a : A) : M S A := fun s => (Ok a, s).
Definition raise {S A} (e : exn) : M S A := fun s => (Raise e, s).
Definition bind {S A B} (c : M S A) (k : A -> M S B) : M S B :=
  fun s => match c s with
           | (Ok a, s') => k a s'
           | (Raise e, s') => (Raise e, s')
           end.
Definition get {S} : M S S := fun s => (Ok s, s).
Definition gets {S A} (f : S -> A) : M S A := fun s => (Ok (f s), s).
Definition modify {S} (f : S -> S) : M S unit := fun s => (Ok tt, f s).
Definition lift_res {S A} (r : res A) : M S A := fun s => (r, s).
(** [assert c, msg] *)
Definition assert {S} (c : bool) (msg : string) : M S unit :=
  if c then ret tt else raise (AssertionError msg).
(** Reading an attribute that may not have been assigned yet. *)
Definition getattr {S A} (f : S -> option A) (name : string) : M S A :=
  fun s => match f s with
           | Some a => (Ok a, s)
           | None => (Raise (AttributeError name), s)
           end.

Notation "'let*' x ':=' c 'in' k" := (bind c (fun x => k))
  (at level 10, x name, c at level 100, k at level 200).
Notation "c1 '>>' c2" := (bind c1 (fun _ => c2))
  (at level 100, c2 at level 200, right associativity).

(** ** CasADi symbols and symbolic structures *)

(** A scalar symbol: its name and the identity of the object. *)
Inductive sym := SXsym (name : string) (uid : nat).

Global Instance sym_eq_dec : EqDecision sym.
Proof. solve_decision. Defined.

(** [entry(name, ...)]: a named block of scalar symbols. *)
Record entry := Entry { e_name : string; e_syms : list sym }.

(** [struct_symSX([...])]: the entries in declaration order. *)
Definition struct_symSX : Type := list entry.

Definition keys (s : struct_symSX) : list string := map e_name s.
(** [s.cat]: all symbols, in order. *)
Definition cat (s : struct_symSX) : list sym := flat_map e_syms s.
(** [s.size] *)
Definition struct_size (s : struct_symSX) : nat := length (cat s).
(** [s[name]]: the block of the entry called [name] (empty when absent;
    the code only indexes with keys of the structure). *)
Fixpoint struct_get (s : struct_symSX) (name : string) : list sym :=
  match s with
  | [] => []
  | e :: s' => if decide (e_name e = name) then e_syms e else struct_get s' name
  end.

Definition entry_labels (prefix : label) (e : entry) : list label :=
  map (fun i => prefix ++ [inl (e_name e); inr i]) (seq 0 (length (e_syms e))).
(** [s.labels()] *)
Definition labels_with (prefix : label) (s : struct_symSX) : list label :=
  flat_map (entry_labels prefix) s.
Definition labels (s : struct_symSX) : list label := labels_with [] s.

(** A numeric structure ([DMStruct]): the labels of its structure and the
    flat vector [.cat] of its values. *)
Record DMStruct (V : Type) := mkDM { dm_labels : list label; dm_cat : list V }.
Arguments mkDM {V} _ _.
Arguments dm_labels {V} _.
Arguments dm_cat {V} _.

(** [s(v)]: the numeric structure of [s] with every value set to [v]. *)
Definition struct_call {V} (s : struct_symSX) (v : V) : DMStruct V :=
  mkDM (labels s) (replicate (struct_size s) v).

(** ** Symbolic functions over symbol vectors

    [Function(name, [in_1, ..., in_n], [out])] where inputs are symbol
    vectors and the output is a vector of symbols.  Calling it binds every
    input symbol to the number at its position and reads the output
    symbols off that binding. *)
Record SymFunction := mkSymFunction {
  sf_name : string;
  sf_in : list (list sym);
  sf_out : list sym
}.

(** CasADi refuses a function whose output has free symbols. *)
Definition Function_new (name : string) (ins : list (list sym)) (out : list sym)
  : res SymFunction :=
  if decide (Forall (fun s => s ∈ concat ins) out)
  then Ok (mkSymFunction name ins out)
  else Raise (RuntimeError "Initialization failed since variables are free").

Fixpoint env_lookup {V} (env : list (sym * V)) (s : sym) : option V :=
  match env with
  | [] => None
  | (s', v) :: env' => if decide (s' = s) then Some v else env_lookup env' s
  end.

(** Binding of inputs to arguments; an argument of the wrong size is
    refused. *)
Fixpoint bind_args {V} (ins : list (list sym)) (args : list (list V))
  : option (list (sym * V)) :=
  match ins, args with
  | [], [] => Some []
  | i :: ins', a :: args' =>
      if decide (length i = length a)
      then match bind_args ins' args' with
           | Some env => Some (zip i a ++ env)
           | None => None
           end
      else None
  | _, _ => None
  end.

Fixpoint eval_syms {V} (env : list (sym * V)) (out : list sym) : option (list V) :=
  match out with
  | [] => Some []
  | s :: out' =>
      match env_lookup env s, eval_syms env out' with
      | Some v, Some vs => Some (v :: vs)
      | _, _ => None
      end
  end.

Definition Function_call {V} (f : SymFunction) (args : list (list V)) : res (list V) :=
  match bind_args (sf_in f) args with
  | None => Raise (RuntimeError "Incorrect number or size of inputs")
  | Some env =>
      match eval_syms env (sf_out f) with
      | Some vs => Ok vs
      | None => Raise (RuntimeError "free variable")
      end
  end.

(** ** Parameter partition ([MHE.__init__], lines 130-140) *)

(** [[entry(p_i, sym=_p[p_i]) for p_i in _p.keys() if keep p_i]] *)
Definition entries_where (_p : struct_symSX) (keep : string -> bool) : struct_symSX :=
  map (fun p_i => Entry p_i (struct_get _p p_i))
      (List.filter keep (keys _p)).

Definition in_list (l : list string) (p_i : string) : bool :=
  bool_decide (p_i ∈ l).

(** [self._p_est]: a zero-sized [default] entry, then the estimated ones. *)
Definition make_p_est (_p : struct_symSX) (p_est_list : list string) : struct_symSX :=
  Entry "default" [] :: entries_where _p (in_list p_est_list).

(** [self._p_set]: the remaining entries. *)
Definition make_p_set (_p : struct_symSX) (p_est_list : list string) : struct_symSX :=
  entries_where _p (fun p_i => negb (in_list p_est_list p_i)).




(** A structure as [struct_symSX] builds it from shapes: distinct keys,
    and a fresh symbol for every scalar. *)
Definition struct_wf (s : struct_symSX) : Prop :=
  NoDup (keys s) /\ NoDup (cat s).

(** ** Python sequences *)

(** [l[k]] with Python's negative indices. *)
Definition py_get {A} (l : list A) (k : Z) : res A :=
  let n := Z.of_nat (length l) in
  let i := if (k <? 0)%Z then (n + k)%Z else k in
  if ((0 <=? i) && (i <? n))%Z
  then match l !! Z.to_nat i with
       | Some a => Ok a
       | None => Raise (IndexError "index out of range")
       end
  else Raise (IndexError "index out of range").

(** [l[k] = x] *)
Definition py_set {A} (l : list A) (k : Z) (x : A) : res (list A) :=
  let n := Z.of_nat (length l) in
  let i := if (k <? 0)%Z then (n + k)%Z else k in
  if ((0 <=? i) && (i <? n))%Z
  then Ok (<[Z.to_nat i := x]> l)
  else Raise (IndexError "index out of range").

(** [range(a, b)] *)
Definition py_range (a b : Z) : list Z :=
  map (fun i => (a + Z.of_nat i)%Z) (seq 0 (Z.to_nat (b - a))).

(** ** The model (external collaborator)

    Only what the estimator reads: the setup flag and the ordered symbol
    structures. *)
Record Model := mkModel {
  model_flags_setup : bool;
  model_x : struct_symSX;
  model_u : struct_symSX;
  model_z : struct_symSX;
  model_p : struct_symSX;
  model_tvp : struct_symSX;
  model_y : struct_symSX;
  model_aux_expression : struct_symSX
}.

(** [model.n_x] *)
Definition n_x (m : Model) : nat := struct_size (model_x m).

(** A symbolic expression handed in by the caller; the estimator looks at
    its shape and at [symvar] only. *)
Record SX := mkSX { sx_shape : nat * nat; sx_symvar : list sym }.

(** A compiled expression, [Function(name, inputs, [expr])]. *)
Record Function := mkFunction {
  fn_name : string;
  fn_in : list (list sym);
  fn_out : SX
}.

(** Values of solver options. *)
Inductive opt_value :=
| OBool (b : bool)
| OStr (s : string)
| OInt (z : Z).

(** ** Structures with repeated entries and the symbolic problem *)

(** [entry(name, repeat=[...], struct=s)] *)
Record rep_entry := mkRep {
  re_name : string;
  re_repeat : list nat;
  re_struct : struct_symSX
}.

Definition rep_blocks (e : rep_entry) : nat := foldr Nat.mul 1 (re_repeat e).
Definition rep_size (e : rep_entry) : nat := rep_blocks e * struct_size (re_struct e).
(** [s.shape[0]] of a structure of repeated entries. *)
Definition rep_struct_size (s : list rep_entry) : nat := sum_list (map rep_size s).

(** The labels of [entry(name, repeat=n, struct=s)]. *)
Definition repeat_labels (name : string) (n : nat) (s : struct_symSX) : list label :=
  flat_map (fun k => labels_with [inl name; inr k] s) (seq 0 n).

(** The compiled functions the assembled problem calls. *)
Inductive fn :=
| ifcn | nl_cons_fun | obj_fun_call | arrival_cost_fun_call
| aux_expression_fun | p_cat_fun.

Global Instance fn_eq_dec : EqDecision fn.
Proof. solve_decision. Defined.

Inductive scaling := x_scaling | u_scaling | z_scaling | p_est_scaling.

(** A block of [opt_x] or [opt_p], with indices already resolved
    ([-1] is the last index of its axis). *)
Inductive ref :=
| opt_x_x (k j : nat)
| opt_x_z (k j : nat)
| opt_x_u (k : nat)
| opt_x_p_est
| opt_p_x_prev
| opt_p_p_prev
| opt_p_p_set
| opt_p_tvp (k : nat)
| opt_p_y_meas (k : nat).

Inductive expr :=
| Var (r : ref)                            (* opt_x[...] / opt_p[...] *)
| Unscaled (r : ref)                       (* opt_x_unscaled[...] *)
| Div (e : expr) (s : scaling)             (* e / self._x_scaling *)
| Vertcat (es : list expr)
| Call (f : fn) (args : list expr) (out : nat)   (* out-th result of f(args) *)
| Minus (a b : expr)
| Plus (a b : expr)
| Zero.



(** ** The estimator object *)

Section Estimator.
Context {V : Type} `{NumV : Num V}.

(** The settable parameters ([self.data_fields]).  [n_horizon] and
    [t_step] have no default: the attribute does not exist until
    [set_param] assigns it. *)
Record Params := mkParams {
  n_horizon : option nat;
  t_step : option V;
  meas_from_data : bool;
  state_discretization : string;
  collocation_type : string;
  collocation_deg : nat;
  collocation_ni : nat;
  store_full_solution : bool;
  store_lagr_multiplier : bool;
  store_solver_stats : list string;
  nlpsol_opts : gmap string opt_value
}.

(** A keyword argument of [set_param]. *)
Inductive kwarg :=
| kw_n_horizon (n : nat)
| kw_t_step (t : V)
| kw_meas_from_data (b : bool)
| kw_state_discretization (s : string)
| kw_collocation_type (s : string)
| kw_collocation_deg (n : nat)
| kw_collocation_ni (n : nat)
| kw_store_full_solution (b : bool)
| kw_store_lagr_multiplier (b : bool)
| kw_store_solver_stats (l : list string)
| kw_nlpsol_opts (o : gmap string opt_value)
| kw_unknown (key : string).

Definition setattr_param (p : Params) (kw : kwarg) : Params :=
  match p with
  | mkParams nh ts mfd sd ct cd cn sfs slm sss no =>
      match kw with
      | kw_n_horizon n => mkParams (Some n) ts mfd sd ct cd cn sfs slm sss no
      | kw_t_step t => mkParams nh (Some t) mfd sd ct cd cn sfs slm sss no
      | kw_meas_from_data b => mkParams nh ts b sd ct cd cn sfs slm sss no
      | kw_state_discretization s => mkParams nh ts mfd s ct cd cn sfs slm sss no
      | kw_collocation_type s => mkParams nh ts mfd sd s cd cn sfs slm sss no
      | kw_collocation_deg n => mkParams nh ts mfd sd ct n cn sfs slm sss no
      | kw_collocation_ni n => mkParams nh ts mfd sd ct cd n sfs slm sss no
      | kw_store_full_solution b => mkParams nh ts mfd sd ct cd cn b slm sss no
      | kw_store_lagr_multiplier b => mkParams nh ts mfd sd ct cd cn sfs b sss no
      | kw_store_solver_stats l => mkParams nh ts mfd sd ct cd cn sfs slm l no
      | kw_nlpsol_opts o => mkParams nh ts mfd sd ct cd cn sfs slm sss o
      | kw_unknown _ => p   (* a warning is printed *)
      end
  end.

(** Modelled from the spec: the history sink ([do_mpc.data.Data], not part
    of this file).  [update] with named values appends one record per call,
    keyed by quantity name; [init_storage()] empties the recorded
    trajectories; [set_meta] stores the settings. *)
Record Data := mkData {
  d_log : list (string * list V);
  d_meta : option Params
}.

Definition Data_new : Data := mkData [] None.
Definition data_update (key : string) (value : list V) (d : Data) : Data :=
  mkData (d_log d ++ [(key, value)]) (d_meta d).
Definition data_init_storage (d : Data) : Data := mkData [] (d_meta d).
Definition data_set_meta (p : Params) (d : Data) : Data := mkData (d_log d) (Some p).
(** [data._y]: the rows recorded under one name, oldest first. *)
Definition data_field (key : string) (d : Data) : list (list V) :=
  map snd (List.filter (fun r => bool_decide (fst r = key)) (d_log d)).

(** The functions registered with [set_tvp_fun], [set_p_fun] and
    [set_y_fun]: a function of time handed in by the caller, or one of
    the closures that [check_validity] injects. *)
Inductive callback :=
| UserFun (f : V -> res (DMStruct V))
| TemplateFun (template : DMStruct V)       (* def p_fun(t): return _p *)
| DefaultYFun (template_labels : list label). (* def y_fun(t_now): ... *)

Record Flags := mkFlags {
  flag_setup : bool;
  flag_set_tvp_fun : bool;
  flag_set_p_fun : bool;
  flag_set_y_fun : bool;
  flag_set_objective : bool
}.

(** The parameter partition and the symbolic aliases of [__init__]. *)
Record Partition := mkPartition {
  _p_est : struct_symSX;
  _p_set : struct_symSX;
  _p_cat_fun : SymFunction;
  _x_prev : struct_symSX;
  _p_prev : struct_symSX
}.

(** A user-declared nonlinear constraint ([self.nl_cons_list]). *)
Record nl_con := mkNlCon { expr_name : string; nl_expr : SX; nl_lb : V }.

(** Bounds and scaling.  Those of states, inputs and algebraic variables
    belong to the optimizer base class, those of the estimated parameters
    are created in [MHE.__init__]. *)
Record Bounds := mkBounds {
  _x_lb : DMStruct V; _x_ub : DMStruct V;
  _u_lb : DMStruct V; _u_ub : DMStruct V;
  _z_lb : DMStruct V; _z_ub : DMStruct V;
  _x_scaling : list V; _u_scaling : list V; _z_scaling : list V;
  _p_est_lb : DMStruct V; _p_est_ub : DMStruct V;
  _p_est_scaling : list V
}.

(** What [Optimizer.__init__] (not part of this file) leaves on the object
    and this file reads. *)
Record OptimizerBase := mkOptimizerBase {
  ob_x_lb : DMStruct V; ob_x_ub : DMStruct V;
  ob_u_lb : DMStruct V; ob_u_ub : DMStruct V;
  ob_z_lb : DMStruct V; ob_z_ub : DMStruct V;
  ob_x_scaling : list V; ob_u_scaling : list V; ob_z_scaling : list V;
  ob_nl_cons_list : list nl_con
}.

(** The estimator's own state between steps. *)
Record Estimates := mkEstimates {
  _x0 : list V;
  _u0 : list V;
  _z0 : list V;
  _p_est0 : list V;
  _t0 : V
}.

Record Callbacks := mkCallbacks {
  tvp_fun : option callback;
  p_fun : option callback;
  y_fun : option callback;
  (* the [y_template] object captured by the injected [y_fun] and
     overwritten in place by every call of it *)
  y_template : list (list V)
}.

Record Objective := mkObjective {
  obj_fun : option Function;
  arrival_cost_fun : option Function
}.

(** Numeric values of [opt_x] (a [DMStruct] over it), by entry and
    repetition index. *)
Record opt_x_val := mk_opt_x {
  ox_x : list (list (list V));
  ox_z : list (list (list V));
  ox_u : list (list V);
  ox_p_est : list V
}.

(** Numeric values of [opt_p]. *)
Record opt_p_val := mk_opt_p {
  op_x_prev : list V;
  op_p_prev : list V;
  op_p_set : list V;
  op_tvp : list V;
  op_y_meas : list V
}.

(** The solver instance [nlpsol('S', 'ipopt', nlp, opts)]. *)
Record Solver := mkSolver {
  nlp_x : list rep_entry;
  nlp_f : expr;
  nlp_g : list expr;
  nlp_p : list rep_entry;
  solver_opts : gmap string opt_value
}.

(** The attributes that [_setup_mhe_optim_problem] creates.  They are
    stored together when assembling completes. *)
Record Problem := mkProblem {
  opt_x : list rep_entry;
  n_opt_x : nat;
  opt_p : list rep_entry;
  aux_struct : list rep_entry;
  opt_aux : list expr;
  lb_opt_x : opt_x_val;
  ub_opt_x : opt_x_val;
  obj : expr;
  nlp_cons : list expr;
  cons_lb : list (list V);
  cons_ub : list (list V);
  n_total_coll_points : nat;
  S_solver : Solver;
  opt_x_num : opt_x_val;
  opt_p_num : opt_p_val;
  opt_aux_num : list (list V)
}.

Record MHE := mkMHE {
  model : Model;
  params : Params;
  flags : Flags;
  part : Partition;
  bounds : Bounds;
  nl_cons_list : list nl_con;
  (* [_nl_cons_lb], [_nl_cons_ub]: created by [setup] *)
  _nl_cons_bounds : option (list V * list V);
  callbacks : Callbacks;
  objective : Objective;
  estimates : Estimates;
  data : Data;
  problem : option Problem
}.

(** Attribute assignment. *)
Definition set_params (v : Params) (s : MHE) : MHE :=
  mkMHE (model s) v (flags s) (part s) (bounds s) (nl_cons_list s)
    (_nl_cons_bounds s) (callbacks s) (objective s) (estimates s) (data s) (problem s).
Definition set_flags (v : Flags) (s : MHE) : MHE :=
  mkMHE (model s) (params s) v (part s) (bounds s) (nl_cons_list s)
    (_nl_cons_bounds s) (callbacks s) (objective s) (estimates s) (data s) (problem s).
Definition set_nl_cons_bounds (v : option (list V * list V)) (s : MHE) : MHE :=
  mkMHE (model s) (params s) (flags s) (part s) (bounds s) (nl_cons_list s)
    v (callbacks s) (objective s) (estimates s) (data s) (problem s).
Definition set_bounds (v : Bounds) (s : MHE) : MHE :=
  mkMHE (model s) (params s) (flags s) (part s) v (nl_cons_list s)
    (_nl_cons_bounds s) (callbacks s) (objective s) (estimates s) (data s) (problem s).
Definition set_callbacks (v : Callbacks) (s : MHE) : MHE :=
  mkMHE (model s) (params s) (flags s) (part s) (bounds s) (nl_cons_list s)
    (_nl_cons_bounds s) v (objective s) (estimates s) (data s) (problem s).
Definition set_objective_funs (v : Objective) (s : MHE) : MHE :=
  mkMHE (model s) (params s) (flags s) (part s) (bounds s) (nl_cons_list s)
    (_nl_cons_bounds s) (callbacks s) v (estimates s) (data s) (problem s).
Definition set_estimates (v : Estimates) (s : MHE) : MHE :=
  mkMHE (model s) (params s) (flags s) (part s) (bounds s) (nl_cons_list s)
    (_nl_cons_bounds s) (callbacks s) (objective s) v (data s) (problem s).
Definition set_data (v : Data) (s : MHE) : MHE :=
  mkMHE (model s) (params s) (flags s) (part s) (bounds s) (nl_cons_list s)
    (_nl_cons_bounds s) (callbacks s) (objective s) (estimates s) v (problem s).
Definition set_problem (v : option Problem) (s : MHE) : MHE :=
  mkMHE (model s) (params s) (flags s) (part s) (bounds s) (nl_cons_list s)
    (_nl_cons_bounds s) (callbacks s) (objective s) (estimates s) (data s) v.

(** [self.flags[...] = True] *)
Definition raise_flag_setup (f : Flags) : Flags :=
  mkFlags true (flag_set_tvp_fun f) (flag_set_p_fun f) (flag_set_y_fun f) (flag_set_objective f).
Definition raise_flag_set_tvp_fun (f : Flags) : Flags :=
  mkFlags (flag_setup f) true (flag_set_p_fun f) (flag_set_y_fun f) (flag_set_objective f).
Definition raise_flag_set_p_fun (f : Flags) : Flags :=
  mkFlags (flag_setup f) (flag_set_tvp_fun f) true (flag_set_y_fun f) (flag_set_objective f).
Definition raise_flag_set_y_fun (f : Flags) : Flags :=
  mkFlags (flag_setup f) (flag_set_tvp_fun f) (flag_set_p_fun f) true (flag_set_objective f).
Definition raise_flag_set_objective (f : Flags) : Flags :=
  mkFlags (flag_setup f) (flag_set_tvp_fun f) (flag_set_p_fun f) (flag_set_y_fun f) true.

(** What the estimator consumes as black boxes: the discretization scheme
    of the optimizer base class, the nonlinear program solver, the
    numeric evaluation of the auxiliary expressions, the layout
    bookkeeping of the history sink, Python's [copy.copy] on a symbolic
    structure, and the conversion of an array into a numeric structure. *)
Record Collaborators := mkCollaborators {
  (* [_setup_discretization()]: rows of the defect vector of [ifcn], and
     the number of intermediate collocation points *)
  setup_discretization : Params -> Model -> res (nat * nat);
  (* [S(x0=..., lbx=..., ubx=..., lbg=..., ubg=..., p=...)['x']] *)
  nlp_solve : Solver -> opt_x_val -> opt_x_val -> opt_x_val ->
              list (list V) -> list (list V) -> opt_p_val -> opt_x_val;
  (* [opt_aux_expression_fun(opt_x_num, opt_p_num)] *)
  aux_eval : list expr -> opt_x_val -> opt_p_val -> list (list V);
  prepare_data : Data -> Data;
  copy_struct : struct_symSX -> struct_symSX;
  (* [s(array)]: the values of a numeric structure filled from an array;
     CasADi may refuse an array for its shape *)
  struct_from_array : struct_symSX -> list V -> res (list V)
}.

Variable ext : Collaborators.

(** *** Small control structures *)

(** [for a in l: body(a)] *)
Fixpoint for_each {S A} (l : list A) (body : A -> M S unit) : M S unit :=
  match l with
  | [] => ret tt
  | a :: l' => body a >> for_each l' body
  end.

(** [try: c / except: None] *)
Definition try_except {S} (c : M S unit) : M S unit :=
  fun s => (Ok tt, snd (c s)).

(** *** Construction *)

Definition default_params : Params :=
  mkParams None None false "collocation" "radau" 2 1 false true
    ["success"; "t_wall_S"; "t_wall_S"] ∅.

(** [MHE.__init__(self, model, p_est_list=[])], with [Estimator.__init__]
    inlined.  [base] is what [Optimizer.__init__] (not in this file)
    leaves on the object. *)
Definition MHE_init (base : OptimizerBase) (model : Model) (p_est_list : list string)
  : res MHE :=
  if negb (model_flags_setup model)
  then Raise (AssertionError
    "Model for estimator was not setup. After the complete model creation call model.setup_model().")
  else
    let _p := model_p model in
    let p_est := make_p_est _p p_est_list in
    let p_set := make_p_set _p p_est_list in
    match Function_new "p_cat_fun" [cat p_est; cat p_set] (cat _p) with
    | Raise e => Raise e
    | Ok f =>
        Ok (mkMHE model default_params
              (mkFlags false false false false false)
              (mkPartition p_est p_set f
                 (copy_struct ext (model_x model)) (copy_struct ext p_est))
              (mkBounds (ob_x_lb base) (ob_x_ub base) (ob_u_lb base) (ob_u_ub base)
                 (ob_z_lb base) (ob_z_ub base)
                 (ob_x_scaling base) (ob_u_scaling base) (ob_z_scaling base)
                 (struct_call p_est vneg_inf) (struct_call p_est vinf)
                 (dm_cat (struct_call p_est vone)))
              (ob_nl_cons_list base) None
              (mkCallbacks None None None [])
              (mkObjective None None)
              (mkEstimates (dm_cat (struct_call (model_x model) vzero))
                 (dm_cat (struct_call (model_u model) vzero))
                 (dm_cat (struct_call (model_z model) vzero))
                 (dm_cat (struct_call p_est vzero))
                 vzero)
              Data_new None)
    end.

(** *** [Estimator.set_initial_state], [Estimator.reset_history] *)

(** What a caller may pass as [x0]. *)
Inductive pyobj :=
| ndarray (a : list V)
| casadi_DM (a : list V)
| DMStruct_obj (s : DMStruct V)
| other_obj (size_attr : option nat).

(** The value of [x0.size]: an integer for numpy arrays and structures,
    a bound method for [casadi.DM]. *)
Inductive py_attr := attr_int (n : nat) | attr_method.

Global Instance py_attr_eq_dec : EqDecision py_attr.
Proof. solve_decision. Defined.

Definition size_attr_of (x0 : pyobj) : res py_attr :=
  match x0 with
  | ndarray a => Ok (attr_int (length a))
  | casadi_DM _ => Ok attr_method
  | DMStruct_obj s => Ok (attr_int (length (dm_cat s)))
  | other_obj (Some n) => Ok (attr_int n)
  | other_obj None => Raise (AttributeError "size")
  end.

(** What a caller may pass as [reset_history]. *)
Inductive pyflag := py_bool (b : bool) | py_not_bool.

Definition is_py_bool (f : pyflag) : bool :=
  match f with py_bool _ => true | py_not_bool => false end.
Definition truthy (f : pyflag) : bool :=
  match f with py_bool b => b | py_not_bool => true end.

Definition assign_x0 (x : list V) (s : MHE) : MHE :=
  let e := estimates s in
  set_estimates (mkEstimates x (_u0 e) (_z0 e) (_p_est0 e) (_t0 e)) s.

Definition reset_history : M MHE unit :=
  modify (fun s => set_data (data_init_storage (data s)) s).

Definition set_initial_state (x0 : pyobj) (reset_history_arg : pyflag) : M MHE unit :=
  let* sz := lift_res (size_attr_of x0) in
  let* st := get in
  assert (bool_decide (sz = attr_int (struct_size (model_x (model st)))))
    "Intial state cannot be set because the supplied vector has the wrong size. You have {} and the model is setup for {}" >>
  assert (is_py_bool reset_history_arg)
    "reset_history parameter must be of type bool. You have {}" >>
  match x0 with
  | ndarray a | casadi_DM a =>
      (* self._x0 = self.model._x(x0) *)
      let* v := lift_res (struct_from_array ext (model_x (model st)) a) in
      modify (assign_x0 v)
  | DMStruct_obj s => modify (assign_x0 (dm_cat s))
  | other_obj _ =>
      raise (Exception
        "x0 must be of tpye (np.ndarray, casadi.DM, structure3.DMStruct). You have: {}" [])
  end >>
  if truthy reset_history_arg then reset_history else ret tt.

(** *** [MHE.set_param] *)

Definition set_param (kwargs : list kwarg) : M MHE unit :=
  let* st := get in
  assert (negb (flag_setup (flags st))) "Setting parameters after setup is prohibited." >>
  for_each kwargs (fun kw => modify (fun s => set_params (setattr_param (params s) kw) s)).

(** *** [MHE.set_objective] *)

(** [set(symvar(a)).issubset(set(b))] *)
Definition issubset (a b : list sym) : bool :=
  forallb (fun s => bool_decide (s ∈ b)) a.

Definition set_objective (obj_expr arrival_cost : SX) : M MHE unit :=
  assert (bool_decide (sx_shape obj_expr = (1, 1))) "obj must have shape=(1,1). You have {}" >>
  assert (bool_decide (sx_shape arrival_cost = (1, 1)))
    "arrival_cost must have shape=(1,1). You have {}" >>
  let* st := get in
  assert (negb (flag_setup (flags st))) "Cannot call .set_objective after .setup." >>
  let m := model st in
  let pt := part st in
  let obj_input := [cat (model_x m); cat (model_u m); cat (model_z m);
                    cat (model_tvp m); cat (model_p m); cat (model_y m)] in
  assert (issubset (sx_symvar obj_expr) (concat obj_input))
    "objective cost equation must be solely depending on x, u, z, p, tvp, y_meas." >>
  modify (fun s => set_objective_funs
            (mkObjective (Some (mkFunction "obj_fun" obj_input obj_expr))
               (arrival_cost_fun (objective s))) s) >>
  let arrival_cost_input := [cat (model_x m); cat (_x_prev pt); cat (_p_est pt);
                             cat (_p_prev pt)] in
  assert (issubset (sx_symvar arrival_cost) (concat arrival_cost_input))
    "Arrival cost equation must be solely depending on x_0, x_prev, p_0, p_prev." >>
  modify (fun s => set_objective_funs
            (mkObjective (obj_fun (objective s))
               (Some (mkFunction "arrival_cost_fun" arrival_cost_input arrival_cost))) s) >>
  modify (fun s => set_flags (raise_flag_set_objective (flags s)) s).

(** *** Callbacks and their templates *)

Definition assign_y_template (t : list (list V)) (s : MHE) : MHE :=
  let c := callbacks s in
  set_callbacks (mkCallbacks (tvp_fun c) (p_fun c) (y_fun c) t) s.

(** [y_template['y_meas', k] = row], on the captured template. *)
Definition y_template_set (k : Z) (row : list V) : M MHE unit :=
  let* st := get in
  let* t := lift_res (py_set (y_template (callbacks st)) k row) in
  modify (assign_y_template t).

(** The [y_fun] that [check_validity] injects (lines 334-343): the last
    [n_steps] measurements of the history fill the end of the template,
    the oldest of them pads the front. *)
Definition default_y_fun (template_labels : list label) : M MHE (DMStruct V) :=
  let* N := getattr (fun s => n_horizon (params s)) "n_horizon" in
  let* st := get in
  let _y := data_field "_y" (data st) in
  let n_steps := Z.of_nat (Nat.min (length _y) N) in
  for_each (py_range (- n_steps) 0)
    (fun k => let* row := lift_res (py_get _y k) in y_template_set k row) >>
  try_except
    (for_each (py_range 0 (Z.of_nat N - n_steps))
       (fun k => let* row := lift_res (py_get _y (- n_steps)) in y_template_set k row)) >>
  let* st' := get in
  ret (mkDM template_labels (concat (y_template (callbacks st')))).

(** [cb(t)] *)
Definition call_cb (cb : callback) (t : V) : M MHE (DMStruct V) :=
  match cb with
  | UserFun f => lift_res (f t)
  | TemplateFun template => ret template
  | DefaultYFun template_labels => default_y_fun template_labels
  end.

Definition get_p_template : M MHE (DMStruct V) :=
  gets (fun s => struct_call (_p_set (part s)) vzero).

Definition set_p_fun (f : callback) : M MHE unit :=
  let* template := get_p_template in
  let* out := call_cb f vzero in
  assert (bool_decide (dm_labels template = dm_labels out))
    "Incorrect output of p_fun. Use get_p_template to obtain the required structure." >>
  modify (fun s => let c := callbacks s in
                   set_callbacks (mkCallbacks (tvp_fun c) (Some f) (y_fun c) (y_template c)) s) >>
  modify (fun s => set_flags (raise_flag_set_p_fun (flags s)) s).

(** [struct_symSX([entry(name, repeat=n, struct=s)])(0)] *)
Definition repeat_template (name : string) (n : nat) (s : struct_symSX) : DMStruct V :=
  mkDM (repeat_labels name n s) (replicate (n * struct_size s) vzero).

Definition get_y_template : M MHE (DMStruct V) :=
  let* N := getattr (fun s => n_horizon (params s)) "n_horizon" in
  gets (fun s => repeat_template "y_meas" N (model_y (model s))).

Definition set_y_fun (f : callback) : M MHE unit :=
  let* template := get_y_template in
  let* out := call_cb f vzero in
  assert (bool_decide (dm_labels template = dm_labels out))
    "Incorrect output of y_fun. Use get_y_template to obtain the required structure." >>
  modify (fun s => let c := callbacks s in
                   set_callbacks (mkCallbacks (tvp_fun c) (p_fun c) (Some f) (y_template c)) s) >>
  modify (fun s => set_flags (raise_flag_set_y_fun (flags s)) s).

(** Modelled from the spec: [get_tvp_template] and [set_tvp_fun] belong to
    the optimizer base class, which is not part of this file.  The
    template is a zero-valued structural instance holding a trajectory of
    time-varying-parameter values of length N; [set_tvp_fun] stores the
    function and fails unless its output, evaluated once, has the
    labeling of the template. *)
Definition get_tvp_template : M MHE (DMStruct V) :=
  let* N := getattr (fun s => n_horizon (params s)) "n_horizon" in
  gets (fun s => repeat_template "_tvp" N (model_tvp (model s))).

Definition set_tvp_fun (f : callback) : M MHE unit :=
  let* template := get_tvp_template in
  let* out := call_cb f vzero in
  assert (bool_decide (dm_labels template = dm_labels out))
    "Incorrect output of tvp_fun. Use get_tvp_template to obtain the required structure." >>
  modify (fun s => let c := callbacks s in
                   set_callbacks (mkCallbacks (Some f) (p_fun c) (y_fun c) (y_template c)) s) >>
  modify (fun s => set_flags (raise_flag_set_tvp_fun (flags s)) s).

(** *** [MHE.check_validity] *)

(** [np.any(b)] *)
Definition np_any (b : list bool) : bool := existsb id b.

(** [[label_i for i, label_i in enumerate(lb.labels()) if bound_check[i]]];
    a numeric structure has as many labels as values. *)
Definition bound_fail (lb ub : DMStruct V) : list label :=
  let bound_check := vec_gt (dm_cat lb) (dm_cat ub) in
  map fst (List.filter snd (zip (dm_labels lb) bound_check)).

(** The body of the loop over the bound pairs (lines 313-316). *)
Definition check_bound_pair (lbub : DMStruct V * DMStruct V) : M MHE unit :=
  let '(lb, ub) := lbub in
  let bound_check := vec_gt (dm_cat lb) (dm_cat ub) in
  if np_any bound_check
  then raise (Exception
         "Your bounds are inconsistent. For {} you have lower bound > upper bound."
         (bound_fail lb ub))
  else ret tt.

(** [zip([self._x_lb, self._u_lb, self._z_lb], [self._x_ub, self._u_ub, self._z_ub])] *)
Definition checked_bound_pairs (b : Bounds) : list (DMStruct V * DMStruct V) :=
  zip [_x_lb b; _u_lb b; _z_lb b] [_x_ub b; _u_ub b; _z_ub b].

(** Lines 299-308: what must have been registered. *)
Definition check_registrations : M MHE unit :=
  let* st := get in
  (if negb (flag_set_objective (flags st))
   then raise (Exception
          "Objective is undefined. Please call .set_objective() prior to .setup()." [])
   else ret tt) >>
  (if negb (flag_set_tvp_fun (flags st)) && bool_decide (0 < struct_size (model_tvp (model st)))
   then raise (Exception
          "You have not supplied a function to obtain the time varying parameters defined in model. Use .set_tvp_fun() prior to setup." [])
   else ret tt) >>
  (if negb (flag_set_p_fun (flags st)) && bool_decide (0 < struct_size (_p_set (part st)))
   then raise (Exception
          "You have not supplied a function to obtain the parameters defined in model. Use .set_p_fun() (low-level API) or .set_uncertainty_values() (high-level API) prior to setup." [])
   else ret tt).

(** Lines 311-316: lower bounds should be lower than upper bounds. *)
Definition check_bounds : M MHE unit :=
  let* st := get in
  for_each (checked_bound_pairs (bounds st)) check_bound_pair.

(** Lines 318-329: dummy functions for tvp and p when the caller has set
    none. *)
Definition inject_dummy_funs : M MHE unit :=
  let* st := get in
  (match tvp_fun (callbacks st) with
   | None => let* _tvp := get_tvp_template in set_tvp_fun (TemplateFun _tvp)
   | Some _ => ret tt
   end) >>
  let* st := get in
  match p_fun (callbacks st) with
  | None => let* _p := get_p_template in set_p_fun (TemplateFun _p)
  | Some _ => ret tt
  end.

(** Lines 331-346: the measurement function. *)
Definition require_y_fun : M MHE unit :=
  let* st := get in
  if negb (flag_set_y_fun (flags st)) && meas_from_data (params st)
  then
    let* y_t := get_y_template in
    let* N := getattr (fun s => n_horizon (params s)) "n_horizon" in
    modify (fun s => assign_y_template
              (replicate N (replicate (struct_size (model_y (model s))) vzero)) s) >>
    set_y_fun (DefaultYFun (dm_labels y_t))
  else
    raise (Exception
      "You have not suppplied a measurement function. Use .set_y_fun or set parameter meas_from_data to True for default function." []).

Definition check_validity : M MHE unit :=
  check_registrations >> check_bounds >> inject_dummy_funs >> require_y_fun.

(** *** [MHE.set_initial_guess] *)

Definition set_opt_x_num (v : opt_x_val) (pb : Problem) : Problem :=
  mkProblem (opt_x pb) (n_opt_x pb) (opt_p pb) (aux_struct pb) (opt_aux pb)
    (lb_opt_x pb) (ub_opt_x pb) (obj pb) (nlp_cons pb) (cons_lb pb) (cons_ub pb)
    (n_total_coll_points pb) (S_solver pb) v (opt_p_num pb) (opt_aux_num pb).
Definition set_opt_p_num (v : opt_p_val) (pb : Problem) : Problem :=
  mkProblem (opt_x pb) (n_opt_x pb) (opt_p pb) (aux_struct pb) (opt_aux pb)
    (lb_opt_x pb) (ub_opt_x pb) (obj pb) (nlp_cons pb) (cons_lb pb) (cons_ub pb)
    (n_total_coll_points pb) (S_solver pb) (opt_x_num pb) v (opt_aux_num pb).
Definition set_opt_aux_num (v : list (list V)) (pb : Problem) : Problem :=
  mkProblem (opt_x pb) (n_opt_x pb) (opt_p pb) (aux_struct pb) (opt_aux pb)
    (lb_opt_x pb) (ub_opt_x pb) (obj pb) (nlp_cons pb) (cons_lb pb) (cons_ub pb)
    (n_total_coll_points pb) (S_solver pb) (opt_x_num pb) (opt_p_num pb) v.

(** [s['_x'] = v]: every repetition of the entry receives [v]. *)
Definition fill2 (v : list V) (blocks : list (list (list V))) : list (list (list V)) :=
  map (map (fun _ => v)) blocks.
Definition fill1 (v : list V) (blocks : list (list V)) : list (list V) :=
  map (fun _ => v) blocks.

Definition set_initial_guess : M MHE unit :=
  let* st := get in
  assert (flag_setup (flags st)) "mhe was not setup yet. Please call mhe.setup()." >>
  let* pb := getattr problem "opt_x_num" in
  let e := estimates st in
  let b := bounds st in
  let cur := opt_x_num pb in
  let guess :=
    mk_opt_x (fill2 (vec_div (_x0 e) (_x_scaling b)) (ox_x cur))
             (fill2 (vec_div (_z0 e) (_z_scaling b)) (ox_z cur))
             (fill1 (vec_div (_u0 e) (_u_scaling b)) (ox_u cur))
             (vec_div (_p_est0 e) (_p_est_scaling b)) in
  modify (set_problem (Some (set_opt_x_num guess pb))).

(** *** [MHE._setup_mhe_optim_problem] *)

(** [d.update(other)]: the dictionary [d] is updated in place (entries of
    [other] win) and the call returns [None]. *)
Definition dict_update {A} (d other : gmap string A)
  : gmap string A * option (gmap string A) :=
  (other ∪ d, None).

(** The literal dictionary of lines 554-557. *)
Definition default_nlpsol_opts : gmap string opt_value :=
  <["expand" := OBool false]> (<["ipopt.linear_solver" := OStr "mumps"]> ∅).

(** The design document's rule for the options of the solver: the
    caller-supplied options merged over the default set. *)
Definition merged_nlpsol_opts (caller_opts : gmap string opt_value)
  : gmap string opt_value :=
  caller_opts ∪ default_nlpsol_opts.

(** [self.opt_x] (lines 440-445) *)
Definition make_opt_x (m : Model) (pt : Partition) (N ncp : nat) : list rep_entry :=
  [ mkRep "_x" [N + 1; 1 + ncp] (model_x m);
    mkRep "_z" [N; 1 + ncp] (model_z m);
    mkRep "_u" [N] (model_u m);
    mkRep "_p_est" [] (_p_est pt) ].

(** [self.opt_p] (lines 462-468) *)
Definition make_opt_p (m : Model) (pt : Partition) (N : nat) : list rep_entry :=
  [ mkRep "_x_prev" [] (model_x m);
    mkRep "_p_prev" [] (_p_prev pt);
    mkRep "_p_set" [] (_p_set pt);
    mkRep "_tvp" [N] (model_tvp m);
    mkRep "_y_meas" [N] (model_y m) ].

(** [opt_x(v)]: the numeric structure with every value set to [v]. *)
Definition opt_x_call (m : Model) (pt : Partition) (N ncp : nat) (v : V) : opt_x_val :=
  mk_opt_x
    (replicate (N + 1) (replicate (1 + ncp) (replicate (struct_size (model_x m)) v)))
    (replicate N (replicate (1 + ncp) (replicate (struct_size (model_z m)) v)))
    (replicate N (replicate (struct_size (model_u m)) v))
    (replicate (struct_size (_p_est pt)) v).

(** [opt_p(v)] *)
Definition opt_p_call (m : Model) (pt : Partition) (N : nat) (v : V) : opt_p_val :=
  mk_opt_p
    (replicate (struct_size (model_x m)) v)
    (replicate (struct_size (_p_prev pt)) v)
    (replicate (struct_size (_p_set pt)) v)
    (replicate (N * struct_size (model_tvp m)) v)
    (replicate (N * struct_size (model_y m)) v).

(** What the loop over the control intervals accumulates. *)
Record Assembly := mkAssembly {
  a_obj : expr;
  a_cons : list expr;
  a_cons_lb : list (list V);
  a_cons_ub : list (list V);
  a_opt_aux : list expr;
  a_lb_opt_x : opt_x_val;
  a_ub_opt_x : opt_x_val
}.

(** [np.zeros(n)] *)
Definition np_zeros (n : nat) : list V := replicate n vzero.

(** The expressions built for the interval [k] (lines 504-533); [ncp] is
    the number of collocation points, [_p] the recombined parameter
    vector. *)
Definition ifcn_args (ncp : nat) (_p : expr) (k : nat) : list expr :=
  [ Var (opt_x_x k ncp);
    Vertcat (map (fun j => Var (opt_x_x (k + 1) j)) (seq 0 ncp));
    Var (opt_x_u k);
    Vertcat (map (fun j => Var (opt_x_z k j)) (seq 0 (1 + ncp)));
    Var (opt_p_tvp k);
    _p ].
Definition g_ksb (ncp : nat) (_p : expr) (k : nat) : expr :=
  Call ifcn (ifcn_args ncp _p k) 0.
Definition xf_ksb (ncp : nat) (_p : expr) (k : nat) : expr :=
  Call ifcn (ifcn_args ncp _p k) 1.
Definition continuity (ncp : nat) (_p : expr) (k : nat) : expr :=
  Minus (xf_ksb ncp _p k) (Var (opt_x_x (k + 1) ncp)).
Definition nl_cons_k (ncp : nat) (_p : expr) (k : nat) : expr :=
  Call nl_cons_fun
    [ Unscaled (opt_x_x k ncp); Unscaled (opt_x_u k); Unscaled (opt_x_z k ncp);
      Var (opt_p_tvp k); _p ] 0.
Definition stage_cost (ncp : nat) (_p : expr) (k : nat) : expr :=
  Call obj_fun_call
    [ Unscaled (opt_x_x (k + 1) ncp); Unscaled (opt_x_u k); Unscaled (opt_x_z k ncp);
      Var (opt_p_tvp k); _p; Var (opt_p_y_meas k) ] 0.
Definition aux_k (ncp : nat) (_p : expr) (k : nat) : expr :=
  Call aux_expression_fun
    [ Unscaled (opt_x_x k ncp); Unscaled (opt_x_u k); Unscaled (opt_x_z k ncp);
      Var (opt_p_tvp k); _p ] 0.

(** One pass of the loop body (lines 503-541) for the interval [k].
    [g_rows] is [g_ksb.shape[0]]. *)
Definition horizon_step (m : Model) (b : Bounds) (nl_lb nl_ub : list V)
    (g_rows ncp : nat) (_p : expr) (a : Assembly) (k : nat) : Assembly :=
  let lb := a_lb_opt_x a in
  let ub := a_ub_opt_x a in
  mkAssembly
    (Plus (a_obj a) (stage_cost ncp _p k))
    (a_cons a ++ [g_ksb ncp _p k] ++ [continuity ncp _p k] ++ [nl_cons_k ncp _p k])
    (a_cons_lb a ++ [np_zeros g_rows] ++ [np_zeros (n_x m)] ++ [nl_lb])
    (a_cons_ub a ++ [np_zeros g_rows] ++ [np_zeros (n_x m)] ++ [nl_ub])
    (<[k := aux_k ncp _p k]> (a_opt_aux a))
    (mk_opt_x
       (<[k := replicate (1 + ncp) (vec_div (dm_cat (_x_lb b)) (_x_scaling b))]> (ox_x lb))
       (ox_z lb)
       (<[k := vec_div (dm_cat (_u_lb b)) (_u_scaling b)]> (ox_u lb))
       (ox_p_est lb))
    (mk_opt_x
       (<[k := replicate (1 + ncp) (vec_div (dm_cat (_x_ub b)) (_x_scaling b))]> (ox_x ub))
       (ox_z ub)
       (<[k := vec_div (dm_cat (_u_ub b)) (_u_scaling b)]> (ox_u ub))
       (ox_p_est ub)).

(** The state of the assembly before the loop (lines 479-499). *)
Definition assembly_init (m : Model) (pt : Partition) (N ncp : nat) : Assembly :=
  let arrival_cost :=
    Call arrival_cost_fun_call
      [ Var (opt_x_x 0 ncp); Div (Var opt_p_x_prev) x_scaling;
        Var opt_x_p_est; Div (Var opt_p_p_prev) p_est_scaling ] 0 in
  mkAssembly (Plus Zero arrival_cost) [] [] []
    (replicate N Zero)
    (opt_x_call m pt N ncp vneg_inf)
    (opt_x_call m pt N ncp vinf).

(** [_p = self._p_cat_fun(self.opt_x['_p_est'], self.opt_p['_p_set'])] *)
Definition recombined_p : expr := Call p_cat_fun [Var opt_x_p_est; Var opt_p_p_set] 0.

(** The loop [for k in range(self.n_horizon)] and the bounds of the
    estimated parameters recorded after it (lines 502-545). *)
Definition assemble (m : Model) (pt : Partition) (b : Bounds) (nl_lb nl_ub : list V)
    (g_rows ncp N : nat) : Assembly :=
  let a := foldl (horizon_step m b nl_lb nl_ub g_rows ncp recombined_p)
             (assembly_init m pt N ncp) (seq 0 N) in
  let lb := a_lb_opt_x a in
  let ub := a_ub_opt_x a in
  mkAssembly (a_obj a) (a_cons a) (a_cons_lb a) (a_cons_ub a) (a_opt_aux a)
    (mk_opt_x (ox_x lb) (ox_z lb) (ox_u lb)
       (vec_div (dm_cat (_p_est_lb b)) (_p_est_scaling b)))
    (mk_opt_x (ox_x ub) (ox_z ub) (ox_u ub)
       (vec_div (dm_cat (_p_est_ub b)) (_p_est_scaling b))).

(** The structures, the solver instance and the numeric buffers
    (lines 440-477 and 548-568), from the sizes the discretization
    reports and the bounds of the nonlinear constraints. *)
Definition make_problem (m : Model) (pt : Partition) (b : Bounds)
    (caller_opts : gmap string opt_value) (nl : list V * list V)
    (g_rows ncp N : nat) : Problem :=
  let opt_x_s := make_opt_x m pt N ncp in
  let opt_p_s := make_opt_p m pt N in
  let aux_s := [mkRep "_aux" [N] (model_aux_expression m)] in
  let a := assemble m pt b (fst nl) (snd nl) g_rows ncp N in
  (* the merged dictionary is bound to a local name and not used again *)
  let nlpsol_opts_local := snd (dict_update default_nlpsol_opts caller_opts) in
  let S := mkSolver opt_x_s (a_obj a) (a_cons a) opt_p_s caller_opts in
  mkProblem opt_x_s (rep_struct_size opt_x_s) opt_p_s aux_s (a_opt_aux a)
    (a_lb_opt_x a) (a_ub_opt_x a) (a_obj a) (a_cons a) (a_cons_lb a) (a_cons_ub a)
    ncp S
    (opt_x_call m pt N ncp vzero)
    (opt_p_call m pt N vzero)
    (replicate N (replicate (struct_size (model_aux_expression m)) vzero)).

Definition _setup_mhe_optim_problem : M MHE unit :=
  let* st := get in
  let* disc := lift_res (setup_discretization ext (params st) (model st)) in
  let* N := getattr (fun s => n_horizon (params s)) "n_horizon" in
  let* _ := getattr (fun s => arrival_cost_fun (objective s)) "arrival_cost_fun" in
  (* attributes first read inside the loop body *)
  let* nl := (if decide (N = 0) then ret ([], [])
              else getattr _nl_cons_bounds "_nl_cons_fun") in
  let* _ := (if decide (N = 0) then ret tt
             else getattr (fun s => obj_fun (objective s)) "obj_fun" >> ret tt) in
  modify (set_problem (Some
    (make_problem (model st) (part st) (bounds st) (nlpsol_opts (params st)) nl
       (fst disc) (snd disc) N))).

(** *** Solving

    Modelled from the spec: [solve] belongs to the optimizer base class,
    which is not part of this file.  It invokes the solver with the
    current decision-variable buffer as initial guess, the declared
    bounds and the populated parameter buffer; the solution overwrites
    [opt_x_num] and the auxiliary expressions evaluated at it overwrite
    [opt_aux_num]. *)
Definition solve : M MHE unit :=
  let* pb := getattr problem "S" in
  let x := nlp_solve ext (S_solver pb) (opt_x_num pb) (lb_opt_x pb) (ub_opt_x pb)
             (cons_lb pb) (cons_ub pb) (opt_p_num pb) in
  let aux := aux_eval ext (opt_aux pb) x (opt_p_num pb) in
  modify (set_problem (Some (set_opt_aux_num aux (set_opt_x_num x pb)))).

(** *** [MHE.setup] *)

Definition sx_numel (e : SX) : nat := fst (sx_shape e) * snd (sx_shape e).

(** [self._nl_cons_lb], [self._nl_cons_ub] (lines 372-376) *)
Definition make_nl_cons_bounds (l : list nl_con) : list V * list V :=
  (flat_map (fun c => replicate (sx_numel (nl_expr c)) (nl_lb c)) l,
   flat_map (fun c => replicate (sx_numel (nl_expr c)) vzero) l).

Definition setup : M MHE unit :=
  modify (fun s => set_nl_cons_bounds (Some (make_nl_cons_bounds (nl_cons_list s))) s) >>
  (* meta_data = {key: getattr(self, key) for key in self.data_fields} *)
  let* _ := getattr (fun s => n_horizon (params s)) "n_horizon" in
  let* _ := getattr (fun s => t_step (params s)) "t_step" in
  modify (fun s => set_data (data_set_meta (params s) (data s)) s) >>
  check_validity >>
  _setup_mhe_optim_problem >>
  modify (fun s => set_flags (raise_flag_setup (flags s)) s) >>
  set_initial_guess >>
  modify (fun s => set_data (prepare_data ext (data s)) s).

(** *** [MHE.make_step] *)

(** [struct[key] = value]: sizes must agree, a scalar is broadcast. *)
Definition assign_block (old new : list V) : res (list V) :=
  if decide (length new = length old) then Ok new
  else match new with
       | [v] => Ok (replicate (length old) v)
       | _ => Raise (RuntimeError "dimension mismatch in assignment")
       end.

(** [self.data.update(key = value)] *)
Definition data_update_m (key : string) (value : list V) : M MHE unit :=
  modify (fun s => set_data (data_update key value (data s)) s).

(** [self.opt_p_num[...] = ...] (lines 403-407) *)
Definition fill_opt_p_num (x0 p_est0 p_set0 tvp0 y_traj : list V) : M MHE unit :=
  let* pb := getattr problem "opt_p_num" in
  let cur := opt_p_num pb in
  let* v1 := lift_res (assign_block (op_x_prev cur) x0) in
  let pb1 := set_opt_p_num
    (mk_opt_p v1 (op_p_prev cur) (op_p_set cur) (op_tvp cur) (op_y_meas cur)) pb in
  modify (set_problem (Some pb1)) >>
  let* v2 := lift_res (assign_block (op_p_prev cur) p_est0) in
  let pb2 := set_opt_p_num
    (mk_opt_p v1 v2 (op_p_set cur) (op_tvp cur) (op_y_meas cur)) pb in
  modify (set_problem (Some pb2)) >>
  let* v3 := lift_res (assign_block (op_p_set cur) p_set0) in
  let pb3 := set_opt_p_num (mk_opt_p v1 v2 v3 (op_tvp cur) (op_y_meas cur)) pb in
  modify (set_problem (Some pb3)) >>
  let* v4 := lift_res (assign_block (op_tvp cur) tvp0) in
  let pb4 := set_opt_p_num (mk_opt_p v1 v2 v3 v4 (op_y_meas cur)) pb in
  modify (set_problem (Some pb4)) >>
  let* v5 := lift_res (assign_block (op_y_meas cur) y_traj) in
  modify (set_problem (Some (set_opt_p_num (mk_opt_p v1 v2 v3 v4 v5) pb))).

Definition make_step (y0 : list V) : M MHE (list V) :=
  data_update_m "_y" y0 >>
  let* st := get in
  let p_est0 := _p_est0 (estimates st) in
  let x0 := _x0 (estimates st) in
  let t0 := _t0 (estimates st) in
  let* f_tvp := getattr (fun s => tvp_fun (callbacks s)) "tvp_fun" in
  let* tvp0 := call_cb f_tvp t0 in
  let* f_p := getattr (fun s => p_fun (callbacks s)) "p_fun" in
  let* p_set0 := call_cb f_p t0 in
  let* f_y := getattr (fun s => y_fun (callbacks s)) "y_fun" in
  let* y_traj := call_cb f_y t0 in
  fill_opt_p_num x0 p_est0 (dm_cat p_set0) (dm_cat tvp0) (dm_cat y_traj) >>
  solve >>
  (* Extract solution: *)
  let* pb := getattr problem "opt_x_num" in
  let b := bounds st in
  let sol := opt_x_num pb in
  let* x_last_k := lift_res (py_get (ox_x sol) (-1)) in
  let* x_last := lift_res (py_get x_last_k (-1)) in
  let x_next := vec_mul x_last (_x_scaling b) in
  let p_est_next := vec_mul (ox_p_est sol) (_p_est_scaling b) in
  modify (fun s => let e := estimates s in
            set_estimates (mkEstimates (_x0 e) (_u0 e) (_z0 e) p_est_next (_t0 e)) s) >>
  let* u_last := lift_res (py_get (ox_u sol) (-1)) in
  let u0 := vec_mul u_last (_u_scaling b) in
  let* z_last_k := lift_res (py_get (ox_z sol) (-1)) in
  let* z_last := lift_res (py_get z_last_k (-1)) in
  let z0 := vec_mul z_last (_z_scaling b) in
  let* aux0 := lift_res (py_get (opt_aux_num pb) (-1)) in
  let* p0 := lift_res (Function_call (_p_cat_fun (part st)) [p_est0; dm_cat p_set0]) in
  (* Update data object: *)
  data_update_m "_x" x0 >>
  data_update_m "_u" u0 >>
  data_update_m "_z" z0 >>
  data_update_m "_p" p0 >>
  data_update_m "_time" [t0] >>
  data_update_m "_aux_expression" aux0 >>
  (* Update initial *)
  let* dt := getattr (fun s => t_step (params s)) "t_step" in
  modify (fun s => let e := estimates s in
            set_estimates (mkEstimates (_x0 e) (_u0 e) (_z0 e) (_p_est0 e) (vadd (_t0 e) dt)) s) >>
  modify (fun s => let e := estimates s in
            set_estimates (mkEstimates x_next u0 z0 p_est_next (_t0 e)) s) >>
  ret x_next.

End Estimator.

(** ** A concrete estimator for examples

    Numbers are integers with the two infinities (only comparison and the
    arithmetic of finite values matter in the examples). *)

Inductive xnum := x_neg_inf | x_fin (z : Z) | x_pos_inf.

Definition xnum_gt (a b : xnum) : bool :=
  match a, b with
  | x_neg_inf, _ => false
  | x_fin _, x_neg_inf => true
  | x_fin x, x_fin y => (y <? x)%Z
  | x_fin _, x_pos_inf => false
  | x_pos_inf, x_pos_inf => false
  | x_pos_inf, _ => true
  end.

Definition xnum_add (a b : xnum) : xnum :=
  match a, b with
  | x_fin x, x_fin y => x_fin (x + y)
  | x_fin _, o => o
  | o, _ => o
  end.

Definition xnum_mul (a b : xnum) : xnum :=
  match a, b with
  | x_fin x, x_fin y => x_fin (x * y)
  | x_fin 1, o => o
  | o, _ => o
  end.

Definition xnum_div (a b : xnum) : xnum :=
  match a, b with
  | x_fin x, x_fin y => x_fin (x / y)
  | x_fin _, _ => x_fin 0
  | o, _ => o
  end.

Global Instance xnum_Num : Num xnum := {|
  vzero := x_fin 0;
  vone := x_fin 1;
  vinf := x_pos_inf;
  vneg_inf := x_neg_inf;
  vadd := xnum_add;
  vmul := xnum_mul;
  vdiv := xnum_div;
  vgt := xnum_gt
|}.

Module Example.

(** A model with one state, one input, one algebraic variable, two
    parameters and one measurement. *)
Definition ex_model : Model :=
  mkModel true
    [Entry "x" [SXsym "x" 0]]
    [Entry "u" [SXsym "u" 1]]
    [Entry "z" [SXsym "z" 2]]
    [Entry "k1" [SXsym "k1" 3]; Entry "k2" [SXsym "k2" 4]]
    []
    [Entry "y" [SXsym "y" 5]]
    [Entry "a" [SXsym "a" 6]].

(** Unbounded variables with unit scaling and no nonlinear constraint. *)
Definition ex_base : OptimizerBase (V := xnum) :=
  mkOptimizerBase
    (struct_call (model_x ex_model) x_neg_inf) (struct_call (model_x ex_model) x_pos_inf)
    (struct_call (model_u ex_model) x_neg_inf) (struct_call (model_u ex_model) x_pos_inf)
    (struct_call (model_z ex_model) x_neg_inf) (struct_call (model_z ex_model) x_pos_inf)
    [x_fin 1] [x_fin 1] [x_fin 1] [].

(** Collaborators of the examples: collocation with
    [collocation_ni * collocation_deg] intermediate points; a solver that
    returns every state equal to the newest measurement, every input and
    algebraic value equal to 7 and the estimated parameters equal to 9. *)
Definition ex_solve (S : Solver) (x0 lbx ubx : opt_x_val (V := xnum))
    (lbg ubg : list (list xnum)) (p : opt_p_val (V := xnum)) : opt_x_val (V := xnum) :=
  let y := match last (op_y_meas p) with Some v => v | None => x_fin 0 end in
  mk_opt_x (fill2 [y] (ox_x x0)) (fill2 [x_fin 7] (ox_z x0)) (fill1 [x_fin 7] (ox_u x0))
    (map (fun _ => x_fin 9) (ox_p_est x0)).

Definition ex_ext : Collaborators (V := xnum) :=
  mkCollaborators
    (fun p m => let ncp := collocation_ni p * collocation_deg p in Ok (ncp * n_x m, ncp))
    ex_solve
    (fun aux x p => map (fun _ => [x_fin 3]) aux)
    (fun d => d)
    (fun s => s)
    (fun s a => Ok a).

(** A store with nothing on it; it stands in where a construction
    would raise. *)
Definition ex_blank : MHE (V := xnum) :=
  mkMHE ex_model default_params (mkFlags false false false false false)
    (mkPartition [] [] (mkSymFunction "p_cat_fun" [] []) [] [])
    (mkBounds (mkDM [] []) (mkDM [] []) (mkDM [] []) (mkDM [] []) (mkDM [] []) (mkDM [] [])
       [] [] [] (mkDM [] []) (mkDM [] []) [])
    [] None (mkCallbacks None None None []) (mkObjective None None)
    (mkEstimates [] [] [] [] (x_fin 0)) Data_new None.

(** The estimator after construction with [p_est_list = ['k1']]. *)
Definition ex_new : MHE (V := xnum) :=
  match MHE_init ex_ext ex_base ex_model ["k1"] with
  | Ok s => s
  | Raise _ => ex_blank
  end.

Definition ex_stage_cost : SX := mkSX (1, 1) [SXsym "y" 5; SXsym "x" 0].
Definition ex_arrival_cost : SX := mkSX (1, 1) [SXsym "x" 0].

(** [p_fun]: the fixed parameter [k2] has the value 4 at all times. *)
Definition ex_p_fun : callback (V := xnum) :=
  UserFun (fun _ => Ok (mkDM (labels (make_p_set (model_p ex_model) ["k1"])) [x_fin 4])).

(** [y_fun]: a caller's measurement function, all zeros, for horizon 2. *)
Definition ex_y_fun : callback (V := xnum) :=
  UserFun (fun _ => Ok (mkDM (repeat_labels "y_meas" 2 (model_y ex_model))
                          [x_fin 0; x_fin 0])).

(** Bounds of the estimated parameter declared the wrong way round:
    lower bound 1, upper bound 0. *)
Definition ex_invert_p_est_bounds (s : MHE (V := xnum)) : MHE (V := xnum) :=
  let b := bounds s in
  set_bounds
    (mkBounds (_x_lb b) (_x_ub b) (_u_lb b) (_u_ub b) (_z_lb b) (_z_ub b)
       (_x_scaling b) (_u_scaling b) (_z_scaling b)
       (mkDM (dm_labels (_p_est_lb b)) [x_fin 1])
       (mkDM (dm_labels (_p_est_ub b)) [x_fin 0])
       (_p_est_scaling b)) s.

(** Configuration up to, not including, [setup()]: horizon 2, step 1, the
    default measurement function requested. *)
Definition ex_configure : M (MHE (V := xnum)) unit :=
  set_param [kw_n_horizon 2; kw_t_step (x_fin 1); kw_meas_from_data true] >>
  set_objective ex_stage_cost ex_arrival_cost >>
  set_p_fun ex_p_fun.

(** The same configuration with the caller's own measurement function
    and without the request for the default one. *)
Definition ex_configure_own_y_fun : M (MHE (V := xnum)) unit :=
  set_param [kw_n_horizon 2; kw_t_step (x_fin 1)] >>
  set_objective ex_stage_cost ex_arrival_cost >>
  set_p_fun ex_p_fun >>
  set_y_fun ex_y_fun.
Definition ex_own_y_fun : MHE (V := xnum) := snd (ex_configure_own_y_fun ex_new).

(** Bounds of the state and of the input both declared the wrong way
    round. *)
Definition ex_invert_x_u_bounds (s : MHE (V := xnum)) : MHE (V := xnum) :=
  let b := bounds s in
  set_bounds
    (mkBounds (mkDM (dm_labels (_x_lb b)) [x_fin 1]) (mkDM (dm_labels (_x_ub b)) [x_fin 0])
       (mkDM (dm_labels (_u_lb b)) [x_fin 1]) (mkDM (dm_labels (_u_ub b)) [x_fin 0])
       (_z_lb b) (_z_ub b)
       (_x_scaling b) (_u_scaling b) (_z_scaling b)
       (_p_est_lb b) (_p_est_ub b) (_p_est_scaling b)) s.

(** The stores after configuration, after [setup()] and after one
    [make_step] with the measurement 5. *)
Definition ex_ready : MHE (V := xnum) := snd (ex_configure ex_new).
Definition ex_after_setup : MHE (V := xnum) := snd (setup ex_ext ex_ready).
Definition ex_after_step : MHE (V := xnum) :=
  snd (make_step ex_ext [x_fin 5] ex_after_setup).

(** The store after a second [make_step], with the measurement 6. *)
Definition ex_after_two_steps : MHE (V := xnum) :=
  snd (make_step ex_ext [x_fin 6] ex_after_step).

(** The store after [setup()] with one measurement in the history and
    no step made. *)
Definition ex_one_measurement : MHE (V := xnum) :=
  set_data (data_update "_y" [x_fin 5] (data ex_after_setup)) ex_after_setup.

(** An arrival cost that depends on the input [u], which is not one of
    its inputs. *)
Definition ex_foreign_arrival_cost : SX := mkSX (1, 1) [SXsym "u" 1].

(** A [p_fun] whose output has no entry at all. *)
Definition ex_empty_p_fun : callback (V := xnum) :=
  UserFun (fun _ => Ok (mkDM [] [])).

(** A measurement function laid out for the horizon 3. *)
Definition ex_y_fun_horizon_3 : xnum -> res (DMStruct xnum) :=
  fun _ => Ok (mkDM (repeat_labels "y_meas" 3 (model_y ex_model))
                 [x_fin 0; x_fin 0; x_fin 0]).

End Example.

(** * Vocabulary of the properties *)

Section Vocabulary.
Context {V : Type} `{NumV : Num V}.
Implicit Types (st s : MHE (V := V)) (lb ub : DMStruct V) (env : list (sym * V)).

(** The symbols of the entries of [s] whose key satisfies [keep], in
    order. *)
Definition selected (keep : string -> bool) (s : struct_symSX) : list sym :=
  flat_map (fun e => if keep (e_name e) then e_syms e else []) s.


(** A computation whose every run relates the initial and the final
    store by [R], whether it returns or raises. *)
Definition preserves {S A} (R : relation S) (c : M S A) : Prop :=
  forall (s : S) (r : res A) (s' : S), c s = (r, s') -> R s s'.

(** Two stores that differ at most in the registered callbacks. *)
Definition callbacks_frame s s' : Prop := s' = set_callbacks (callbacks s') s.
(** Two stores that differ at most in the assembled problem and its
    numeric buffers. *)
Definition problem_frame s s' : Prop := s' = set_problem (problem s') s.

(** Two stores with the same value of one attribute. *)
Definition agree_on {X} (f : MHE (V := V) -> X) : relation (MHE (V := V)) :=
  fun s s' => f s' = f s.

(** The registration flag of the measurement function. *)
Definition y_flag s : bool := flag_set_y_fun (flags s).

(** The number of elements of an array-like argument. *)
Definition py_numel (x0 : pyobj (V := V)) : option nat :=
  match x0 with
  | ndarray a | casadi_DM a => Some (length a)
  | DMStruct_obj s => Some (length (dm_cat s))
  | other_obj _ => None
  end.

(** [isinstance(x0, (np.ndarray, casadi.DM, structure3.DMStruct))] *)
Definition accepted_type (x0 : pyobj (V := V)) : Prop :=
  match x0 with other_obj _ => False | _ => True end.



(** No component of the pair has its lower bound above its upper bound. *)
Definition consistent lb ub : Prop :=
  forall i a c, dm_cat lb !! i = Some a -> dm_cat ub !! i = Some c -> vgt a c = false.

(** The message of the bounds failure. *)
Definition bounds_msg : string :=
  "Your bounds are inconsistent. For {} you have lower bound > upper bound.".

(** The registrations that [check_validity] asks for before it looks at
    the bounds. *)
Definition registrations_ok st : Prop :=
  flag_set_objective (flags st) = true /\
  (flag_set_tvp_fun (flags st) = true \/ struct_size (model_tvp (model st)) = 0) /\
  (flag_set_p_fun (flags st) = true \/ struct_size (_p_set (part st)) = 0).

(** The store after [set_p_fun(f)] / [set_y_fun(f)] succeeded. *)
Definition with_p_fun (f : callback) st : MHE :=
  let c := callbacks st in
  set_flags (raise_flag_set_p_fun (flags st))
    (set_callbacks (mkCallbacks (tvp_fun c) (Some f) (y_fun c) (y_template c)) st).
Definition with_y_fun (f : callback) st : MHE :=
  let c := callbacks st in
  set_flags (raise_flag_set_y_fun (flags st))
    (set_callbacks (mkCallbacks (tvp_fun c) (p_fun c) (Some f) (y_template c)) st).

(** A keyword that is one of [self.data_fields]. *)
Definition known_key (kw : kwarg (V := V)) : bool :=
  match kw with kw_unknown _ => false | _ => true end.

(** The inputs of the two cost functions. *)
Definition obj_input (m : Model) : list (list sym) :=
  [cat (model_x m); cat (model_u m); cat (model_z m);
   cat (model_tvp m); cat (model_p m); cat (model_y m)].
Definition arrival_cost_input (m : Model) (pt : Partition) : list (list sym) :=
  [cat (model_x m); cat (_x_prev pt); cat (_p_est pt); cat (_p_prev pt)].

(** The store after [set_objective(obj, arrival_cost)] succeeded. *)
Definition with_objective (obj_expr arrival_cost : SX) st : MHE :=
  set_flags (raise_flag_set_objective (flags st))
    (set_objective_funs
       (mkObjective
          (Some (mkFunction "obj_fun" (obj_input (model st)) obj_expr))
          (Some (mkFunction "arrival_cost_fun"
                   (arrival_cost_input (model st) (part st)) arrival_cost))) st).

(** Two stores that differ at most in the contents of the template
    captured by the injected measurement function. *)
Definition template_frame s s' : Prop :=
  s' = assign_y_template (y_template (callbacks s')) s.

(** What is fixed by construction and configuration: everything but the
    callbacks, the estimates, the history and the assembled problem. *)
Definition configuration s :=
  (model s, params s, flags s, part s, bounds s, nl_cons_list s, _nl_cons_bounds s,
   objective s).

(** The three messages of the registration checks. *)
Definition objective_msg : string :=
  "Objective is undefined. Please call .set_objective() prior to .setup().".
Definition tvp_fun_msg : string :=
  "You have not supplied a function to obtain the time varying parameters defined in model. Use .set_tvp_fun() prior to setup.".
Definition p_fun_msg : string :=
  "You have not supplied a function to obtain the parameters defined in model. Use .set_p_fun() (low-level API) or .set_uncertainty_values() (high-level API) prior to setup.".

(** The three constraint blocks of the control interval [k], and their
    lower and upper bounds. *)
Definition interval_constraints (ncp k : nat) : list expr :=
  [g_ksb ncp recombined_p k; continuity ncp recombined_p k; nl_cons_k ncp recombined_p k].
Definition interval_bounds (m : Model) (g_rows : nat) (nl : list V) : list (list V) :=
  [np_zeros g_rows; np_zeros (n_x m); nl].

(** What the methods called by [setup()] before the assembly can change:
    the callbacks and the registration flags of the three functions. *)
Definition untouched_by_registration s :=
  (model s, params s, part s, bounds s, nl_cons_list s, _nl_cons_bounds s, objective s,
   estimates s, data s, problem s, flag_setup (flags s), flag_set_objective (flags s)).

(** What a step that fails must not have touched: the history, the
    initial state, input and algebraic value, the clock and the
    parameters. *)
Definition step_progress s :=
  (d_log (data s), _x0 (estimates s), _u0 (estimates s), _z0 (estimates s),
   _t0 (estimates s), params s).

End Vocabulary.

(** * Properties *)

(** ** The parameter partition *)

Section PartitionFacts.
Context {V : Type}.
Implicit Types (s _p : struct_symSX) (keep : string -> bool) (env : list (sym * V)).

Lemma struct_get_elem s e :
  NoDup (keys s) -> e ∈ s -> struct_get s (e_name e) = e_syms e.
Proof.
  induction s as [|e' s IH]; intros Hnd Hin; [by apply elem_of_nil in Hin|].
  simpl in *. apply NoDup_cons in Hnd as [Hnotin Hnd].
  apply elem_of_cons in Hin as [->|Hin]; [by rewrite decide_True|].
  rewrite decide_False; [by apply IH|].
  intros Heq. apply Hnotin. rewrite Heq. unfold keys.
  apply list_elem_of_fmap. by exists e.
Qed.

Lemma cat_entries_where_sub _p keep s :
  (forall e, e ∈ s -> struct_get _p (e_name e) = e_syms e) ->
  cat (map (fun p_i => Entry p_i (struct_get _p p_i)) (List.filter keep (keys s)))
  = selected keep s.
Proof.
  induction s as [|e s IH]; intros Hget; [done|].
  simpl. destruct (keep (e_name e)) eqn:Hk; simpl.
  - rewrite Hget; [|by left]. f_equal. apply IH. intros e' He'. apply Hget. by right.
  - apply IH. intros e' He'. apply Hget. by right.
Qed.

Lemma cat_entries_where _p keep :
  NoDup (keys _p) -> cat (entries_where _p keep) = selected keep _p.
Proof.
  intros Hnd. apply cat_entries_where_sub. intros e He. by apply struct_get_elem.
Qed.

Lemma cat_make_p_est _p l :
  NoDup (keys _p) -> cat (make_p_est _p l) = selected (in_list l) _p.
Proof. intros. unfold make_p_est. simpl. by apply cat_entries_where. Qed.

Lemma cat_make_p_set _p l :
  NoDup (keys _p) -> cat (make_p_set _p l) = selected (fun k => negb (in_list l k)) _p.
Proof. intros. unfold make_p_set. by apply cat_entries_where. Qed.

Lemma selected_perm keep s :
  selected keep s ++ selected (fun k => negb (keep k)) s ≡ₚ cat s.
Proof.
  induction s as [|e s IH]; [done|]. simpl.
  destruct (keep (e_name e)); simpl.
  - rewrite <- app_assoc. by rewrite IH.
  - rewrite (Permutation_app_comm (e_syms e)), app_assoc, IH.
    apply Permutation_app_comm.
Qed.
















End PartitionFacts.

(** ** Runs of the state and exception monad *)

(** Unfolds the combinators of the monad down to functions of the store. *)
Ltac unfold_monad :=
  unfold bind, ret, raise, get, gets, modify, lift_res, assert, getattr in *.

Section MonadFacts.
Context {S : Type}.

Lemma bind_ok_inv {A B} (c : M S A) (k : A -> M S B) s b s' :
  bind c k s = (Ok b, s') ->
  exists a s1, c s = (Ok a, s1) /\ k a s1 = (Ok b, s').
Proof.
  unfold bind. destruct (c s) as [[a|e] s1]; [eauto|discriminate].
Qed.

Lemma bind_ok {A B} (c : M S A) (k : A -> M S B) s a s1 :
  c s = (Ok a, s1) -> bind c k s = k a s1.
Proof. unfold bind. by intros ->. Qed.

Lemma bind_raise {A B} (c : M S A) (k : A -> M S B) s e s1 :
  c s = (Raise e, s1) -> bind c k s = (Raise e, s1).
Proof. unfold bind. by intros ->. Qed.

Context (R : relation S) `{!PreOrder R}.

Lemma preserves_ret {A} (a : A) : preserves R (ret a).
Proof. intros s r s' [= _ <-]. reflexivity. Qed.

Lemma preserves_raise {A} e : preserves R (raise (A := A) e).
Proof. intros s r s' [= _ <-]. reflexivity. Qed.

Lemma preserves_lift_res {A} (x : res A) : preserves R (lift_res x).
Proof. intros s r s' [= _ <-]. reflexivity. Qed.

Lemma preserves_get : preserves R get.
Proof. intros s r s' [= _ <-]. reflexivity. Qed.

Lemma preserves_gets {A} (f : S -> A) : preserves R (gets f).
Proof. intros s r s' [= _ <-]. reflexivity. Qed.

Lemma preserves_getattr {A} (f : S -> option A) name : preserves R (getattr f name).
Proof.
  intros s r s'. unfold getattr. destruct (f s); intros [= _ <-]; reflexivity.
Qed.

Lemma preserves_assert c msg : preserves R (assert c msg).
Proof. destruct c; [apply preserves_ret | apply preserves_raise]. Qed.

Lemma preserves_modify (f : S -> S) : (forall s, R s (f s)) -> preserves R (modify f).
Proof. intros Hf s r s' [= _ <-]. apply Hf. Qed.

Lemma preserves_bind {A B} (c : M S A) (k : A -> M S B) :
  preserves R c -> (forall a, preserves R (k a)) -> preserves R (bind c k).
Proof.
  intros Hc Hk s r s'. unfold bind.
  destruct (c s) as [[a|e] s1] eqn:Hcs.
  - intros Hks. transitivity s1; [by eapply Hc | by eapply Hk].
  - intros [= _ <-]. by eapply Hc.
Qed.

Lemma preserves_for_each {A} (l : list A) (body : A -> M S unit) :
  (forall a, preserves R (body a)) -> preserves R (for_each l body).
Proof.
  intros Hb. induction l as [|a l IH]; simpl.
  - apply preserves_ret.
  - apply preserves_bind; [apply Hb | intros _; apply IH].
Qed.

Lemma preserves_try_except (c : M S unit) : preserves R c -> preserves R (try_except c).
Proof.
  intros Hc s r s'. unfold try_except. intros [= _ <-].
  destruct (c s) as [r1 s1] eqn:Hcs. simpl. by eapply Hc.
Qed.

End MonadFacts.

(** One step of a frame proof: the rule of the head combinator. *)
Ltac preserves_step :=
  lazymatch goal with
  | |- PreOrder _ => typeclasses eauto
  | |- forall _, _ => intros ?
  | |- preserves _ (ret _) => apply preserves_ret
  | |- preserves _ (raise _) => apply preserves_raise
  | |- preserves _ (lift_res _) => apply preserves_lift_res
  | |- preserves _ get => apply preserves_get
  | |- preserves _ (gets _) => apply preserves_gets
  | |- preserves _ (getattr _ _) => apply preserves_getattr
  | |- preserves _ (assert _ _) => apply preserves_assert
  | |- preserves _ (bind _ _) => apply preserves_bind
  | |- preserves _ (for_each _ _) => apply preserves_for_each
  | |- preserves _ (try_except _) => apply preserves_try_except
  | |- preserves _ (modify _) => apply preserves_modify; intros []; reflexivity
  | |- preserves _ (if ?c then _ else _) => destruct c
  | |- preserves _ (match ?c with _ => _ end) => destruct c
  end.


Section MonadInv.
Context {S : Type}.

Lemma modify_inv (f : S -> S) s r s' : modify f s = (r, s') -> r = Ok tt /\ s' = f s.
Proof. by intros [= <- <-]. Qed.

Lemma getattr_ok_inv {A} (f : S -> option A) name s a s' :
  getattr f name s = (Ok a, s') -> f s = Some a /\ s' = s.
Proof. unfold getattr. destruct (f s); by intros [= <- <-]. Qed.

Lemma get_inv s r s' : get (S := S) s = (r, s') -> r = Ok s /\ s' = s.
Proof. by intros [= <- <-]. Qed.
End MonadInv.

(** Splits a successful run of [c >>= k] into the runs of [c] and [k]. *)
Tactic Notation "bind_inv" hyp(H) :=
  let a := fresh "a" in
  let s := fresh "s" in
  let H1 := fresh "Hrun" in
  apply bind_ok_inv in H as (a & s & H1 & H).

Tactic Notation "bind_inv" hyp(H) "as" ident(a) ident(s) ident(H1) :=
  apply bind_ok_inv in H as (a & s & H1 & H).


Section MonadRaise.
Context {S : Type}.

(** [c >>= k] raises as soon as every continuation of a returning [c]
    raises; [R] relates the initial store to the store of the failure. *)
Lemma bind_raises {A B} (R : relation S) `{!PreOrder R}
    (c : M S A) (k : A -> M S B) s :
  preserves R c ->
  (forall a s1, c s = (Ok a, s1) -> exists e s2, k a s1 = (Raise e, s2) /\ R s1 s2) ->
  exists e s2, bind c k s = (Raise e, s2) /\ R s s2.
Proof.
  intros Hc Hk. unfold bind. destruct (c s) as [[a|e] s1] eqn:Hcs.
  - destruct (Hk a s1 eq_refl) as (e & s2 & Hks & HR).
    exists e, s2. split; [done|]. transitivity s1; [by eapply Hc|done].
  - exists e, s1. split; [done|]. by eapply Hc.
Qed.
End MonadRaise.


(** ** Which attributes a method can change *)

Section Frames.
Context {V : Type} `{NumV : Num V} (ext : Collaborators (V := V)).
Implicit Types (s st : MHE (V := V)).

Global Instance callbacks_frame_preorder : PreOrder (callbacks_frame (V := V)).
Proof.
  split.
  - by intros [].
  - intros s1 s2 s3 H12 H23. unfold callbacks_frame in *.
    rewrite H23, H12. by destruct s1.
Qed.

Global Instance problem_frame_preorder : PreOrder (problem_frame (V := V)).
Proof.
  split.
  - by intros [].
  - intros s1 s2 s3 H12 H23. unfold problem_frame in *.
    rewrite H23, H12. by destruct s1.
Qed.

Lemma call_cb_frame (f : callback) (t : V) : preserves callbacks_frame (call_cb f t).
Proof.
  destruct f; cbn [call_cb]; unfold default_y_fun, y_template_set;
    repeat preserves_step.
Qed.

Lemma fill_opt_p_num_frame (a b c d e : list V) :
  preserves problem_frame (fill_opt_p_num a b c d e).
Proof. unfold fill_opt_p_num. repeat preserves_step. Qed.

Lemma solve_frame : preserves problem_frame (solve ext).
Proof. unfold solve. repeat preserves_step. Qed.

Lemma set_initial_guess_frame : preserves problem_frame set_initial_guess.
Proof. unfold set_initial_guess. repeat preserves_step. Qed.

End Frames.

(** ** Construction and recombination *)

Section Recombination.
Context {V : Type} `{NumV : Num V} (ext : Collaborators (V := V)).
Implicit Types (st s : MHE (V := V)).


End Recombination.


Section Construction.
Context {V : Type} `{NumV : Num V} (ext : Collaborators (V := V)).
Implicit Types (st s : MHE (V := V)).

Lemma entries_where_ext (_p : struct_symSX) (keep1 keep2 : string -> bool) :
  (forall k, k ∈ keys _p -> keep1 k = keep2 k) ->
  entries_where _p keep1 = entries_where _p keep2.
Proof.
  intros Hagree. unfold entries_where. f_equal.
  induction (keys _p) as [|k ks IH]; [done|]. simpl.
  rewrite (Hagree k) by left.
  rewrite IH; [done|]. intros k' Hk'. apply Hagree. by right.
Qed.



End Construction.

(** ** The initial state *)


Section InitialState.
Context {V : Type} `{NumV : Num V} (ext : Collaborators (V := V)).
Implicit Types (st s : MHE (V := V)).

(** C10.  [set_initial_state(x0, reset_history)]: when the number of
    elements of [x0] differs from the size of the model's state (or [x0]
    is no array at all), the call raises and the store is left as it was,
    so the stored initial state, the history and the clock are unchanged;
    a call that returns was given an argument of an accepted type with
    as many elements as the model has states; whatever makes the call
    raise, it raises before any mutation; and a numpy array of that
    size that the state structure accepts, with a boolean flag, makes
    the call return: the initial state becomes that array and the
    history is emptied when the flag is set. *)
Theorem set_initial_state_checks_size st (x0 : pyobj (V := V)) (rh : pyflag) :
  (py_numel x0 <> Some (struct_size (model_x (model st))) ->
     exists e, set_initial_state ext x0 rh st = (Raise e, st)) /\
  (forall st', set_initial_state ext x0 rh st = (Ok tt, st') ->
     py_numel x0 = Some (struct_size (model_x (model st))) /\ accepted_type x0) /\
  (forall e st', set_initial_state ext x0 rh st = (Raise e, st') -> st' = st) /\
  (forall a v b, x0 = ndarray a -> rh = py_bool b ->
     length a = struct_size (model_x (model st)) ->
     struct_from_array ext (model_x (model st)) a = Ok v ->
     set_initial_state ext x0 rh st =
       (Ok tt, if b then set_data (data_init_storage (data st)) (assign_x0 v st)
               else assign_x0 v st)).
Proof.
  split_and!.
  - intros Hne. unfold set_initial_state. unfold_monad.
    destruct x0 as [a|a|s0|[n|]]; simpl in *; try (eexists; reflexivity).
    + rewrite bool_decide_eq_false_2; [eexists; reflexivity|]. congruence.
    + rewrite bool_decide_eq_false_2; [eexists; reflexivity|]. congruence.
    + case_bool_decide; simpl; [|eexists; reflexivity].
      destruct (is_py_bool rh); simpl; eexists; reflexivity.
  - intros st'. unfold set_initial_state. unfold_monad.
    destruct x0 as [a|a|s0|[n|]]; simpl; try done;
      case_bool_decide; simpl; try done; destruct (is_py_bool rh); simpl; try done.
    + intros _. split; [|done]. f_equal. congruence.
    + intros _. split; [|done]. f_equal. congruence.
  - intros e st'. unfold set_initial_state. unfold_monad.
    destruct x0 as [a|a|s0|[n|]]; simpl; try (by intros [= _ <-]);
      case_bool_decide; simpl; try (by intros [= _ <-]);
      destruct (is_py_bool rh); simpl; try (by intros [= _ <-]).
    + destruct (struct_from_array _ _ _); simpl; [|by intros [= _ <-]].
      unfold reset_history. unfold_monad. by destruct (truthy rh).
    + unfold reset_history. unfold_monad. by destruct (truthy rh).
  - intros a v b -> -> Hlen Hv. unfold set_initial_state. unfold_monad. simpl.
    rewrite bool_decide_eq_true_2 by congruence. simpl. rewrite Hv.
    unfold reset_history. unfold_monad. by destruct b.
Qed.
End InitialState.

(** ** The assembled problem *)

Section Assembly.
Context {V : Type} `{NumV : Num V} (ext : Collaborators (V := V)).
Implicit Types (st s : MHE (V := V)) (a : Assembly (V := V)).



Section Loop.
Variables (m : Model) (b : Bounds (V := V)) (nl_lb nl_ub : list V) (g_rows ncp : nat).

Let step := horizon_step m b nl_lb nl_ub g_rows ncp recombined_p.


End Loop.




End Assembly.

(** ** The bounds check *)

Section BoundsCheck.
Context {V : Type} `{NumV : Num V} (ext : Collaborators (V := V)).
Implicit Types (st s : MHE (V := V)) (lb ub : DMStruct V).

Lemma np_any_vec_gt (l u : list V) :
  np_any (vec_gt l u) = false <->
  forall i a c, l !! i = Some a -> u !! i = Some c -> vgt a c = false.
Proof.
  revert u. induction l as [|x l IH]; intros [|y u]; simpl; try (split; [intros _ [|?] ? ?|]; done).
  unfold np_any, vec_gt in *. simpl. rewrite orb_false_iff, IH. unfold id. split.
  - intros [Hxy Hrest] [|i] a c; simpl; [by intros [= <-] [= <-]|apply Hrest].
  - intros H. split; [by apply (H 0)|]. intros i. apply (H (S i)).
Qed.

Lemma np_any_consistent lb ub :
  np_any (vec_gt (dm_cat lb) (dm_cat ub)) = false <-> consistent lb ub.
Proof. apply np_any_vec_gt. Qed.

Lemma bound_fail_spec_aux (lbls : list label) (l u : list V) (x : label) :
  x ∈ map fst (List.filter snd (zip lbls (vec_gt l u))) <->
  exists i a c, lbls !! i = Some x /\ l !! i = Some a /\ u !! i = Some c /\ vgt a c = true.
Proof.
  revert l u. induction lbls as [|y lbls IH]; intros l u.
  - simpl. split; [by intros ?%elem_of_nil|]. by intros (i & a & c & ? & _).
  - destruct l as [|a0 l], u as [|c0 u]; simpl;
      try (split; [by intros ?%elem_of_nil | intros (i & a & c & _ & Ha & Hc & _); by destruct i]).
    unfold vec_gt in *. simpl.
    destruct (vgt a0 c0) eqn:Hgt; simpl.
    + rewrite elem_of_cons, IH. split.
      * intros [->|(i & a & c & H)]; [by exists 0, a0, c0|by exists (S i), a, c].
      * intros ([|i] & a & c & Hl & Ha & Hc & Hv); simpl in *.
        -- left. congruence.
        -- right. by exists i, a, c.
    + rewrite IH. split.
      * intros (i & a & c & H). by exists (S i), a, c.
      * intros ([|i] & a & c & Hl & Ha & Hc & Hv); simpl in *.
        -- congruence.
        -- by exists i, a, c.
Qed.

(** The failure message names exactly the offending components. *)
Lemma bound_fail_spec lb ub (x : label) :
  x ∈ bound_fail lb ub <->
  exists i a c, dm_labels lb !! i = Some x /\ dm_cat lb !! i = Some a /\
                dm_cat ub !! i = Some c /\ vgt a c = true.
Proof. apply bound_fail_spec_aux. Qed.

Lemma check_bound_pair_ok st lb ub :
  consistent lb ub -> check_bound_pair (lb, ub) st = (Ok tt, st).
Proof.
  intros H%np_any_consistent. unfold check_bound_pair. by rewrite H.
Qed.

Lemma check_bound_pair_fail st lb ub :
  ~ consistent lb ub ->
  check_bound_pair (lb, ub) st = (Raise (Exception bounds_msg (bound_fail lb ub)), st).
Proof.
  intros H. unfold check_bound_pair.
  destruct (np_any (vec_gt (dm_cat lb) (dm_cat ub))) eqn:Hany; [done|].
  by apply np_any_consistent in Hany.
Qed.

Lemma consistent_dec lb ub : Decision (consistent lb ub).
Proof.
  destruct (np_any (vec_gt (dm_cat lb) (dm_cat ub))) eqn:Hany.
  - right. intros H%np_any_consistent. congruence.
  - left. by apply np_any_consistent.
Qed.

(** The loop over the bound pairs of states, inputs and algebraic
    variables. *)
Lemma check_bounds_result st :
  let b := bounds st in
  (consistent (_x_lb b) (_x_ub b) -> consistent (_u_lb b) (_u_ub b) ->
   consistent (_z_lb b) (_z_ub b) -> check_bounds st = (Ok tt, st)) /\
  (~ consistent (_x_lb b) (_x_ub b) ->
   check_bounds st = (Raise (Exception bounds_msg (bound_fail (_x_lb b) (_x_ub b))), st)) /\
  (consistent (_x_lb b) (_x_ub b) -> ~ consistent (_u_lb b) (_u_ub b) ->
   check_bounds st = (Raise (Exception bounds_msg (bound_fail (_u_lb b) (_u_ub b))), st)) /\
  (consistent (_x_lb b) (_x_ub b) -> consistent (_u_lb b) (_u_ub b) ->
   ~ consistent (_z_lb b) (_z_ub b) ->
   check_bounds st = (Raise (Exception bounds_msg (bound_fail (_z_lb b) (_z_ub b))), st)).
Proof.
  cbn zeta.
  change (check_bounds st) with
    (for_each (checked_bound_pairs (bounds st)) check_bound_pair st).
  unfold checked_bound_pairs. cbn [zip zip_with for_each].
  split_and!.
  - intros Hx Hu Hz.
    rewrite (bind_ok _ _ _ _ _ (check_bound_pair_ok st _ _ Hx)).
    rewrite (bind_ok _ _ _ _ _ (check_bound_pair_ok st _ _ Hu)).
    by rewrite (bind_ok _ _ _ _ _ (check_bound_pair_ok st _ _ Hz)).
  - intros Hx. by rewrite (bind_raise _ _ _ _ _ (check_bound_pair_fail st _ _ Hx)).
  - intros Hx Hu.
    rewrite (bind_ok _ _ _ _ _ (check_bound_pair_ok st _ _ Hx)).
    by rewrite (bind_raise _ _ _ _ _ (check_bound_pair_fail st _ _ Hu)).
  - intros Hx Hu Hz.
    rewrite (bind_ok _ _ _ _ _ (check_bound_pair_ok st _ _ Hx)).
    rewrite (bind_ok _ _ _ _ _ (check_bound_pair_ok st _ _ Hu)).
    by rewrite (bind_raise _ _ _ _ _ (check_bound_pair_fail st _ _ Hz)).
Qed.

Lemma check_bounds_ok_inv st st' :
  check_bounds st = (Ok tt, st') ->
  consistent (_x_lb (bounds st)) (_x_ub (bounds st)) /\
  consistent (_u_lb (bounds st)) (_u_ub (bounds st)) /\
  consistent (_z_lb (bounds st)) (_z_ub (bounds st)).
Proof.
  intros Hok.
  destruct (check_bounds_result st) as (_ & Hx & Hu & Hz). cbn zeta in *.
  destruct (consistent_dec (_x_lb (bounds st)) (_x_ub (bounds st))) as [Cx|Cx];
    [|rewrite (Hx Cx) in Hok; discriminate].
  destruct (consistent_dec (_u_lb (bounds st)) (_u_ub (bounds st))) as [Cu|Cu];
    [|rewrite (Hu Cx Cu) in Hok; discriminate].
  destruct (consistent_dec (_z_lb (bounds st)) (_z_ub (bounds st))) as [Cz|Cz];
    [|rewrite (Hz Cx Cu Cz) in Hok; discriminate].
  done.
Qed.

Lemma check_registrations_ok st :
  registrations_ok st -> check_registrations st = (Ok tt, st).
Proof.
  intros (Ho & Ht & Hp). unfold check_registrations. unfold_monad. rewrite Ho. simpl.
  assert (negb (flag_set_tvp_fun (flags st)) &&
          bool_decide (0 < struct_size (model_tvp (model st))) = false) as ->.
  { destruct Ht as [->| ->]; [done|]. by rewrite andb_false_r. }
  assert (negb (flag_set_p_fun (flags st)) &&
          bool_decide (0 < struct_size (_p_set (part st))) = false) as ->.
  { destruct Hp as [->| ->]; [done|]. by rewrite andb_false_r. }
  done.
Qed.

Lemma check_registrations_frame : preserves (fun s s' : MHE (V := V) => s' = s) check_registrations.
Proof.
  intros s r s'. unfold check_registrations. unfold_monad.
  destruct (flag_set_objective (flags s)); simpl; [|by intros [= _ <-]].
  destruct (negb _ && _); simpl; [by intros [= _ <-]|].
  destruct (negb _ && _); simpl; by intros [= _ <-].
Qed.

End BoundsCheck.

Section BoundsGate.
Context {V : Type} `{NumV : Num V} (ext : Collaborators (V := V)).
Implicit Types (st s : MHE (V := V)) (lb ub : DMStruct V).

Lemma check_validity_ok_bounds st st' :
  check_validity st = (Ok tt, st') ->
  consistent (_x_lb (bounds st)) (_x_ub (bounds st)) /\
  consistent (_u_lb (bounds st)) (_u_ub (bounds st)) /\
  consistent (_z_lb (bounds st)) (_z_ub (bounds st)).
Proof.
  unfold check_validity. intros H.
  bind_inv H. apply check_registrations_frame in Hrun as ->.
  bind_inv H. destruct a0. by apply check_bounds_ok_inv in Hrun.
Qed.

Lemma setup_reaches_check_validity st st' :
  setup ext st = (Ok tt, st') ->
  exists s1 s2, check_validity s1 = (Ok tt, s2) /\ bounds s1 = bounds st /\
    flags s1 = flags st /\ problem s1 = problem st.
Proof.
  unfold setup. intros H.
  bind_inv H. apply modify_inv in Hrun as [_ ->].
  bind_inv H. apply getattr_ok_inv in Hrun as [_ ->].
  bind_inv H. apply getattr_ok_inv in Hrun as [_ ->].
  bind_inv H. apply modify_inv in Hrun as [_ ->].
  bind_inv H. destruct a3.
  eexists _, _. split; [exact Hrun|]. done.
Qed.

Lemma check_validity_bounds_fail st lb ub :
  registrations_ok st ->
  check_bounds st = (Raise (Exception bounds_msg (bound_fail lb ub)), st) ->
  check_validity st = (Raise (Exception bounds_msg (bound_fail lb ub)), st).
Proof.
  intros Hreg Hb. unfold check_validity.
  rewrite (bind_ok _ _ _ _ _ (check_registrations_ok st Hreg)).
  by rewrite (bind_raise _ _ _ _ _ Hb).
Qed.

(** C4, as amended.  The bound check looks at the bound pairs of the
    states, the inputs and the algebraic variables, in this order, and
    not at those of the estimated parameters.  It passes exactly when no
    component of these three pairs has its lower bound above its upper
    bound; [setup()] returns only if it passes.  When the registrations
    checked before it are in order and some component of the three pairs
    is violated, [check_validity] raises the bounds exception and leaves
    the store as it was; the exception names the offending components of
    the first category, in the order state, input, algebraic, that has
    one; and a label is named exactly when a component with that label
    has its lower bound above its upper bound. *)
Theorem bounds_gate st :
  (check_bounds st = (Ok tt, st) <->
     consistent (_x_lb (bounds st)) (_x_ub (bounds st)) /\
     consistent (_u_lb (bounds st)) (_u_ub (bounds st)) /\
     consistent (_z_lb (bounds st)) (_z_ub (bounds st))) /\
  (forall st', setup ext st = (Ok tt, st') ->
     consistent (_x_lb (bounds st)) (_x_ub (bounds st)) /\
     consistent (_u_lb (bounds st)) (_u_ub (bounds st)) /\
     consistent (_z_lb (bounds st)) (_z_ub (bounds st))) /\
  (registrations_ok st ->
     (~ consistent (_x_lb (bounds st)) (_x_ub (bounds st)) ->
      check_validity st =
        (Raise (Exception bounds_msg (bound_fail (_x_lb (bounds st)) (_x_ub (bounds st)))), st)) /\
     (consistent (_x_lb (bounds st)) (_x_ub (bounds st)) ->
      ~ consistent (_u_lb (bounds st)) (_u_ub (bounds st)) ->
      check_validity st =
        (Raise (Exception bounds_msg (bound_fail (_u_lb (bounds st)) (_u_ub (bounds st)))), st)) /\
     (consistent (_x_lb (bounds st)) (_x_ub (bounds st)) ->
      consistent (_u_lb (bounds st)) (_u_ub (bounds st)) ->
      ~ consistent (_z_lb (bounds st)) (_z_ub (bounds st)) ->
      check_validity st =
        (Raise (Exception bounds_msg (bound_fail (_z_lb (bounds st)) (_z_ub (bounds st)))), st))) /\
  (forall lb ub (x : label),
     x ∈ bound_fail lb ub <->
     exists i a c, dm_labels lb !! i = Some x /\ dm_cat lb !! i = Some a /\
                   dm_cat ub !! i = Some c /\ vgt a c = true).
Proof.
  destruct (check_bounds_result st) as (Hok & Hx & Hu & Hz). cbn zeta in *.
  split_and!.
  - split; [apply check_bounds_ok_inv | intros (? & ? & ?); by apply Hok].
  - intros st' (s1 & s2 & Hcv & <- & _)%setup_reaches_check_validity.
    by apply check_validity_ok_bounds in Hcv.
  - intros Hreg. split_and!; intros; apply check_validity_bounds_fail; auto.
  - apply bound_fail_spec.
Qed.

End BoundsGate.

(** ** Registration after setup *)

Section Registration.
Context {V : Type} `{NumV : Num V} (ext : Collaborators (V := V)).
Implicit Types (st s : MHE (V := V)) (lb ub : DMStruct V).

Global Instance agree_on_preorder {X} (f : MHE (V := V) -> X) : PreOrder (agree_on f).
Proof. split; [by intros ?|]. intros s1 s2 s3 H12 H23. unfold agree_on in *. congruence. Qed.

Lemma preserves_weaken {A} (R R' : relation (MHE (V := V))) (c : M MHE A) :
  (forall s s', R s s' -> R' s s') -> preserves R c -> preserves R' c.
Proof. intros HR Hc s r s' Hrun. eapply HR, Hc, Hrun. Qed.

Lemma callbacks_frame_problem s s' : callbacks_frame s s' -> agree_on problem s s'.
Proof. unfold callbacks_frame, agree_on. intros ->. by destruct s. Qed.

Lemma callbacks_frame_flag_setup s s' :
  callbacks_frame s s' -> agree_on (fun s => flag_setup (flags s)) s s'.
Proof. unfold callbacks_frame, agree_on. intros ->. by destruct s. Qed.

Lemma set_p_fun_problem f : preserves (agree_on problem) (set_p_fun f).
Proof.
  unfold set_p_fun, get_p_template.
  repeat first
    [ preserves_step
    | eapply preserves_weaken; [apply callbacks_frame_problem|apply call_cb_frame] ].
Qed.

Lemma set_y_fun_problem f : preserves (agree_on problem) (set_y_fun f).
Proof.
  unfold set_y_fun, get_y_template.
  repeat first
    [ preserves_step
    | eapply preserves_weaken; [apply callbacks_frame_problem|apply call_cb_frame] ].
Qed.

Lemma setup_raises_flag st0 st :
  setup ext st0 = (Ok tt, st) -> flag_setup (flags st) = true.
Proof.
  unfold setup. intros H.
  do 6 bind_inv H. clear Hrun Hrun0 Hrun1 Hrun2 Hrun3 Hrun4.
  bind_inv H. apply modify_inv in Hrun as [_ ->].
  bind_inv H. apply set_initial_guess_frame in Hrun.
  apply modify_inv in H as [_ ->].
  rewrite Hrun. by destruct s4.
Qed.

Lemma set_objective_after_setup st (obj_expr arrival_cost : SX) :
  flag_setup (flags st) = true ->
  exists msg, set_objective obj_expr arrival_cost st = (Raise (AssertionError msg), st).
Proof.
  intros Hflag. unfold set_objective. unfold_monad.
  destruct (bool_decide (sx_shape obj_expr = (1, 1))); simpl; [|by eexists].
  destruct (bool_decide (sx_shape arrival_cost = (1, 1))); simpl; [|by eexists].
  rewrite Hflag. simpl. by eexists.
Qed.

Lemma set_p_fun_user st (f : V -> res (DMStruct V)) (out : DMStruct V) :
  f vzero = Ok out ->
  dm_labels out = labels (_p_set (part st)) ->
  set_p_fun (UserFun f) st = (Ok tt, with_p_fun (UserFun f) st).
Proof.
  intros Hf Hl. unfold set_p_fun, get_p_template. unfold_monad. simpl.
  rewrite Hf, Hl. rewrite bool_decide_eq_true_2 by done. simpl.
  unfold with_p_fun. by destruct st.
Qed.

Lemma set_y_fun_user st (f : V -> res (DMStruct V)) (out : DMStruct V) (N : nat) :
  n_horizon (params st) = Some N ->
  f vzero = Ok out ->
  dm_labels out = repeat_labels "y_meas" N (model_y (model st)) ->
  set_y_fun (UserFun f) st = (Ok tt, with_y_fun (UserFun f) st).
Proof.
  intros HN Hf Hl. unfold set_y_fun, get_y_template. unfold_monad. simpl.
  rewrite HN, Hf, Hl. rewrite bool_decide_eq_true_2 by done. simpl.
  unfold with_y_fun. by destruct st.
Qed.

(** C5, as amended.  After [setup()] has completed, every call of
    [set_objective] fails with an assertion error and leaves the store
    as it was.  [set_p_fun] and [set_y_fun] are not guarded by the setup
    flag: given a function whose output at time zero carries the labels
    of the template they return, store the function and raise their
    flag.  No call of [set_p_fun] or [set_y_fun], returning or raising,
    changes the assembled problem. *)
Theorem registration_after_setup st0 st :
  setup ext st0 = (Ok tt, st) ->
  (forall obj_expr arrival_cost, exists msg,
     set_objective obj_expr arrival_cost st = (Raise (AssertionError msg), st)) /\
  (forall f out,
     f vzero = Ok out -> dm_labels out = labels (_p_set (part st)) ->
     set_p_fun (UserFun f) st = (Ok tt, with_p_fun (UserFun f) st)) /\
  (forall f out N,
     n_horizon (params st) = Some N ->
     f vzero = Ok out -> dm_labels out = repeat_labels "y_meas" N (model_y (model st)) ->
     set_y_fun (UserFun f) st = (Ok tt, with_y_fun (UserFun f) st)) /\
  (forall f r st', set_p_fun f st = (r, st') -> problem st' = problem st) /\
  (forall f r st', set_y_fun f st = (r, st') -> problem st' = problem st).
Proof.
  intros Hsetup. apply setup_raises_flag in Hsetup.
  split_and!.
  - intros. by apply set_objective_after_setup.
  - intros. by eapply set_p_fun_user.
  - intros. by eapply set_y_fun_user.
  - intros f r st' H. by apply set_p_fun_problem in H.
  - intros f r st' H. by apply set_y_fun_problem in H.
Qed.

End Registration.

(** ** The step *)

Section Step.
Context {V : Type} `{NumV : Num V} (ext : Collaborators (V := V)).
Implicit Types (st s : MHE (V := V)).

Lemma lift_res_ok_inv {A} (x : res A) s a s' :
  lift_res x s = (Ok a, s') -> x = Ok a /\ s' = s.
Proof. by intros [= -> <-]. Qed.

Lemma callbacks_frame_data s s' : callbacks_frame s s' -> data s' = data s.
Proof. unfold callbacks_frame. intros ->. by destruct s. Qed.
Lemma callbacks_frame_params s s' : callbacks_frame s s' -> params s' = params s.
Proof. unfold callbacks_frame. intros ->. by destruct s. Qed.
Lemma callbacks_frame_problem_eq s s' : callbacks_frame s s' -> problem s' = problem s.
Proof. unfold callbacks_frame. intros ->. by destruct s. Qed.
Lemma problem_frame_data s s' : problem_frame s s' -> data s' = data s.
Proof. unfold problem_frame. intros ->. by destruct s. Qed.
Lemma problem_frame_params s s' : problem_frame s s' -> params s' = params s.
Proof. unfold problem_frame. intros ->. by destruct s. Qed.


Lemma solve_ok s s' :
  solve ext s = (Ok tt, s') ->
  exists pb, problem s = Some pb /\
    problem s' = Some
      (let x := nlp_solve ext (S_solver pb) (opt_x_num pb) (lb_opt_x pb) (ub_opt_x pb)
                  (cons_lb pb) (cons_ub pb) (opt_p_num pb) in
       set_opt_aux_num (aux_eval ext (opt_aux pb) x (opt_p_num pb)) (set_opt_x_num x pb)).
Proof.
  unfold solve. intros H.
  bind_inv H. apply getattr_ok_inv in Hrun as [Hpb ->].
  apply modify_inv in H as [_ ->].
  eexists. split; [exact Hpb|]. reflexivity.
Qed.




End Step.

(** ** Three defects *)

Section Defects.
Context {V : Type} `{NumV : Num V} (ext : Collaborators (V := V)).
Implicit Types (st s : MHE (V := V)).

Lemma callbacks_frame_y_flag s s' : callbacks_frame s s' -> agree_on y_flag s s'.
Proof. unfold callbacks_frame, agree_on. intros ->. by destruct s. Qed.

(** Frame steps for the flag of the measurement callback. *)
Ltac y_flag_steps :=
  repeat first
    [ preserves_step
    | eapply preserves_weaken; [apply callbacks_frame_y_flag|apply call_cb_frame] ].

Lemma check_bound_pair_y_flag p : preserves (agree_on y_flag) (check_bound_pair p).
Proof. destruct p as [lb ub]. unfold check_bound_pair. y_flag_steps. Qed.

Lemma check_validity_prefix_y_flag :
  preserves (agree_on y_flag) (check_registrations >> check_bounds >> inject_dummy_funs).
Proof.
  unfold check_registrations, check_bounds, inject_dummy_funs,
    set_tvp_fun, set_p_fun, get_tvp_template, get_p_template.
  y_flag_steps. apply check_bound_pair_y_flag.
Qed.

(** Once a measurement function is registered, [check_validity] cannot
    return: its last statement raises. *)
Lemma check_validity_raises_with_y_fun st :
  flag_set_y_fun (flags st) = true ->
  exists e st', check_validity st = (Raise e, st').
Proof.
  intros Hflag.
  assert (Hassoc : check_validity st =
    ((check_registrations >> check_bounds >> inject_dummy_funs) >> require_y_fun) st).
  { unfold check_validity, bind.
    destruct (check_registrations st) as [[[]|?] ?]; [|done].
    destruct (check_bounds _) as [[[]|?] ?]; done. }
  rewrite Hassoc.
  destruct (bind_raises (agree_on y_flag)
              (check_registrations >> check_bounds >> inject_dummy_funs)
              (fun _ => require_y_fun) st check_validity_prefix_y_flag)
    as (e & s2 & Hrun & _); [|by eauto].
  intros [] s1 Hpre. apply check_validity_prefix_y_flag in Hpre.
  unfold agree_on, y_flag in Hpre.
  unfold require_y_fun. unfold_monad. rewrite Hpre, Hflag. simpl.
  by eexists _, _.
Qed.

(** Before the problem is assembled, [make_step] raises, and the store of
    the failure differs from the initial one in the history, which
    already holds the measurement (and possibly in the template of the
    measurement function). *)
Lemma make_step_raises_before_assembly st (y0 : list V) :
  problem st = None ->
  exists e st', make_step ext y0 st = (Raise e, st') /\
    d_log (data st') = d_log (data st) ++ [("_y", y0)].
Proof.
  intros Hnone. unfold make_step, data_update_m.
  rewrite (bind_ok (modify _) _ st tt _ eq_refl).
  rewrite (bind_ok get _ _ _ _ eq_refl).
  set (s0 := set_data (data_update "_y" y0 (data st)) st).
  assert (Hgoal : forall (c : M MHE (list V)),
    (exists e s', c s0 = (Raise e, s') /\ callbacks_frame s0 s') ->
    exists e s', c s0 = (Raise e, s') /\ d_log (data s') = d_log (data st) ++ [("_y", y0)]).
  { intros c (e & s' & Hc & HF). exists e, s'. split; [done|].
    by rewrite (callbacks_frame_data _ _ HF). }
  apply Hgoal. clear Hgoal.
  apply bind_raises; [apply _|repeat preserves_step|]. intros f_tvp s1 [_ ->]%getattr_ok_inv.
  apply bind_raises; [apply _|apply call_cb_frame|]. intros tvp0 s1 F1%call_cb_frame.
  apply bind_raises; [apply _|repeat preserves_step|]. intros f_p s1' [_ ->]%getattr_ok_inv.
  apply bind_raises; [apply _|apply call_cb_frame|]. intros p_set0 s2 F2%call_cb_frame.
  apply bind_raises; [apply _|repeat preserves_step|]. intros f_y s2' [_ ->]%getattr_ok_inv.
  apply bind_raises; [apply _|apply call_cb_frame|]. intros y_traj s3 F3%call_cb_frame.
  assert (Hpb : problem s3 = None).
  { rewrite (callbacks_frame_problem_eq _ _ F3), (callbacks_frame_problem_eq _ _ F2),
      (callbacks_frame_problem_eq _ _ F1). exact Hnone. }
  unfold fill_opt_p_num. unfold_monad. rewrite Hpb.
  eexists _, _. split; [reflexivity|reflexivity].
Qed.

(** The options handed to the solver are the caller's dictionary itself. *)
Lemma solver_opts_are_caller_opts st st' :
  _setup_mhe_optim_problem ext st = (Ok tt, st') ->
  exists pb, problem st' = Some pb /\
    solver_opts (S_solver pb) = nlpsol_opts (params st).
Proof.
  unfold _setup_mhe_optim_problem. intros H.
  bind_inv H. apply get_inv in Hrun as [[= ->] ->].
  bind_inv H. apply lift_res_ok_inv in Hrun as [_ ->].
  bind_inv H. apply getattr_ok_inv in Hrun as [_ ->].
  bind_inv H. apply getattr_ok_inv in Hrun as [_ ->].
  bind_inv H as nl s1 Hnl.
  assert (s1 = st) as ->.
  { destruct (decide (a0 = 0)); [by injection Hnl as _ <-|].
    by apply getattr_ok_inv in Hnl as [_ ->]. }
  bind_inv H as u s2 Hobj.
  assert (s2 = st) as ->.
  { destruct (decide (a0 = 0)); [by injection Hobj as _ <-|].
    bind_inv Hobj. apply getattr_ok_inv in Hrun as [_ ->]. by injection Hobj as _ <-. }
  apply modify_inv in H as [_ ->].
  eexists. split; reflexivity.
Qed.

End Defects.

(** * Further properties of the methods *)


(** ** Python sequences *)

Section PySeq.
Context {A : Type}.
Implicit Types (l : list A).

Lemma py_get_nat l (i : nat) x : l !! i = Some x -> py_get l (Z.of_nat i) = Ok x.
Proof.
  intros Hx. pose proof (lookup_lt_Some _ _ _ Hx) as Hlt. unfold py_get.
  assert ((Z.of_nat i <? 0)%Z = false) as -> by lia.
  assert (((0 <=? Z.of_nat i) && (Z.of_nat i <? Z.of_nat (length l)))%Z = true) as ->.
  { apply andb_true_iff. split; lia. }
  by rewrite Nat2Z.id, Hx.
Qed.

Lemma py_get_neg l (d : nat) x :
  0 < d <= length l -> l !! (length l - d) = Some x -> py_get l (- Z.of_nat d) = Ok x.
Proof.
  intros Hd Hx. unfold py_get.
  assert ((- Z.of_nat d <? 0)%Z = true) as -> by lia.
  assert (((0 <=? Z.of_nat (length l) + - Z.of_nat d) &&
           (Z.of_nat (length l) + - Z.of_nat d <? Z.of_nat (length l)))%Z = true) as ->.
  { apply andb_true_iff. split; lia. }
  replace (Z.to_nat (Z.of_nat (length l) + - Z.of_nat d)) with (length l - d) by lia.
  by rewrite Hx.
Qed.

Lemma py_get_nil (k : Z) : exists e, py_get (@nil A) k = Raise e.
Proof. unfold py_get. destruct (_ && _); [rewrite lookup_nil|]; by eexists. Qed.

Lemma py_set_nat l (i : nat) x : i < length l -> py_set l (Z.of_nat i) x = Ok (<[i := x]> l).
Proof.
  intros Hlt. unfold py_set.
  assert ((Z.of_nat i <? 0)%Z = false) as -> by lia.
  assert (((0 <=? Z.of_nat i) && (Z.of_nat i <? Z.of_nat (length l)))%Z = true) as ->.
  { apply andb_true_iff. split; lia. }
  by rewrite Nat2Z.id.
Qed.

Lemma py_set_neg l (d : nat) x :
  0 < d <= length l -> py_set l (- Z.of_nat d) x = Ok (<[length l - d := x]> l).
Proof.
  intros Hd. unfold py_set.
  assert ((- Z.of_nat d <? 0)%Z = true) as -> by lia.
  assert (((0 <=? Z.of_nat (length l) + - Z.of_nat d) &&
           (Z.of_nat (length l) + - Z.of_nat d <? Z.of_nat (length l)))%Z = true) as ->.
  { apply andb_true_iff. split; lia. }
  by replace (Z.to_nat (Z.of_nat (length l) + - Z.of_nat d)) with (length l - d) by lia.
Qed.

Lemma py_set_length l k x l' : py_set l k x = Ok l' -> length l' = length l.
Proof.
  unfold py_set. destruct (_ && _); [|done]. intros [= <-]. apply length_insert.
Qed.

Lemma py_range_neg (n : nat) :
  py_range (- Z.of_nat n) 0 = map (fun i => (- Z.of_nat n + Z.of_nat i)%Z) (seq 0 n).
Proof. unfold py_range. f_equal. f_equal. lia. Qed.

Lemma py_range_from_0 (n m : nat) :
  py_range 0 (Z.of_nat n - Z.of_nat m) = map (fun i => (0 + Z.of_nat i)%Z) (seq 0 (n - m)).
Proof. unfold py_range. f_equal. f_equal. lia. Qed.

(** Overwriting a run of positions one by one. *)
Lemma take_S_insert l (a : nat) x :
  a < length l -> take (S a) (<[a := x]> l) = take a l ++ [x].
Proof.
  intros Hlt. rewrite (take_S_r _ _ x); [|by apply list_lookup_insert_eq].
  by rewrite take_insert_ge by lia.
Qed.

Lemma take_S_drop l (b m : nat) x :
  l !! b = Some x -> take (S m) (drop b l) = x :: take m (drop (S b) l).
Proof. intros Hx. by rewrite (drop_S _ _ _ Hx). Qed.

End PySeq.

(** ** Raising runs *)

Section MonadRaiseInv.
Context {S : Type}.

Lemma bind_raise_inv {A B} (c : M S A) (k : A -> M S B) s e s' :
  bind c k s = (Raise e, s') ->
  c s = (Raise e, s') \/ exists a s1, c s = (Ok a, s1) /\ k a s1 = (Raise e, s').
Proof.
  unfold bind. destruct (c s) as [[a|e1] s1]; [eauto|]. intros [= <- <-]. by left.
Qed.

Lemma bind_run {A B} (c : M S A) (k : A -> M S B) s :
  bind c k s = match c s with (Ok a, s1) => k a s1 | (Raise e, s1) => (Raise e, s1) end.
Proof. reflexivity. Qed.
Lemma bind_raise_cases {A B} (R : relation S) `{!PreOrder R}
    (c : M S A) (k : A -> M S B) s0 s e s' :
  R s0 s -> preserves R c ->
  bind c k s = (Raise e, s') ->
  R s0 s' \/ exists a s1, R s0 s1 /\ k a s1 = (Raise e, s').
Proof.
  intros HR Hc H. apply bind_raise_inv in H as [H|(a & s1 & Hrun & H)].
  - left. transitivity s; [done|]. by eapply Hc.
  - right. exists a, s1. split; [|done]. transitivity s; [done|]. by eapply Hc.
Qed.
End MonadRaiseInv.

(** ** Setting parameters *)

Section Parameters.
Context {V : Type} `{NumV : Num V}.
Implicit Types (st s : MHE (V := V)).

Lemma set_param_loop (kwargs : list (kwarg (V := V))) s :
  for_each kwargs (fun kw => modify (fun s => set_params (setattr_param (params s) kw) s)) s
  = (Ok tt, set_params (foldl setattr_param (params s) kwargs) s).
Proof.
  revert s. induction kwargs as [|kw kwargs IH]; intros s; simpl.
  - unfold ret. f_equal. by destruct s.
  - unfold bind, modify. rewrite IH. f_equal.
Qed.

(** X1.  After [setup()], [set_param] raises an assertion error and leaves the
    store as it was.  Before, it always returns: the keyword values are
    assigned from left to right, and no attribute other than the
    parameters changes. *)
Theorem set_param_guarded st (kwargs : list (kwarg (V := V))) :
  (flag_setup (flags st) = true ->
   set_param kwargs st =
     (Raise (AssertionError "Setting parameters after setup is prohibited."), st)) /\
  (flag_setup (flags st) = false ->
   set_param kwargs st =
     (Ok tt, set_params (foldl setattr_param (params st) kwargs) st)).
Proof.
  split; intros Hflag; unfold set_param; unfold_monad; rewrite Hflag; simpl; [done|].
  apply set_param_loop.
Qed.

(** X2.  Two calls of [set_param] before [setup()] amount to one call with the
    keywords of the first followed by those of the second. *)
Theorem set_param_calls_compose st (kw1 kw2 : list (kwarg (V := V))) :
  flag_setup (flags st) = false ->
  (set_param kw1 >> set_param kw2) st = set_param (kw1 ++ kw2) st.
Proof.
  intros Hflag. unfold set_param at 1 3. unfold_monad. rewrite Hflag. simpl.
  rewrite !set_param_loop. unfold set_param. unfold_monad. simpl. rewrite Hflag. simpl.
  rewrite set_param_loop. by rewrite foldl_app.
Qed.

Lemma foldl_setattr_known (kwargs : list (kwarg (V := V))) p :
  foldl setattr_param p (List.filter known_key kwargs) = foldl setattr_param p kwargs.
Proof.
  revert p. induction kwargs as [|kw kwargs IH]; intros p; [done|].
  destruct kw; simpl; try apply IH. rewrite IH. by destruct p.
Qed.

(** X3.  A keyword that is not one of the settable parameters is skipped: the
    call behaves as the call without it. *)
Theorem set_param_skips_unknown_keys st (kwargs : list (kwarg (V := V))) :
  set_param kwargs st = set_param (List.filter known_key kwargs) st.
Proof.
  unfold set_param. unfold_monad.
  destruct (flag_setup (flags st)); simpl; [done|].
  by rewrite !set_param_loop, foldl_setattr_known.
Qed.

End Parameters.

(** ** Registering the objective *)

Section ObjectiveFacts.
Context {V : Type} `{NumV : Num V}.
Implicit Types (st s : MHE (V := V)).

Lemma issubset_spec (a b : list sym) :
  issubset a b = true <-> forall sy, sy ∈ a -> sy ∈ b.
Proof.
  unfold issubset. rewrite forallb_forall. setoid_rewrite <- list_elem_of_In.
  by setoid_rewrite bool_decide_eq_true.
Qed.

(** X4.  [set_objective] returns exactly when both expressions are scalar,
    [setup()] has not been called, the stage cost depends on symbols of
    x, u, z, tvp, p and y only and the arrival cost on symbols of x,
    x_prev, p_est and p_prev only; it then stores the two functions and
    raises its flag, and changes nothing else. *)
Theorem set_objective_returns_iff st (obj_expr arrival_cost : SX) st' :
  set_objective obj_expr arrival_cost st = (Ok tt, st') <->
  sx_shape obj_expr = (1, 1) /\ sx_shape arrival_cost = (1, 1) /\
  flag_setup (flags st) = false /\
  (forall sy, sy ∈ sx_symvar obj_expr -> sy ∈ concat (obj_input (model st))) /\
  (forall sy, sy ∈ sx_symvar arrival_cost ->
             sy ∈ concat (arrival_cost_input (model st) (part st))) /\
  st' = with_objective obj_expr arrival_cost st.
Proof.
  rewrite <- !issubset_spec.
  unfold set_objective, with_objective, obj_input, arrival_cost_input. unfold_monad.
  case_bool_decide as Ho; simpl; [|split; [done|by intros (? & _)]].
  case_bool_decide as Ha; simpl; [|split; [done|by intros (_ & ? & _)]].
  destruct (flag_setup (flags st)) eqn:Hf; simpl; [split; [done|by intros (_ & _ & ? & _)]|].
  destruct (issubset (sx_symvar obj_expr) _) eqn:Hso; simpl;
    [|split; [done|by intros (_ & _ & _ & ? & _)]].
  destruct st as [m p f pt b nl nlb cb ob es d pb]; simpl in *.
  destruct (issubset (sx_symvar arrival_cost) _) eqn:Hsa; simpl;
    [|split; [done|by intros (_ & _ & _ & _ & ? & _)]].
  split.
  - intros [= <-]. done.
  - intros (_ & _ & _ & _ & _ & ->). done.
Qed.

(** X5.  The stage cost is compiled and stored before the arrival cost is
    checked: when the stage cost is acceptable and the arrival cost
    depends on a foreign symbol, the call raises an assertion error, the
    registration flag is not raised, and [obj_fun] has been replaced. *)
Theorem set_objective_keeps_obj_fun_of_failed_call st (obj_expr arrival_cost : SX) :
  sx_shape obj_expr = (1, 1) -> sx_shape arrival_cost = (1, 1) ->
  flag_setup (flags st) = false ->
  issubset (sx_symvar obj_expr) (concat (obj_input (model st))) = true ->
  issubset (sx_symvar arrival_cost)
    (concat (arrival_cost_input (model st) (part st))) = false ->
  set_objective obj_expr arrival_cost st =
    (Raise (AssertionError
       "Arrival cost equation must be solely depending on x_0, x_prev, p_0, p_prev."),
     set_objective_funs
       (mkObjective (Some (mkFunction "obj_fun" (obj_input (model st)) obj_expr))
          (arrival_cost_fun (objective st))) st).
Proof.
  intros Ho Ha Hf Hso Hsa.
  unfold set_objective, obj_input, arrival_cost_input in *. unfold_monad.
  rewrite !bool_decide_eq_true_2 by done.
  destruct st as [m p f pt b nl nlb cb ob es d pb]; simpl in *.
  by rewrite Hf, Hso, Hsa.
Qed.

End ObjectiveFacts.

(** ** Registering callbacks *)

Section CallbackFacts.
Context {V : Type} `{NumV : Num V}.
Implicit Types (st s : MHE (V := V)).

Global Instance template_frame_preorder : PreOrder (template_frame (V := V)).
Proof.
  split.
  - intros [? ? ? ? ? ? ? [] ? ? ? ?]. reflexivity.
  - intros s1 s2 s3 H12 H23. unfold template_frame in *.
    rewrite H23, H12. by destruct s1.
Qed.

Lemma call_cb_template_frame (f : callback) (t : V) : preserves template_frame (call_cb f t).
Proof.
  destruct f; cbn [call_cb]; unfold default_y_fun, y_template_set;
    repeat preserves_step.
Qed.

Lemma template_frame_funs s s' :
  template_frame s s' ->
  flags s' = flags s /\ tvp_fun (callbacks s') = tvp_fun (callbacks s) /\
  p_fun (callbacks s') = p_fun (callbacks s) /\ y_fun (callbacks s') = y_fun (callbacks s).
Proof. unfold template_frame. intros ->. by destruct s. Qed.

Lemma assign_y_template_same s : assign_y_template (y_template (callbacks s)) s = s.
Proof. destruct s as [? ? ? ? ? ? ? [] ? ? ? ?]. reflexivity. Qed.

Lemma assign_y_template_twice T1 T2 s :
  assign_y_template T2 (assign_y_template T1 s) = assign_y_template T2 s.
Proof. by destruct s. Qed.

Lemma y_template_assign T s : y_template (callbacks (assign_y_template T s)) = T.
Proof. by destruct s. Qed.

Lemma y_template_set_run k row s T' :
  py_set (y_template (callbacks s)) k row = Ok T' ->
  y_template_set k row s = (Ok tt, assign_y_template T' s).
Proof. intros HT. unfold y_template_set. unfold_monad. by rewrite HT. Qed.

Lemma y_template_set_length k (row : list V) :
  preserves (agree_on (fun s => length (y_template (callbacks s)))) (y_template_set k row).
Proof.
  intros s r s'. unfold y_template_set, agree_on. unfold_monad.
  destruct (py_set _ _ _) as [t|e] eqn:Hset; [|by intros [= _ <-]].
  intros [= _ <-]. rewrite y_template_assign. by eapply py_set_length.
Qed.

Lemma call_cb_template_length (f : callback) (t : V) :
  preserves (agree_on (fun s => length (y_template (callbacks s)))) (call_cb f t).
Proof.
  destruct f; cbn [call_cb]; unfold default_y_fun;
    repeat first [apply y_template_set_length | preserves_step].
Qed.

(** X6.  A call of [set_p_fun] or [set_y_fun] that raises, in the function it
    was given or at the comparison of the labels, registers nothing: the
    flags and the three stored functions are as before. *)
Theorem failed_registration_registers_nothing st (f : callback) e st' :
  set_p_fun f st = (Raise e, st') \/ set_y_fun f st = (Raise e, st') ->
  flags st' = flags st /\ tvp_fun (callbacks st') = tvp_fun (callbacks st) /\
  p_fun (callbacks st') = p_fun (callbacks st) /\ y_fun (callbacks st') = y_fun (callbacks st).
Proof.
  intros H. apply template_frame_funs.
  destruct H as [H|H].
  - unfold set_p_fun, get_p_template in H.
    apply bind_raise_inv in H as [H|(tm & s1 & Ht & H)]; [discriminate|].
    injection Ht as _ <-.
    apply bind_raise_inv in H as [H|(out & s2 & Hc & H)];
      [by apply call_cb_template_frame in H|].
    apply call_cb_template_frame in Hc.
    apply bind_raise_inv in H as [H|(u & s3 & Ha & H)].
    + unfold assert in H. destruct (bool_decide _); [discriminate|].
      by injection H as _ <-.
    + apply bind_raise_inv in H as [H|(u' & s4 & _ & H)]; discriminate.
  - unfold set_y_fun, get_y_template in H.
    apply bind_raise_inv in H as [H|(tm & s1 & Ht & H)].
    { apply bind_raise_inv in H as [H|(N & s1 & _ & H)]; [|discriminate].
      unfold getattr in H. destruct (n_horizon _); [discriminate|].
      injection H as _ <-. reflexivity. }
    bind_inv Ht. apply getattr_ok_inv in Hrun as [_ ->]. injection Ht as _ <-.
    apply bind_raise_inv in H as [H|(out & s2 & Hc & H)];
      [by apply call_cb_template_frame in H|].
    apply call_cb_template_frame in Hc.
    apply bind_raise_inv in H as [H|(u & s3 & Ha & H)].
    + unfold assert in H. destruct (bool_decide _); [discriminate|].
      by injection H as _ <-.
    + apply bind_raise_inv in H as [H|(u' & s4 & _ & H)]; discriminate.
Qed.

Lemma length_labels_with (prefix : label) (s : struct_symSX) :
  length (labels_with prefix s) = struct_size s.
Proof.
  unfold labels_with, struct_size, cat.
  induction s as [|e s IH]; [done|]. cbn [flat_map]. rewrite !length_app, IH.
  f_equal. unfold entry_labels. by rewrite length_map, length_seq.
Qed.

Lemma length_repeat_labels (name : string) (n : nat) (s : struct_symSX) :
  length (repeat_labels name n s) = n * struct_size s.
Proof.
  unfold repeat_labels. generalize 0 as i.
  induction n as [|n IH]; intros i; [done|].
  cbn [seq flat_map]. by rewrite length_app, IH, length_labels_with.
Qed.

(** X7.  The template of the measurement function depends on the horizon: a
    function whose output is laid out for another horizon length is
    refused with an assertion error, and nothing is registered, as soon
    as the model has a measurement. *)
Theorem set_y_fun_refuses_other_horizon st (f : V -> res (DMStruct V)) (out : DMStruct V)
    (N N' : nat) :
  n_horizon (params st) = Some N ->
  f vzero = Ok out ->
  dm_labels out = repeat_labels "y_meas" N' (model_y (model st)) ->
  N' <> N ->
  0 < struct_size (model_y (model st)) ->
  set_y_fun (UserFun f) st =
    (Raise (AssertionError
       "Incorrect output of y_fun. Use get_y_template to obtain the required structure."),
     st).
Proof.
  intros HN Hf Hl Hne Hsize. unfold set_y_fun, get_y_template. unfold_monad. simpl.
  rewrite HN, Hf, Hl. rewrite bool_decide_eq_false_2; [done|].
  intros Heq. apply (f_equal length) in Heq. cbn [repeat_template dm_labels] in Heq. rewrite !length_repeat_labels in Heq.
  apply Nat.mul_cancel_r in Heq; lia.
Qed.

End CallbackFacts.

(** ** The registration checks *)

Section RegistrationChecks.
Context {V : Type} `{NumV : Num V}.
Implicit Types (st s : MHE (V := V)).

(** X8.  [check_validity] looks at the registrations first, in the order
    objective, time-varying parameters, fixed parameters; the first one
    that is missing decides the exception, and the store is left as it
    was.  A function for the time-varying (fixed) parameters is missing
    only if the model has time-varying (fixed) parameters. *)
Theorem check_validity_registration_order st :
  (flag_set_objective (flags st) = false ->
   check_validity st = (Raise (Exception objective_msg []), st)) /\
  (flag_set_objective (flags st) = true ->
   flag_set_tvp_fun (flags st) = false -> 0 < struct_size (model_tvp (model st)) ->
   check_validity st = (Raise (Exception tvp_fun_msg []), st)) /\
  (flag_set_objective (flags st) = true ->
   flag_set_tvp_fun (flags st) = true \/ struct_size (model_tvp (model st)) = 0 ->
   flag_set_p_fun (flags st) = false -> 0 < struct_size (_p_set (part st)) ->
   check_validity st = (Raise (Exception p_fun_msg []), st)).
Proof.
  unfold check_validity, check_registrations. unfold_monad. split_and!.
  - intros ->. reflexivity.
  - intros -> -> Ht. simpl. by rewrite bool_decide_eq_true_2.
  - intros -> Ht -> Hp. simpl.
    assert (negb (flag_set_tvp_fun (flags st)) &&
            bool_decide (0 < struct_size (model_tvp (model st))) = false) as ->.
    { destruct Ht as [->| ->]; [done|]. by rewrite andb_false_r. }
    simpl. by rewrite bool_decide_eq_true_2.
Qed.

End RegistrationChecks.

(** ** The initial guess *)

Section InitialGuess.
Context {V : Type} `{NumV : Num V} (ext : Collaborators (V := V)).
Implicit Types (st s : MHE (V := V)).




Lemma fill2_idem (v : list V) blocks : fill2 v (fill2 v blocks) = fill2 v blocks.
Proof.
  unfold fill2. rewrite <- list_fmap_compose. apply list_fmap_ext.
  intros _ row _. simpl. by rewrite <- list_fmap_compose.
Qed.

Lemma fill1_idem (v : list V) blocks : fill1 v (fill1 v blocks) = fill1 v blocks.
Proof. unfold fill1. by rewrite <- list_fmap_compose. Qed.

Lemma set_initial_guess_run st pb :
  flag_setup (flags st) = true -> problem st = Some pb ->
  set_initial_guess st =
    (Ok tt,
     set_problem (Some (set_opt_x_num
       (mk_opt_x
          (fill2 (vec_div (_x0 (estimates st)) (_x_scaling (bounds st))) (ox_x (opt_x_num pb)))
          (fill2 (vec_div (_z0 (estimates st)) (_z_scaling (bounds st))) (ox_z (opt_x_num pb)))
          (fill1 (vec_div (_u0 (estimates st)) (_u_scaling (bounds st))) (ox_u (opt_x_num pb)))
          (vec_div (_p_est0 (estimates st)) (_p_est_scaling (bounds st)))) pb)) st).
Proof. intros Hf Hpb. unfold set_initial_guess. unfold_monad. rewrite Hf. simpl. by rewrite Hpb. Qed.


(** X10.  Calling [set_initial_guess] a second time changes nothing. *)
Theorem set_initial_guess_idempotent st :
  (set_initial_guess >> set_initial_guess) st = set_initial_guess st.
Proof.
  rewrite bind_run.
  destruct (flag_setup (flags st)) eqn:Hf.
  - destruct (problem st) as [pb|] eqn:Hpb.
    + rewrite (set_initial_guess_run st pb Hf Hpb).
      erewrite set_initial_guess_run; [|by destruct st|by destruct st].
      f_equal. destruct st as [m p f pt b nl nlb cb ob es d pb0].
      cbn -[fill1 fill2]. by rewrite !fill2_idem, !fill1_idem.
    + unfold set_initial_guess. unfold_monad. rewrite Hf. simpl. by rewrite Hpb.
  - unfold set_initial_guess. unfold_monad. by rewrite Hf.
Qed.

(** X11.  [set_initial_state], returning or raising, changes at most the
    stored initial state and the recorded trajectories: the
    configuration, the callbacks, the clock, the other initial values,
    the stored settings and the assembled problem with its initial guess
    are as before, and without [reset_history] so is the history. *)
Theorem set_initial_state_frame st (x0 : pyobj (V := V)) (rh : pyflag) r st' :
  set_initial_state ext x0 rh st = (r, st') ->
  configuration st' = configuration st /\
  callbacks st' = callbacks st /\
  problem st' = problem st /\
  _u0 (estimates st') = _u0 (estimates st) /\
  _z0 (estimates st') = _z0 (estimates st) /\
  _p_est0 (estimates st') = _p_est0 (estimates st) /\
  _t0 (estimates st') = _t0 (estimates st) /\
  d_meta (data st') = d_meta (data st) /\
  (truthy rh = false -> data st' = data st).
Proof.
  unfold set_initial_state, reset_history. unfold_monad.
  destruct st as [m p f pt b nl nlb cb ob es d pb].
  destruct x0 as [a|a|s0|[k|]]; simpl; try (by intros [= _ <-]);
    destruct (bool_decide _); simpl; try (by intros [= _ <-]);
    destruct (is_py_bool rh); simpl; try (by intros [= _ <-]).
  - destruct (struct_from_array _ _ _); simpl; [|by intros [= _ <-]].
    destruct (truthy rh); by intros [= _ <-].
  - destruct (truthy rh); by intros [= _ <-].
Qed.


End InitialGuess.

(** ** The injected measurement function *)

Section MeasurementWindow.
Context {V : Type} `{NumV : Num V}.
Implicit Types (st s : MHE (V := V)) (T : list (list V)).

Section Loops.
Variables (_y : list (list V)) (n : nat).

(** [for k in range(-n_steps, 0): y_template['y_meas', k] = self.data._y[k]],
    from its [j]-th iteration on. *)
Lemma recent_rows_loop m : forall j s,
  n <= length (y_template (callbacks s)) -> n <= length _y -> j + m = n ->
  for_each (map (fun i => (- Z.of_nat n + Z.of_nat i)%Z) (seq j m))
    (fun k => let* row := lift_res (py_get _y k) in y_template_set k row) s
  = (Ok tt,
     assign_y_template
       (take (length (y_template (callbacks s)) - n + j) (y_template (callbacks s))
        ++ take m (drop (length _y - n + j) _y)
        ++ drop (length (y_template (callbacks s)) - n + j + m) (y_template (callbacks s))) s).
Proof.
  induction m as [|m IH]; intros j s HT Hy Hjm.
  - simpl. rewrite Nat.add_0_r, take_drop. unfold ret. by rewrite assign_y_template_same.
  - cbn [seq map for_each].
    set (T := y_template (callbacks s)) in *.
    destruct (lookup_lt_is_Some_2 _y (length _y - n + j)) as [row Hrow]; [lia|].
    replace (- Z.of_nat n + Z.of_nat j)%Z with (- Z.of_nat (n - j))%Z by lia.
    assert (Hget : py_get _y (- Z.of_nat (n - j)) = Ok row).
    { apply py_get_neg; [lia|]. by replace (length _y - (n - j)) with (length _y - n + j) by lia. }
    assert (Hset : y_template_set (- Z.of_nat (n - j)) row s
                   = (Ok tt, assign_y_template (<[length T - n + j := row]> T) s)).
    { apply y_template_set_run. fold T. rewrite py_set_neg by lia.
      by replace (length T - (n - j)) with (length T - n + j) by lia. }
    unfold bind at 1. unfold bind at 1. unfold lift_res at 1. rewrite Hget, Hset.
    rewrite IH; rewrite ?y_template_assign, ?length_insert; try lia.
    rewrite assign_y_template_twice. do 2 f_equal.
    replace (length T - n + S j) with (S (length T - n + j)) by lia.
    rewrite take_S_insert by lia.
    rewrite (take_S_drop _ _ _ _ Hrow).
    replace (length _y - n + S j) with (S (length _y - n + j)) by lia.
    rewrite drop_insert_lt by lia.
    rewrite <- !app_assoc. simpl.
    by replace (S (length T - n + j + m)) with (length T - n + j + S m) by lia.
Qed.

(** [for k in range(n_horizon - n_steps): y_template['y_meas', k] = row],
    from its [j]-th iteration on. *)
Lemma padding_loop (row : list V) m : forall j s,
  j + m <= length (y_template (callbacks s)) ->
  for_each (map (fun i => (0 + Z.of_nat i)%Z) (seq j m))
    (fun k => let* row := lift_res (Ok row) in y_template_set k row) s
  = (Ok tt,
     assign_y_template
       (take j (y_template (callbacks s)) ++ replicate m row
        ++ drop (j + m) (y_template (callbacks s))) s).
Proof.
  induction m as [|m IH]; intros j s Hjm.
  - simpl. rewrite Nat.add_0_r, take_drop. unfold ret. by rewrite assign_y_template_same.
  - cbn [seq map for_each].
    set (T := y_template (callbacks s)) in *.
    assert (Hset : y_template_set (0 + Z.of_nat j) row s
                   = (Ok tt, assign_y_template (<[j := row]> T) s)).
    { apply y_template_set_run. fold T. rewrite Z.add_0_l. apply py_set_nat. lia. }
    unfold bind at 1. unfold bind at 1. unfold lift_res at 1. rewrite Hset.
    rewrite IH; rewrite ?y_template_assign, ?length_insert; try done; try lia.
    rewrite assign_y_template_twice. do 2 f_equal.
    rewrite take_S_insert by lia.
    rewrite drop_insert_lt by lia.
    rewrite <- !app_assoc. simpl.
    by replace (S (j + m)) with (j + S m) by lia.
Qed.

End Loops.

(** The injected measurement function on a history with at least one
    measurement: the window is the last [min(len, N)] measurements,
    preceded by copies of the oldest of them. *)
Lemma default_y_fun_window st (lbls : list label) (N : nat) (oldest : list V) :
  let _y := data_field "_y" (data st) in
  let n := Nat.min (length _y) N in
  n_horizon (params st) = Some N ->
  length (y_template (callbacks st)) = N ->
  _y !! (length _y - n) = Some oldest ->
  default_y_fun lbls st =
    (Ok (mkDM lbls (concat (replicate (N - n) oldest ++ drop (length _y - n) _y))),
     assign_y_template (replicate (N - n) oldest ++ drop (length _y - n) _y) st).
Proof.
  cbn zeta. intros HN HT Hold.
  set (_y := data_field "_y" (data st)) in *.
  set (n := Nat.min (length _y) N) in *.
  pose proof (lookup_lt_Some _ _ _ Hold) as Hlen.
  unfold default_y_fun.
  unfold bind at 1. unfold getattr at 1. rewrite HN.
  unfold bind at 1. unfold get at 1. fold _y. fold n.
  rewrite py_range_neg, py_range_from_0.
  unfold bind at 1.
  rewrite (recent_rows_loop _y n n 0 st) by lia.
  rewrite HT, Nat.add_0_r. rewrite Nat.add_0_r.
  set (T1 := take (N - n) (y_template (callbacks st)) ++ take n (drop (length _y - n) _y)
             ++ drop (N - n + n) (y_template (callbacks st))).
  assert (HT1 : length T1 = N).
  { subst T1. rewrite !length_app, !length_take, !length_drop. lia. }
  unfold bind at 1. unfold try_except.
  assert (Hrow : py_get _y (- Z.of_nat n) = Ok oldest \/ N - n = 0).
  { destruct (decide (n = 0)) as [Hn0|Hn0].
    - destruct (decide (N = 0)); [right; lia|]. exfalso. lia.
    - left. apply py_get_neg; [lia|done]. }
  assert (Hpad : snd (for_each (map (fun i => (0 + Z.of_nat i)%Z) (seq 0 (N - n)))
            (fun k => let* row := lift_res (py_get _y (- Z.of_nat n)) in y_template_set k row)
            (assign_y_template T1 st))
          = assign_y_template (replicate (N - n) oldest ++ drop (length _y - n) _y) st).
  { destruct Hrow as [Hrow|Hz].
    - rewrite Hrow, (padding_loop oldest (N - n) 0); [|rewrite y_template_assign; lia].
      cbn [snd]. rewrite y_template_assign, assign_y_template_twice. f_equal.
      rewrite take_0, Nat.add_0_l. cbn [app]. f_equal. subst T1.
      rewrite drop_app_length'; [|rewrite length_take; lia].
      replace (N - n + n) with N by lia.
      rewrite (drop_ge (y_template _)) by lia. rewrite app_nil_r.
      apply take_ge. rewrite length_drop. lia.
    - rewrite Hz. cbn [seq map for_each ret snd replicate app]. f_equal. subst T1.
      rewrite Hz. cbn [take app]. replace (0 + n) with N by lia.
      rewrite (drop_ge (y_template _)) by lia. rewrite app_nil_r.
      apply take_ge. rewrite length_drop. lia. }
  rewrite Hpad. unfold get, ret, bind. by rewrite y_template_assign.
Qed.

(** X13.  With at least as many recorded measurements as the horizon is long,
    the injected measurement function returns the last [N] measurements,
    oldest first, and leaves them in the captured template. *)
Theorem default_y_fun_full_window st (lbls : list label) (N : nat) :
  n_horizon (params st) = Some N ->
  length (y_template (callbacks st)) = N ->
  N <= length (data_field "_y" (data st)) ->
  0 < N ->
  let _y := data_field "_y" (data st) in
  default_y_fun lbls st =
    (Ok (mkDM lbls (concat (drop (length _y - N) _y))),
     assign_y_template (drop (length _y - N) _y) st).
Proof.
  cbn zeta. intros HN HT Hlen Hpos.
  destruct (lookup_lt_is_Some_2 (data_field "_y" (data st))
              (length (data_field "_y" (data st)) - N)) as [oldest Hold]; [lia|].
  pose proof (default_y_fun_window st lbls N oldest HN HT) as H. cbn zeta in H.
  rewrite Nat.min_r in H by lia. rewrite Nat.sub_diag in H. by apply H.
Qed.

(** X14.  With fewer recorded measurements than the horizon is long, but at
    least one, the window is all of them, preceded by as many copies of
    the oldest one as are needed to fill the horizon. *)
Theorem default_y_fun_pads_with_oldest st (lbls : list label) (N : nat)
    (oldest : list V) (later : list (list V)) :
  n_horizon (params st) = Some N ->
  length (y_template (callbacks st)) = N ->
  data_field "_y" (data st) = oldest :: later ->
  S (length later) < N ->
  default_y_fun lbls st =
    (Ok (mkDM lbls (concat (replicate (N - S (length later)) oldest ++ oldest :: later))),
     assign_y_template (replicate (N - S (length later)) oldest ++ oldest :: later) st).
Proof.
  intros HN HT Hy Hlen.
  pose proof (default_y_fun_window st lbls N oldest HN HT) as H. cbn zeta in H.
  rewrite Hy in H. cbn [length] in H.
  rewrite Nat.min_l in H by lia. rewrite Nat.sub_diag in H. by apply H.
Qed.

(** X15.  With no recorded measurement, reading the oldest one raises inside
    the [try], the exception is swallowed, and the function returns the
    captured template as the previous call left it. *)
Theorem default_y_fun_empty_history st (lbls : list label) (N : nat) :
  n_horizon (params st) = Some N ->
  data_field "_y" (data st) = [] ->
  default_y_fun lbls st = (Ok (mkDM lbls (concat (y_template (callbacks st)))), st).
Proof.
  intros HN Hy. unfold default_y_fun.
  unfold bind at 1. unfold getattr at 1. rewrite HN.
  unfold bind at 1. unfold get at 1. rewrite Hy. cbn [length Nat.min].
  change (- Z.of_nat 0)%Z with 0%Z.
  change (py_range 0 0) with (@nil Z). cbn [for_each].
  unfold bind at 1. unfold ret at 1.
  assert (Hpad : snd (for_each (py_range 0 (Z.of_nat N - Z.of_nat 0))
            (fun k => let* row := lift_res (py_get (@nil (list V)) 0) in y_template_set k row) st)
          = st).
  { destruct (py_range 0 (Z.of_nat N - Z.of_nat 0)) as [|k ks]; [done|].
    cbn [for_each]. destruct (py_get_nil (A := list V) 0) as [e He].
    unfold bind, lift_res. by rewrite He. }
  unfold bind at 1. unfold try_except. rewrite Hpad. reflexivity.
Qed.

End MeasurementWindow.

(** ** The layout of the assembled problem *)

Section InsertRuns.
Context {A : Type}.

(** Overwriting the positions [i, ..., i+n-1] of a list one by one. *)
Lemma insert_run (f : nat -> A) n : forall i (l : list A),
  i + n <= length l ->
  foldl (fun l k => <[k := f k]> l) l (seq i n) = take i l ++ map f (seq i n) ++ drop (i + n) l.
Proof.
  induction n as [|n IH]; intros i l Hlen.
  - simpl. by rewrite Nat.add_0_r, take_drop.
  - cbn [seq foldl map]. rewrite IH by (rewrite length_insert; lia).
    rewrite take_S_r with (x := f i); [|apply list_lookup_insert_eq; lia].
    rewrite take_insert_ge by lia. rewrite drop_insert_lt by lia.
    rewrite <- app_assoc. cbn [app]. by replace (S i + n) with (i + S n) by lia.
Qed.

Lemma map_const_seq (v : A) i n : map (fun _ => v) (seq i n) = replicate n v.
Proof. revert i. induction n as [|n IH]; intros i; simpl; [done|]. by rewrite IH. Qed.
End InsertRuns.

Section AssemblyLayout.
Context {V : Type} `{NumV : Num V} (ext : Collaborators (V := V)).
Implicit Types (st s : MHE (V := V)) (a : Assembly (V := V)).

Section IntervalLoop.
Variables (m : Model) (b : Bounds (V := V)) (nl_lb nl_ub : list V) (g_rows ncp : nat).

Let step := horizon_step m b nl_lb nl_ub g_rows ncp recombined_p.

Lemma horizon_loop_layout n : forall i a,
  let a' := foldl step a (seq i n) in
  a_cons a' = a_cons a ++ flat_map (interval_constraints ncp) (seq i n) /\
  a_cons_lb a' = a_cons_lb a ++ flat_map (fun _ => interval_bounds m g_rows nl_lb) (seq i n) /\
  a_cons_ub a' = a_cons_ub a ++ flat_map (fun _ => interval_bounds m g_rows nl_ub) (seq i n) /\
  a_opt_aux a' =
    foldl (fun l k => <[k := aux_k ncp recombined_p k]> l) (a_opt_aux a) (seq i n) /\
  ox_x (a_lb_opt_x a') =
    foldl (fun l k => <[k := replicate (1 + ncp) (vec_div (dm_cat (_x_lb b)) (_x_scaling b))]> l)
      (ox_x (a_lb_opt_x a)) (seq i n) /\
  ox_x (a_ub_opt_x a') =
    foldl (fun l k => <[k := replicate (1 + ncp) (vec_div (dm_cat (_x_ub b)) (_x_scaling b))]> l)
      (ox_x (a_ub_opt_x a)) (seq i n) /\
  ox_u (a_lb_opt_x a') =
    foldl (fun l k => <[k := vec_div (dm_cat (_u_lb b)) (_u_scaling b)]> l)
      (ox_u (a_lb_opt_x a)) (seq i n) /\
  ox_u (a_ub_opt_x a') =
    foldl (fun l k => <[k := vec_div (dm_cat (_u_ub b)) (_u_scaling b)]> l)
      (ox_u (a_ub_opt_x a)) (seq i n) /\
  ox_z (a_lb_opt_x a') = ox_z (a_lb_opt_x a) /\
  ox_z (a_ub_opt_x a') = ox_z (a_ub_opt_x a).
Proof.
  induction n as [|n IH]; intros i a; cbn zeta.
  - simpl. rewrite !app_nil_r. done.
  - cbn [seq foldl flat_map].
    destruct (IH (S i) (step a i)) as (H1 & H2 & H3 & H4 & H5 & H6 & H7 & H8 & H9 & H10).
    cbn zeta in *.
    rewrite H1, H2, H3, H4, H5, H6, H7, H8, H9, H10.
    subst step. cbn [horizon_step a_cons a_cons_lb a_cons_ub a_opt_aux a_lb_opt_x a_ub_opt_x
                     ox_x ox_u ox_z].
    unfold interval_constraints, interval_bounds.
    rewrite <- !app_assoc. done.
Qed.

End IntervalLoop.

Lemma _setup_mhe_optim_problem_ok_inv st st' :
  _setup_mhe_optim_problem ext st = (Ok tt, st') ->
  exists N g_rows ncp nl,
    n_horizon (params st) = Some N /\
    setup_discretization ext (params st) (model st) = Ok (g_rows, ncp) /\
    (N <> 0 -> _nl_cons_bounds st = Some nl) /\
    st' = set_problem (Some (make_problem (model st) (part st) (bounds st)
                               (nlpsol_opts (params st)) nl g_rows ncp N)) st.
Proof.
  unfold _setup_mhe_optim_problem. intros H.
  bind_inv H. apply get_inv in Hrun as [[= ->] ->].
  bind_inv H as disc s0 Hdisc. injection Hdisc as Hdisc <-.
  bind_inv H as N s0 HN. apply getattr_ok_inv in HN as [HN ->].
  bind_inv H. apply getattr_ok_inv in Hrun as [_ ->].
  bind_inv H as nl s1 Hnl.
  assert (s1 = st /\ (N <> 0 -> _nl_cons_bounds st = Some nl)) as [-> Hnl'].
  { destruct (decide (N = 0)); [by injection Hnl as _ <-|].
    by apply getattr_ok_inv in Hnl as [? ->]. }
  bind_inv H as u s2 Hobj.
  assert (s2 = st) as ->.
  { destruct (decide (N = 0)); [by injection Hobj as _ <-|].
    bind_inv Hobj. apply getattr_ok_inv in Hrun as [_ ->]. by injection Hobj as _ <-. }
  apply modify_inv in H as [_ ->].
  exists N, (fst disc), (snd disc), nl. split_and!; try done. by destruct disc.
Qed.

(** X16.  The constraints and their bounds are laid out interval by interval:
    for each control interval, in order, the defect block, the
    continuity block and the block of the nonlinear constraints, bounded
    by zero, zero and the declared bounds; and the auxiliary expression
    of every interval is evaluated at the first state of the interval. *)
Theorem assembled_constraint_layout st st' :
  _setup_mhe_optim_problem ext st = (Ok tt, st') ->
  exists pb N g_rows ncp nl,
    problem st' = Some pb /\
    n_horizon (params st) = Some N /\
    setup_discretization ext (params st) (model st) = Ok (g_rows, ncp) /\
    (N <> 0 -> _nl_cons_bounds st = Some nl) /\
    nlp_cons pb = flat_map (interval_constraints ncp) (seq 0 N) /\
    cons_lb pb = flat_map (fun _ => interval_bounds (model st) g_rows (fst nl)) (seq 0 N) /\
    cons_ub pb = flat_map (fun _ => interval_bounds (model st) g_rows (snd nl)) (seq 0 N) /\
    opt_aux pb = map (aux_k ncp recombined_p) (seq 0 N).
Proof.
  intros H. apply _setup_mhe_optim_problem_ok_inv in H
    as (N & g_rows & ncp & nl & HN & Hd & Hnl & ->).
  eexists _, N, g_rows, ncp, nl. split; [reflexivity|]. split_and!; try done.
  all: unfold make_problem, assemble;
    cbn [nlp_cons cons_lb cons_ub opt_aux a_cons a_cons_lb a_cons_ub a_opt_aux];
    destruct (horizon_loop_layout (model st) (bounds st) nl.1 nl.2 g_rows ncp N 0
                (assembly_init (model st) (part st) N ncp))
      as (H1 & H2 & H3 & H4 & _); cbn zeta in *;
    cbn [assembly_init a_cons a_cons_lb a_cons_ub a_opt_aux] in *.
  - by rewrite H1.
  - by rewrite H2.
  - by rewrite H3.
  - rewrite H4, insert_run by (rewrite length_replicate; lia).
    rewrite take_0, drop_ge by (rewrite length_replicate; lia).
    by rewrite app_nil_r.
Qed.

(** X17.  The bounds handed to the solver for the decision variables: the
    state bounds, scaled, at every collocation point of the first N
    horizon steps, and no bound on the state block N that ends the
    horizon; the input bounds, scaled, on every input block; the bounds
    of the estimated parameters, scaled, on their block; and no bound on
    any algebraic block, whatever [_z_lb] and [_z_ub] hold. *)
Theorem assembled_variable_bounds st st' :
  _setup_mhe_optim_problem ext st = (Ok tt, st') ->
  exists pb N g_rows ncp,
    problem st' = Some pb /\
    n_horizon (params st) = Some N /\
    setup_discretization ext (params st) (model st) = Ok (g_rows, ncp) /\
    let b := bounds st in
    let m := model st in
    lb_opt_x pb =
      mk_opt_x
        (replicate N (replicate (1 + ncp) (vec_div (dm_cat (_x_lb b)) (_x_scaling b)))
         ++ [replicate (1 + ncp) (replicate (struct_size (model_x m)) vneg_inf)])
        (replicate N (replicate (1 + ncp) (replicate (struct_size (model_z m)) vneg_inf)))
        (replicate N (vec_div (dm_cat (_u_lb b)) (_u_scaling b)))
        (vec_div (dm_cat (_p_est_lb b)) (_p_est_scaling b)) /\
    ub_opt_x pb =
      mk_opt_x
        (replicate N (replicate (1 + ncp) (vec_div (dm_cat (_x_ub b)) (_x_scaling b)))
         ++ [replicate (1 + ncp) (replicate (struct_size (model_x m)) vinf)])
        (replicate N (replicate (1 + ncp) (replicate (struct_size (model_z m)) vinf)))
        (replicate N (vec_div (dm_cat (_u_ub b)) (_u_scaling b)))
        (vec_div (dm_cat (_p_est_ub b)) (_p_est_scaling b)).
Proof.
  intros H. apply _setup_mhe_optim_problem_ok_inv in H
    as (N & g_rows & ncp & nl & HN & Hd & Hnl & ->).
  eexists _, N, g_rows, ncp. split; [reflexivity|]. split_and!; try done.
  cbn zeta. unfold make_problem, assemble. cbn [lb_opt_x ub_opt_x a_lb_opt_x a_ub_opt_x].
  destruct (horizon_loop_layout (model st) (bounds st) nl.1 nl.2 g_rows ncp N 0
              (assembly_init (model st) (part st) N ncp))
    as (_ & _ & _ & _ & Hxl & Hxu & Hul & Huu & Hzl & Hzu). cbn zeta in *.
  rewrite Hxl, Hxu, Hul, Huu, Hzl, Hzu.
  cbn [assembly_init a_lb_opt_x a_ub_opt_x opt_x_call ox_x ox_u ox_z].
  rewrite !insert_run by (rewrite length_replicate; lia).
  rewrite !take_0, !map_const_seq. cbn [app].
  rewrite !(drop_ge (replicate N _)) by (rewrite length_replicate; lia).
  rewrite !app_nil_r.
  replace (N + 1) with (S N) by lia. rewrite !replicate_S_end.
  rewrite !drop_app_length' by (rewrite length_replicate; lia).
  done.
Qed.

End AssemblyLayout.

(** ** The partition made by the construction *)

Section ConstructionFacts.
Context {V : Type} `{NumV : Num V} (ext : Collaborators (V := V)).
Implicit Types (st s : MHE (V := V)).

Lemma keys_entries_where (_p : struct_symSX) (keep : string -> bool) :
  keys (entries_where _p keep) = List.filter keep (keys _p).
Proof. unfold entries_where, keys. rewrite <- list_fmap_compose. apply list_fmap_id. Qed.

Lemma MHE_init_ok_inv (base : OptimizerBase (V := V)) (m : Model) (l : list string) st :
  MHE_init ext base m l = Ok st ->
  model_flags_setup m = true /\
  model st = m /\
  _p_est (part st) = make_p_est (model_p m) l /\
  _p_set (part st) = make_p_set (model_p m) l.
Proof.
  unfold MHE_init. destruct (model_flags_setup m); [|done]. cbn [negb].
  destruct (Function_new _ _ _); [|done]. by intros [= <-].
Qed.

(** X18.  The two structures built by the construction split the model's
    parameters: the estimated structure holds a zero-sized entry
    [default] and then the requested entries, the fixed structure the
    remaining ones, both in the model's order; every parameter symbol
    of the model is in exactly one of them, so the sizes add up to the
    size of the model's parameter structure. *)
Theorem partition_covers_model_parameters
    (base : OptimizerBase (V := V)) (m : Model) (p_est_list : list string) st :
  NoDup (keys (model_p m)) ->
  MHE_init ext base m p_est_list = Ok st ->
  keys (_p_est (part st)) = "default" :: List.filter (in_list p_est_list) (keys (model_p m)) /\
  keys (_p_set (part st)) =
    List.filter (fun k => negb (in_list p_est_list k)) (keys (model_p m)) /\
  cat (_p_est (part st)) ++ cat (_p_set (part st)) ≡ₚ cat (model_p m) /\
  struct_size (_p_est (part st)) + struct_size (_p_set (part st)) = struct_size (model_p m).
Proof.
  intros Hnd (_ & _ & He & Hs)%MHE_init_ok_inv. rewrite He, Hs.
  assert (Hperm : cat (make_p_est (model_p m) p_est_list)
                  ++ cat (make_p_set (model_p m) p_est_list) ≡ₚ cat (model_p m)).
  { rewrite cat_make_p_est, cat_make_p_set by done. apply selected_perm. }
  split_and!.
  - unfold make_p_est. cbn [keys map e_name]. f_equal. apply keys_entries_where.
  - apply keys_entries_where.
  - exact Hperm.
  - unfold struct_size. rewrite <- length_app. by rewrite Hperm.
Qed.

(** X19.  The construction looks at the requested names only through
    membership: two lists that request the same parameters of the
    model, in whatever order and with whatever repetitions, give the
    same estimator (or the same failure). *)
Theorem construction_depends_on_requested_set
    (base : OptimizerBase (V := V)) (m : Model) (l1 l2 : list string) :
  (forall k, k ∈ keys (model_p m) -> (k ∈ l1 <-> k ∈ l2)) ->
  MHE_init ext base m l1 = MHE_init ext base m l2.
Proof.
  intros Hsame.
  assert (Hin : forall k, k ∈ keys (model_p m) -> in_list l1 k = in_list l2 k).
  { intros k Hk. unfold in_list. apply bool_decide_ext. by apply Hsame. }
  assert (He : make_p_est (model_p m) l1 = make_p_est (model_p m) l2).
  { unfold make_p_est. f_equal. by apply entries_where_ext. }
  assert (Hs : make_p_set (model_p m) l1 = make_p_set (model_p m) l2).
  { unfold make_p_set. apply entries_where_ext. intros k Hk. f_equal. by apply Hin. }
  unfold MHE_init. by rewrite He, Hs.
Qed.

End ConstructionFacts.

(** ** Setting up *)

Section SetupFacts.
Context {V : Type} `{NumV : Num V} (ext : Collaborators (V := V)).
Implicit Types (st s : MHE (V := V)).

(** The three registration methods, when they return. *)
Lemma set_tvp_fun_ok_inv (f : callback) s s' :
  set_tvp_fun f s = (Ok tt, s') ->
  exists s1, template_frame s s1 /\
    length (y_template (callbacks s1)) = length (y_template (callbacks s)) /\
    s' = set_flags (raise_flag_set_tvp_fun (flags s1))
           (set_callbacks (mkCallbacks (Some f) (p_fun (callbacks s1)) (y_fun (callbacks s1))
                             (y_template (callbacks s1))) s1).
Proof.
  unfold set_tvp_fun, get_tvp_template. intros H.
  bind_inv H as tm s0 Ht. bind_inv Ht. apply getattr_ok_inv in Hrun as [_ ->].
  injection Ht as _ <-.
  bind_inv H as out s1 Hc.
  bind_inv H. unfold assert in Hrun. destruct (bool_decide _); [|discriminate].
  injection Hrun as _ <-.
  bind_inv H. apply modify_inv in Hrun as [_ ->]. apply modify_inv in H as [_ ->].
  exists s1. split_and!.
  - by eapply call_cb_template_frame.
  - by eapply call_cb_template_length.
  - by destruct s1.
Qed.

Lemma set_p_fun_ok_inv (f : callback) s s' :
  set_p_fun f s = (Ok tt, s') ->
  exists s1, template_frame s s1 /\
    length (y_template (callbacks s1)) = length (y_template (callbacks s)) /\
    s' = with_p_fun f s1.
Proof.
  unfold set_p_fun, get_p_template. intros H.
  bind_inv H as tm s0 Ht. injection Ht as _ <-.
  bind_inv H as out s1 Hc.
  bind_inv H. unfold assert in Hrun. destruct (bool_decide _); [|discriminate].
  injection Hrun as _ <-.
  bind_inv H. apply modify_inv in Hrun as [_ ->]. apply modify_inv in H as [_ ->].
  exists s1. split_and!.
  - by eapply call_cb_template_frame.
  - by eapply call_cb_template_length.
  - unfold with_p_fun. by destruct s1.
Qed.

Lemma set_y_fun_ok_inv (f : callback) s s' :
  set_y_fun f s = (Ok tt, s') ->
  exists s1, template_frame s s1 /\
    length (y_template (callbacks s1)) = length (y_template (callbacks s)) /\
    s' = with_y_fun f s1.
Proof.
  unfold set_y_fun, get_y_template. intros H.
  bind_inv H as tm s0 Ht. bind_inv Ht. apply getattr_ok_inv in Hrun as [_ ->].
  injection Ht as _ <-.
  bind_inv H as out s1 Hc.
  bind_inv H. unfold assert in Hrun. destruct (bool_decide _); [|discriminate].
  injection Hrun as _ <-.
  bind_inv H. apply modify_inv in Hrun as [_ ->]. apply modify_inv in H as [_ ->].
  exists s1. split_and!.
  - by eapply call_cb_template_frame.
  - by eapply call_cb_template_length.
  - unfold with_y_fun. by destruct s1.
Qed.

Lemma callbacks_frame_untouched s s' :
  callbacks_frame s s' -> agree_on untouched_by_registration s s'.
Proof. unfold callbacks_frame, agree_on. intros ->. by destruct s. Qed.

Lemma check_bound_pair_untouched p :
  preserves (agree_on untouched_by_registration) (check_bound_pair p).
Proof. destruct p as [lb ub]. unfold check_bound_pair. repeat preserves_step. Qed.

Lemma check_validity_untouched :
  preserves (agree_on untouched_by_registration) check_validity.
Proof.
  unfold check_validity, check_registrations, check_bounds, inject_dummy_funs, require_y_fun,
    set_tvp_fun, set_p_fun, set_y_fun, get_tvp_template, get_p_template, get_y_template.
  repeat first
    [ apply check_bound_pair_untouched
    | preserves_step
    | eapply preserves_weaken; [apply callbacks_frame_untouched|apply call_cb_frame] ].
Qed.

Lemma check_bounds_ok_frame s s' : check_bounds s = (Ok tt, s') -> s' = s.
Proof.
  intros H. pose proof (check_bounds_ok_inv _ _ H) as (Cx & Cu & Cz).
  destruct (check_bounds_result s) as (Hok & _). cbn zeta in Hok.
  rewrite (Hok Cx Cu Cz) in H. by injection H.
Qed.

Lemma inject_dummy_funs_ok_inv s s' :
  inject_dummy_funs s = (Ok tt, s') ->
  is_Some (tvp_fun (callbacks s')) /\ is_Some (p_fun (callbacks s')) /\
  flag_set_y_fun (flags s') = flag_set_y_fun (flags s) /\
  params s' = params s /\ model s' = model s.
Proof.
  unfold inject_dummy_funs. intros H.
  bind_inv H. apply get_inv in Hrun as [[= ->] ->].
  bind_inv H as u s1 Htvp.
  assert (H1 : is_Some (tvp_fun (callbacks s1)) /\
               flag_set_y_fun (flags s1) = flag_set_y_fun (flags s) /\
               params s1 = params s /\ model s1 = model s).
  { destruct (tvp_fun (callbacks s)) as [f|] eqn:Hf.
    - injection Htvp as _ <-. by rewrite Hf.
    - bind_inv Htvp as tm s0 Ht. bind_inv Ht. apply getattr_ok_inv in Hrun as [_ ->].
      injection Ht as _ <-. destruct u.
      apply set_tvp_fun_ok_inv in Htvp as (s2 & HF & _ & ->).
      rewrite HF. by destruct s. }
  destruct H1 as (Ht1 & Hy1 & Hp1 & Hm1).
  bind_inv H. apply get_inv in Hrun as [[= ->] ->].
  destruct (p_fun (callbacks s1)) as [f|] eqn:Hf.
  - injection H as <-. by rewrite Hf.
  - bind_inv H as tm s0 Ht. injection Ht as _ <-.
    apply set_p_fun_ok_inv in H as (s2 & HF & _ & ->).
    rewrite HF. rewrite <- Hy1, <- Hp1, <- Hm1.
    destruct Ht1 as [g Hg]. destruct s1 as [? ? ? ? ? ? ? [] ? ? ? ?].
    cbn in *. subst. split_and!; eauto.
Qed.

Lemma require_y_fun_ok_inv s s' :
  require_y_fun s = (Ok tt, s') ->
  flag_set_y_fun (flags s) = false /\ meas_from_data (params s) = true /\
  exists N, n_horizon (params s) = Some N /\
    y_fun (callbacks s') =
      Some (DefaultYFun (repeat_labels "y_meas" N (model_y (model s)))) /\
    length (y_template (callbacks s')) = N /\
    tvp_fun (callbacks s') = tvp_fun (callbacks s) /\
    p_fun (callbacks s') = p_fun (callbacks s) /\
    flag_set_y_fun (flags s') = true.
Proof.
  unfold require_y_fun. intros H.
  bind_inv H. apply get_inv in Hrun as [[= ->] ->].
  destruct (flag_set_y_fun (flags s)) eqn:Hflag; [discriminate|].
  destruct (meas_from_data (params s)) eqn:Hmeas; [|discriminate]. cbn [negb andb] in H.
  split; [done|]. split; [done|].
  bind_inv H as y_t s0 Ht. unfold get_y_template in Ht.
  bind_inv Ht as N s0' HN. apply getattr_ok_inv in HN as [HN ->]. injection Ht as <- <-.
  bind_inv H. apply getattr_ok_inv in Hrun as [HN' ->].
  rewrite HN in HN'. injection HN' as <-.
  bind_inv H. apply modify_inv in Hrun as [_ ->].
  apply set_y_fun_ok_inv in H as (s2 & HF & Hlen & ->).
  exists N. split; [done|].
  rewrite y_template_assign, length_replicate in Hlen.
  rewrite HF. destruct s as [? ? ? ? ? ? ? [] ? ? ? ?]. cbn in *. done.
Qed.

Lemma check_registrations_ok_inv s s' :
  check_registrations s = (Ok tt, s') -> flag_set_objective (flags s) = true.
Proof.
  unfold check_registrations. unfold_monad.
  by destruct (flag_set_objective (flags s)).
Qed.

Lemma check_validity_ok_inv s s' :
  check_validity s = (Ok tt, s') ->
  flag_set_objective (flags s) = true /\
  flag_set_y_fun (flags s) = false /\ meas_from_data (params s) = true /\
  exists N, n_horizon (params s) = Some N /\
    y_fun (callbacks s') =
      Some (DefaultYFun (repeat_labels "y_meas" N (model_y (model s)))) /\
    length (y_template (callbacks s')) = N /\
    is_Some (tvp_fun (callbacks s')) /\ is_Some (p_fun (callbacks s')) /\
    flag_set_y_fun (flags s') = true.
Proof.
  unfold check_validity. intros H.
  bind_inv H as u1 s1 Hreg. destruct u1.
  pose proof (check_registrations_ok_inv _ _ Hreg) as Hobj.
  apply check_registrations_frame in Hreg as ->.
  bind_inv H as u2 s2 Hb. destruct u2. apply check_bounds_ok_frame in Hb as ->.
  bind_inv H as u3 s3 Hinj. destruct u3.
  apply inject_dummy_funs_ok_inv in Hinj as (Ht & Hp & Hy & Hpar & Hm).
  apply require_y_fun_ok_inv in H as (Hy3 & Hm3 & N & HN & Hyf & Hlen & Ht' & Hp' & Hy').
  rewrite Hy in Hy3. rewrite Hpar in Hm3, HN. rewrite Hm in Hyf.
  split_and!; try done. exists N. rewrite Ht', Hp'. done.
Qed.

Lemma make_problem_opt_x_num (m : Model) (pt : Partition) (b : Bounds (V := V))
    (opts : gmap string opt_value) (nl : list V * list V) (g_rows ncp N : nat) :
  opt_x_num (make_problem m pt b opts nl g_rows ncp N) = opt_x_call m pt N ncp vzero.
Proof. reflexivity. Qed.

Lemma fill2_replicate (v w : list V) (a b : nat) :
  fill2 v (replicate a (replicate b w)) = replicate a (replicate b v).
Proof. unfold fill2. by rewrite !fmap_replicate. Qed.

Lemma fill1_replicate (v w : list V) (a : nat) :
  fill1 v (replicate a w) = replicate a v.
Proof. unfold fill1. by rewrite !fmap_replicate. Qed.

(** The statements of [setup()] up to the call of [check_validity]. *)
Lemma setup_run st :
  setup ext st =
  match n_horizon (params st), t_step (params st) with
  | Some _, Some _ =>
      let s1 := set_data (data_set_meta (params st) (data st))
                  (set_nl_cons_bounds (Some (make_nl_cons_bounds (nl_cons_list st))) st) in
      (check_validity >>
       _setup_mhe_optim_problem ext >>
       modify (fun s => set_flags (raise_flag_setup (flags s)) s) >>
       set_initial_guess >>
       modify (fun s => set_data (prepare_data ext (data s)) s)) s1
  | None, _ =>
      (Raise (AttributeError "n_horizon"),
       set_nl_cons_bounds (Some (make_nl_cons_bounds (nl_cons_list st))) st)
  | Some _, None =>
      (Raise (AttributeError "t_step"),
       set_nl_cons_bounds (Some (make_nl_cons_bounds (nl_cons_list st))) st)
  end.
Proof.
  unfold setup. rewrite bind_run. cbn [modify].
  rewrite bind_run. unfold getattr at 1.
  destruct st as [m p f pt b nl nlb cb ob es d pb]. cbn.
  destruct (n_horizon p); [|done].
  rewrite bind_run. unfold getattr at 1. cbn.
  destruct (t_step p); [|done].
  reflexivity.
Qed.

(** After the assembly, the rest of [setup()] cannot fail. *)
Lemma setup_tail_run s (pb : Problem) :
  problem s = Some pb ->
  (modify (fun s => set_flags (raise_flag_setup (flags s)) s) >>
   set_initial_guess >>
   modify (fun s => set_data (prepare_data ext (data s)) s)) s
  = (Ok tt,
     set_data (prepare_data ext (data s))
       (set_problem (Some (set_opt_x_num
          (mk_opt_x
             (fill2 (vec_div (_x0 (estimates s)) (_x_scaling (bounds s))) (ox_x (opt_x_num pb)))
             (fill2 (vec_div (_z0 (estimates s)) (_z_scaling (bounds s))) (ox_z (opt_x_num pb)))
             (fill1 (vec_div (_u0 (estimates s)) (_u_scaling (bounds s))) (ox_u (opt_x_num pb)))
             (vec_div (_p_est0 (estimates s)) (_p_est_scaling (bounds s)))) pb))
          (set_flags (raise_flag_setup (flags s)) s))).
Proof.
  intros Hpb. rewrite bind_run. cbn [modify]. rewrite bind_run.
  erewrite set_initial_guess_run; [|by destruct s|by destruct s; cbn; exact Hpb].
  cbn [modify]. by destruct s.
Qed.

Lemma _setup_mhe_optim_problem_raise_frame s e s' :
  _setup_mhe_optim_problem ext s = (Raise e, s') -> s' = s.
Proof.
  unfold _setup_mhe_optim_problem. unfold_monad.
  destruct (setup_discretization _ _ _); [|by intros [= _ <-]].
  destruct (n_horizon _) as [N|]; [|by intros [= _ <-]].
  destruct (arrival_cost_fun _); [|by intros [= _ <-]].
  destruct (decide (N = 0)); [discriminate|].
  destruct (_nl_cons_bounds s); [|by intros [= _ <-]].
  destruct (obj_fun _); [discriminate|by intros [= _ <-]].
Qed.

(** A returning [setup()], stage by stage: the checks return in a store
    [s2], the problem is assembled from it, the flag is raised and the
    initial guess is written. *)
Lemma setup_ok_stages st st' :
  setup ext st = (Ok tt, st') ->
  exists s2 (N g_rows ncp : nat) (nl : list V * list V),
    check_validity
      (set_data (data_set_meta (params st) (data st))
         (set_nl_cons_bounds (Some (make_nl_cons_bounds (nl_cons_list st))) st))
      = (Ok tt, s2) /\
    n_horizon (params s2) = Some N /\
    setup_discretization ext (params s2) (model s2) = Ok (g_rows, ncp) /\
    let pb := make_problem (model s2) (part s2) (bounds s2) (nlpsol_opts (params s2))
                nl g_rows ncp N in
    st' =
      set_data (prepare_data ext (data s2))
        (set_problem (Some (set_opt_x_num
           (mk_opt_x
              (fill2 (vec_div (_x0 (estimates s2)) (_x_scaling (bounds s2))) (ox_x (opt_x_num pb)))
              (fill2 (vec_div (_z0 (estimates s2)) (_z_scaling (bounds s2))) (ox_z (opt_x_num pb)))
              (fill1 (vec_div (_u0 (estimates s2)) (_u_scaling (bounds s2))) (ox_u (opt_x_num pb)))
              (vec_div (_p_est0 (estimates s2)) (_p_est_scaling (bounds s2)))) pb))
           (set_flags (raise_flag_setup (flags s2)) s2)).
Proof.
  rewrite setup_run.
  destruct (n_horizon (params st)) as [N0|] eqn:HN0; [|discriminate].
  destruct (t_step (params st)) as [dt|] eqn:Hdt; [|discriminate].
  cbn zeta. intros H.
  bind_inv H as u1 s2 Hcv. destruct u1.
  bind_inv H as u2 s3 Has. destruct u2.
  apply _setup_mhe_optim_problem_ok_inv in Has as (N & g & ncp & nl & HN & Hd & _ & ->).
  rewrite (setup_tail_run _ (make_problem (model s2) (part s2) (bounds s2)
                               (nlpsol_opts (params s2)) nl g ncp N)) in H
    by (by destruct s2).
  injection H as <-.
  exists s2, N, g, ncp, nl. split_and!; done.
Qed.

(** A raising [setup()]: either a parameter without default is not set,
    or the store of the failure differs from the one the checks started
    from in callbacks and registration flags only. *)
Lemma setup_raise_inv st e st' :
  setup ext st = (Raise e, st') ->
  let s0 := set_nl_cons_bounds (Some (make_nl_cons_bounds (nl_cons_list st))) st in
  st' = s0 \/
  untouched_by_registration st' =
    untouched_by_registration (set_data (data_set_meta (params st) (data st)) s0).
Proof.
  rewrite setup_run. cbn zeta.
  destruct (n_horizon (params st)) as [N0|]; [|intros [= _ <-]; by left].
  destruct (t_step (params st)) as [dt|]; [|intros [= _ <-]; by left].
  intros H. right.
  apply bind_raise_inv in H as [H|(u1 & s2 & Hcv & H)];
    [by apply check_validity_untouched in H|].
  apply check_validity_untouched in Hcv. unfold agree_on in Hcv. rewrite <- Hcv.
  apply bind_raise_inv in H as [H|(u2 & s3 & Has & H)].
  { by apply _setup_mhe_optim_problem_raise_frame in H as ->. }
  destruct u2.
  apply _setup_mhe_optim_problem_ok_inv in Has as (N & g & ncp & nl & _ & _ & _ & ->).
  erewrite setup_tail_run in H; [discriminate|by destruct s2].
Qed.

(** X20.  [setup()] returns only if the default measurement function was
    requested and no measurement function had been registered.  When it
    returns, the setup flag is raised, the three callbacks exist, the
    measurement function is the injected default one, and its captured
    template has one row per horizon step. *)
Theorem setup_installs_default_measurement_function st st' :
  setup ext st = (Ok tt, st') ->
  flag_set_objective (flags st) = true /\
  flag_set_y_fun (flags st) = false /\
  meas_from_data (params st) = true /\
  flag_setup (flags st') = true /\
  flag_set_y_fun (flags st') = true /\
  is_Some (tvp_fun (callbacks st')) /\
  is_Some (p_fun (callbacks st')) /\
  exists N, n_horizon (params st') = Some N /\
    y_fun (callbacks st') =
      Some (DefaultYFun (repeat_labels "y_meas" N (model_y (model st')))) /\
    length (y_template (callbacks st')) = N.
Proof.
  intros H. apply setup_ok_stages in H as (s2 & N' & g & ncp & nl & Hcv & _ & _ & ->).
  pose proof (check_validity_untouched _ _ _ Hcv) as Hfr.
  apply check_validity_ok_inv in Hcv as (Hobj & Hy & Hm & N & HN & Hyf & Hlen & Ht & Hp & Hy').
  unfold agree_on, untouched_by_registration in Hfr.
  destruct st as [m p f pt b nl0 nlb cb ob es d pb]. cbn in *.
  destruct s2 as [m2 p2 f2 pt2 b2 nl2 nlb2 cb2 ob2 es2 d2 pb2]. cbn in *.
  injection Hfr as -> -> -> -> -> -> -> -> -> -> _ _.
  split_and!; try done. by exists N.
Qed.

(** X21.  When [setup()] returns, the initial guess of the solver has N+1 rows
    of state blocks, N rows of algebraic blocks, each row with one
    block per collocation point and one more, and N input blocks; every
    state block holds the scaled initial state, every algebraic block
    the scaled initial algebraic value and every input block the scaled
    initial input. *)
Theorem setup_leaves_initial_guess st st' :
  setup ext st = (Ok tt, st') ->
  exists (pb : Problem) (N g_rows ncp : nat),
    problem st' = Some pb /\
    n_horizon (params st) = Some N /\
    setup_discretization ext (params st) (model st) = Ok (g_rows, ncp) /\
    let e := estimates st in
    let b := bounds st in
    ox_x (opt_x_num pb) = replicate (N + 1) (replicate (1 + ncp) (vec_div (_x0 e) (_x_scaling b))) /\
    ox_z (opt_x_num pb) = replicate N (replicate (1 + ncp) (vec_div (_z0 e) (_z_scaling b))) /\
    ox_u (opt_x_num pb) = replicate N (vec_div (_u0 e) (_u_scaling b)) /\
    ox_p_est (opt_x_num pb) = vec_div (_p_est0 e) (_p_est_scaling b).
Proof.
  intros H. apply setup_ok_stages in H as (s2 & N & g & ncp & nl & Hcv & HN & Hd & ->).
  apply check_validity_untouched in Hcv.
  unfold agree_on, untouched_by_registration in Hcv.
  destruct st as [m p f pt b nl0 nlb cb ob es d pb].
  destruct s2 as [m2 p2 f2 pt2 b2 nl2 nlb2 cb2 ob2 es2 d2 pb2].
  cbn -[fill1 fill2 replicate Nat.add make_problem] in *.
  injection Hcv as -> -> -> -> -> -> -> -> -> -> _ _.
  eexists _, N, g, ncp. split; [reflexivity|]. split_and!; try done.
  all: cbn [opt_x_num set_opt_x_num ox_x ox_z ox_u ox_p_est];
    rewrite ?make_problem_opt_x_num; cbn [opt_x_call ox_x ox_z ox_u ox_p_est].
  - exact (fill2_replicate _ _ (N + 1) (1 + ncp)).
  - exact (fill2_replicate _ _ N (1 + ncp)).
  - apply fill1_replicate.
Qed.


(** X23.  [setup()] cannot be repeated: after a call that returned, every
    further call raises, and the problem assembled by the first call
    stays in place. *)
Theorem setup_twice_raises st0 st :
  setup ext st0 = (Ok tt, st) ->
  exists e st',
    setup ext st = (Raise e, st') /\
    flag_setup (flags st') = true /\ problem st' = problem st.
Proof.
  intros H0.
  assert (Hflags : flag_setup (flags st) = true /\ flag_set_y_fun (flags st) = true).
  { apply setup_ok_stages in H0 as (s2 & N & g & ncp & nl & Hcv & _ & _ & ->).
    apply check_validity_ok_inv in Hcv as (_ & _ & _ & _ & _ & _ & _ & _ & _ & Hy).
    by destruct s2. }
  destruct Hflags as [Hs Hy].
  destruct (setup ext st) as [[[]|e] st'] eqn:H1.
  - exfalso.
    apply setup_ok_stages in H1 as (s2 & N & g & ncp & nl & Hcv & _).
    apply check_validity_ok_inv in Hcv as (_ & Hy0 & _).
    destruct st. cbn in *. congruence.
  - exists e, st'. split; [done|].
    apply setup_raise_inv in H1. cbn zeta in H1. rewrite <- Hs.
    destruct H1 as [->|H1]; [by destruct st|].
    unfold untouched_by_registration in H1.
    destruct st as [m p f pt b nl0 nlb cb ob es d pb]. cbn in H1.
    by injection H1 as _ _ _ _ _ _ _ _ _ -> -> _.
Qed.

End SetupFacts.

(** ** Stepping *)

Section StepFacts.
Context {V : Type} `{NumV : Num V} (ext : Collaborators (V := V)).
Implicit Types (st s : MHE (V := V)).

Lemma callbacks_frame_estimates s s' : callbacks_frame s s' -> estimates s' = estimates s.
Proof. unfold callbacks_frame. intros ->. by destruct s. Qed.
Lemma problem_frame_estimates s s' : problem_frame s s' -> estimates s' = estimates s.
Proof. unfold problem_frame. intros ->. by destruct s. Qed.
Lemma problem_frame_callbacks s s' : problem_frame s s' -> callbacks s' = callbacks s.
Proof. unfold problem_frame. intros ->. by destruct s. Qed.

Lemma callbacks_frame_configuration s s' :
  callbacks_frame s s' -> agree_on configuration s s'.
Proof. unfold callbacks_frame, agree_on. intros ->. by destruct s. Qed.
Lemma problem_frame_configuration s s' :
  problem_frame s s' -> agree_on configuration s s'.
Proof. unfold problem_frame, agree_on. intros ->. by destruct s. Qed.

(** X24.  [make_step], returning or raising, leaves the configuration alone:
    the model, the parameters, the flags, the parameter partition, the
    bounds and scalings, the nonlinear constraints and the objective
    are as before. *)
Theorem make_step_keeps_configuration st (y0 : list V) r st' :
  make_step ext y0 st = (r, st') -> configuration st' = configuration st.
Proof.
  revert st r st'. change (preserves (agree_on configuration) (make_step ext y0)).
  unfold make_step, data_update_m.
  repeat first
    [ preserves_step
    | eapply preserves_weaken; [apply callbacks_frame_configuration|apply call_cb_frame]
    | eapply preserves_weaken; [apply problem_frame_configuration|apply fill_opt_p_num_frame]
    | eapply preserves_weaken; [apply problem_frame_configuration|apply solve_frame] ].
Qed.

(** The five assignments to the parameter buffer. *)
Lemma fill_opt_p_num_inv (a b c d e : list V) s s' :
  fill_opt_p_num a b c d e s = (Ok tt, s') ->
  exists pb v1 v2 v3 v4 v5,
    problem s = Some pb /\
    assign_block (op_x_prev (opt_p_num pb)) a = Ok v1 /\
    assign_block (op_p_prev (opt_p_num pb)) b = Ok v2 /\
    assign_block (op_p_set (opt_p_num pb)) c = Ok v3 /\
    assign_block (op_tvp (opt_p_num pb)) d = Ok v4 /\
    assign_block (op_y_meas (opt_p_num pb)) e = Ok v5 /\
    s' = set_problem (Some (set_opt_p_num (mk_opt_p v1 v2 v3 v4 v5) pb)) s.
Proof.
  unfold fill_opt_p_num. intros H.
  bind_inv H as pb s0 Hpb. apply getattr_ok_inv in Hpb as [Hpb ->].
  bind_inv H as v1 s0 H1. apply lift_res_ok_inv in H1 as [H1 ->].
  bind_inv H. apply modify_inv in Hrun as [_ ->].
  bind_inv H as v2 s0 H2. apply lift_res_ok_inv in H2 as [H2 ->].
  bind_inv H. apply modify_inv in Hrun as [_ ->].
  bind_inv H as v3 s0 H3. apply lift_res_ok_inv in H3 as [H3 ->].
  bind_inv H. apply modify_inv in Hrun as [_ ->].
  bind_inv H as v4 s0 H4. apply lift_res_ok_inv in H4 as [H4 ->].
  bind_inv H. apply modify_inv in Hrun as [_ ->].
  bind_inv H as v5 s0 H5. apply lift_res_ok_inv in H5 as [H5 ->].
  apply modify_inv in H as [_ ->].
  exists pb, v1, v2, v3, v4, v5. split_and!; done.
Qed.

(** What a returning [make_step] has done, statement by statement. *)
Lemma make_step_ok_inv st (y0 x_next : list V) st' :
  make_step ext y0 st = (Ok x_next, st') ->
  exists (f_y : callback) (y_traj : DMStruct V) s2 s3 (pb_prev pb : Problem)
         (x_k : list (list V)) (x_last u_last : list V)
         (z_k : list (list V)) (z_last aux0 p0 : list V) (dt : V),
    (* the measurement function is called on a store that holds the
       new measurement *)
    data s2 = data_update "_y" y0 (data st) /\
    params s2 = params st /\
    template_frame (set_data (data_update "_y" y0 (data st)) st) s2 /\
    length (y_template (callbacks s2)) = length (y_template (callbacks st)) /\
    y_fun (callbacks s2) = Some f_y /\
    call_cb f_y (_t0 (estimates st)) s2 = (Ok y_traj, s3) /\
    callbacks st' = callbacks s3 /\
    (* the buffers *)
    problem st = Some pb_prev /\
    problem st' = Some pb /\
    assign_block (op_y_meas (opt_p_num pb_prev)) (dm_cat y_traj) = Ok (op_y_meas (opt_p_num pb)) /\
    (* the solution *)
    py_get (ox_x (opt_x_num pb)) (-1) = Ok x_k /\ py_get x_k (-1) = Ok x_last /\
    py_get (ox_u (opt_x_num pb)) (-1) = Ok u_last /\
    py_get (ox_z (opt_x_num pb)) (-1) = Ok z_k /\ py_get z_k (-1) = Ok z_last /\
    t_step (params st) = Some dt /\
    x_next = vec_mul x_last (_x_scaling (bounds st)) /\
    (* the estimates and the history afterwards *)
    estimates st' =
      mkEstimates x_next
        (vec_mul u_last (_u_scaling (bounds st)))
        (vec_mul z_last (_z_scaling (bounds st)))
        (vec_mul (ox_p_est (opt_x_num pb)) (_p_est_scaling (bounds st)))
        (vadd (_t0 (estimates st)) dt) /\
    d_meta (data st') = d_meta (data st) /\
    d_log (data st') =
      d_log (data st) ++
      [ ("_y", y0);
        ("_x", _x0 (estimates st));
        ("_u", vec_mul u_last (_u_scaling (bounds st)));
        ("_z", vec_mul z_last (_z_scaling (bounds st)));
        ("_p", p0);
        ("_time", [_t0 (estimates st)]);
        ("_aux_expression", aux0) ].
Proof.
  unfold make_step, data_update_m. intros H.
  bind_inv H. apply modify_inv in Hrun as [_ ->].
  bind_inv H. apply get_inv in Hrun as [[= ->] ->].
  set (s0 := set_data (data_update "_y" y0 (data st)) st) in *.
  bind_inv H. apply getattr_ok_inv in Hrun as [_ ->].
  bind_inv H as tvp0 s1 Htvp.
  bind_inv H as f_p s1' Hpf. apply getattr_ok_inv in Hpf as [Hpf ->].
  bind_inv H as p_set0 s2 Hp.
  bind_inv H as f_y s2' Hyf. apply getattr_ok_inv in Hyf as [Hyf ->].
  bind_inv H as y_traj s3 Hy.
  bind_inv H as u4 s4 Hfill. destruct u4.
  bind_inv H as u5 s5 Hsolve. destruct u5.
  bind_inv H as pb s5' Hpb. apply getattr_ok_inv in Hpb as [Hpb ->].
  bind_inv H as x_k s5' Hxk. apply lift_res_ok_inv in Hxk as [Hxk ->].
  bind_inv H as x_last s5' Hxl. apply lift_res_ok_inv in Hxl as [Hxl ->].
  bind_inv H. apply modify_inv in Hrun as [_ ->].
  bind_inv H as u_last s6 Hul. apply lift_res_ok_inv in Hul as [Hul ->].
  bind_inv H as z_k s6 Hzk. apply lift_res_ok_inv in Hzk as [Hzk ->].
  bind_inv H as z_last s6 Hzl. apply lift_res_ok_inv in Hzl as [Hzl ->].
  bind_inv H as aux0 s6 Haux. apply lift_res_ok_inv in Haux as [Haux ->].
  bind_inv H as p0 s6 Hp0. apply lift_res_ok_inv in Hp0 as [Hp0 ->].
  do 6 (bind_inv H; apply modify_inv in Hrun as [_ ->]).
  bind_inv H as dt s6 Hdt. apply getattr_ok_inv in Hdt as [Hdt ->].
  do 2 (bind_inv H; apply modify_inv in Hrun as [_ ->]).
  injection H as <- <-.
  pose proof (call_cb_frame _ _ _ _ _ Htvp) as F1.
  pose proof (call_cb_frame _ _ _ _ _ Hp) as F2.
  pose proof (call_cb_frame _ _ _ _ _ Hy) as F3.
  pose proof (call_cb_template_frame _ _ _ _ _ Htvp) as T1.
  pose proof (call_cb_template_frame _ _ _ _ _ Hp) as T2.
  pose proof (call_cb_template_length _ _ _ _ _ Htvp) as L1.
  pose proof (call_cb_template_length _ _ _ _ _ Hp) as L2.
  pose proof (fill_opt_p_num_frame _ _ _ _ _ _ _ _ Hfill) as F4.
  pose proof (solve_frame ext _ _ _ Hsolve) as F5.
  apply fill_opt_p_num_inv in Hfill as (pb3 & v1 & v2 & v3 & v4 & v5 & Hpb3 & _ & _ & _ & _ & Hv5 & Hs4).
  apply solve_ok in Hsolve as (pb4 & Hpb4 & Hpb5).
  assert (pb4 = set_opt_p_num (mk_opt_p v1 v2 v3 v4 v5) pb3) as ->.
  { rewrite Hs4 in Hpb4. by destruct s3; injection Hpb4. }
  rewrite Hpb5 in Hpb. injection Hpb as Hpb.
  rewrite (callbacks_frame_problem_eq _ _ F3), (callbacks_frame_problem_eq _ _ F2),
    (callbacks_frame_problem_eq _ _ F1) in Hpb3.
  assert (Hdata : data s5 = data s0).
  { rewrite (problem_frame_data _ _ F5), (problem_frame_data _ _ F4),
      (callbacks_frame_data _ _ F3), (callbacks_frame_data _ _ F2).
    apply (callbacks_frame_data _ _ F1). }
  assert (Hest : estimates s5 = estimates st).
  { rewrite (problem_frame_estimates _ _ F5), (problem_frame_estimates _ _ F4),
      (callbacks_frame_estimates _ _ F3), (callbacks_frame_estimates _ _ F2),
      (callbacks_frame_estimates _ _ F1). by destruct st. }
  assert (Hpar : params s5 = params st).
  { rewrite (problem_frame_params _ _ F5), (problem_frame_params _ _ F4),
      (callbacks_frame_params _ _ F3), (callbacks_frame_params _ _ F2),
      (callbacks_frame_params _ _ F1). by destruct st. }
  assert (Hcb : callbacks s5 = callbacks s3).
  { by rewrite (problem_frame_callbacks _ _ F5), (problem_frame_callbacks _ _ F4). }
  exists f_y, y_traj, s2, s3, pb3, pb, x_k, x_last, u_last, z_k, z_last, aux0, p0, dt.
  split_and!; try done.
  - rewrite (callbacks_frame_data _ _ F2). apply (callbacks_frame_data _ _ F1).
  - rewrite (callbacks_frame_params _ _ F2), (callbacks_frame_params _ _ F1). by destruct st.
  - by transitivity s1.
  - unfold agree_on in L1, L2. rewrite L2, L1. by destruct st.
  - cbn. rewrite Hpb5. cbn. by rewrite Hpb.
  - rewrite <- Hpb. cbn. by destruct pb3.
  - cbn in Hdt. by rewrite Hpar in Hdt.
  - cbn. rewrite Hest. by rewrite <- Hpb.
  - cbn. rewrite Hdata. by destruct st.
  - cbn. rewrite Hdata. cbn. by rewrite <- !app_assoc.
Qed.

(** X25.  A [make_step] that returns stores what the next step starts from:
    the returned state becomes the initial state, the parameter
    estimate, the last input and the last algebraic value of the
    solution, unscaled, become the other initial values, and the clock
    advances by [t_step]. *)
Theorem make_step_advances_estimates st (y0 x_next : list V) st' :
  make_step ext y0 st = (Ok x_next, st') ->
  exists (pb : Problem) (dt : V) (u_last : list V) (z_k : list (list V)) (z_last : list V),
    problem st' = Some pb /\
    t_step (params st) = Some dt /\
    py_get (ox_u (opt_x_num pb)) (-1) = Ok u_last /\
    py_get (ox_z (opt_x_num pb)) (-1) = Ok z_k /\ py_get z_k (-1) = Ok z_last /\
    _x0 (estimates st') = x_next /\
    _p_est0 (estimates st') =
      vec_mul (ox_p_est (opt_x_num pb)) (_p_est_scaling (bounds st)) /\
    _u0 (estimates st') = vec_mul u_last (_u_scaling (bounds st)) /\
    _z0 (estimates st') = vec_mul z_last (_z_scaling (bounds st)) /\
    _t0 (estimates st') = vadd (_t0 (estimates st)) dt.
Proof.
  intros H. apply make_step_ok_inv in H
    as (f_y & y_traj & s2 & s3 & pb_prev & pb & x_k & x_last & u_last & z_k & z_last & aux0
        & p0 & dt & _ & _ & _ & _ & _ & _ & _ & _ & Hpb & _ & _ & _ & Hu & Hzk & Hz & Hdt & _
        & Hest & _).
  exists pb, dt, u_last, z_k, z_last. rewrite Hest. done.
Qed.

(** X26.  Two steps in a row: the state that the second step records is the
    state that the first step returned, the time it records is the time
    of the first step advanced by [t_step], and the measurements are
    recorded in the order of the calls. *)
Theorem consecutive_steps_chain st (y1 y2 x1 x2 : list V) st1 st2 :
  make_step ext y1 st = (Ok x1, st1) ->
  make_step ext y2 st1 = (Ok x2, st2) ->
  exists dt : V,
    t_step (params st) = Some dt /\
    data_field "_y" (data st2) = data_field "_y" (data st) ++ [y1; y2] /\
    data_field "_x" (data st2) = data_field "_x" (data st) ++ [_x0 (estimates st); x1] /\
    data_field "_time" (data st2) =
      data_field "_time" (data st) ++ [[_t0 (estimates st)]; [vadd (_t0 (estimates st)) dt]].
Proof.
  intros H1 H2.
  apply make_step_ok_inv in H1
    as (? & ? & ? & ? & ? & ? & ? & ? & ? & ? & ? & ? & ? & dt & _ & _ & _ & _ & _ & _ & _ & _
        & _ & _ & _ & _ & _ & _ & _ & Hdt & _ & Hest1 & Hmeta1 & Hlog1).
  apply make_step_ok_inv in H2
    as (? & ? & ? & ? & ? & ? & ? & ? & ? & ? & ? & ? & ? & dt2 & _ & _ & _ & _ & _ & _ & _ & _
        & _ & _ & _ & _ & _ & _ & _ & _ & _ & _ & Hmeta2 & Hlog2).
  exists dt. split; [done|].
  unfold data_field. rewrite Hlog2, Hlog1, Hest1. cbn [_x0 _t0].
  rewrite <- app_assoc, !List.filter_app, !map_app.
  split_and!; vm_compute List.filter; cbn [map snd app]; reflexivity.
Qed.

Lemma data_field_update (key : string) (v : list V) (d : Data (V := V)) :
  data_field key (data_update key v d) = data_field key d ++ [v].
Proof.
  unfold data_field, data_update. cbn [d_log].
  rewrite List.filter_app, map_app. cbn [List.filter fst].
  by rewrite bool_decide_eq_true_2.
Qed.

(** X27.  With the injected measurement function in place and a template of
    one row per horizon step, a [make_step] that returns has refilled
    the template from the history, the measurement just passed being
    its last row; the rows, concatenated, are what was written to the
    measurement block of the parameter buffer of the solver.  The
    measurement function and the size of the template are as before. *)
Theorem default_window_ends_with_new_measurement st (lbls : list label) (N : nat)
    (y0 x_next : list V) st' :
  y_fun (callbacks st) = Some (DefaultYFun lbls) ->
  n_horizon (params st) = Some N ->
  0 < N ->
  length (y_template (callbacks st)) = N ->
  make_step ext y0 st = (Ok x_next, st') ->
  exists (pb_prev pb : Problem),
    last (y_template (callbacks st')) = Some y0 /\
    length (y_template (callbacks st')) = N /\
    y_fun (callbacks st') = Some (DefaultYFun lbls) /\
    problem st = Some pb_prev /\
    problem st' = Some pb /\
    assign_block (op_y_meas (opt_p_num pb_prev)) (concat (y_template (callbacks st')))
      = Ok (op_y_meas (opt_p_num pb)).
Proof.
  intros Hyf HN Hpos Hlen H.
  apply make_step_ok_inv in H
    as (f_y & y_traj & s2 & s3 & pb_prev & pb & ? & ? & ? & ? & ? & ? & ? & ?
        & Hdata & Hpar & HT & Hlen2 & Hyf2 & Hcall & Hcb & Hpb0 & Hpb & Hblock & _).
  pose proof (template_frame_funs _ _ HT) as (_ & _ & _ & Hy2).
  rewrite Hyf2 in Hy2. cbn in Hy2. rewrite Hyf in Hy2. injection Hy2 as ->.
  cbn [call_cb] in Hcall.
  set (_y := data_field "_y" (data st)) in *.
  assert (Hy' : data_field "_y" (data s2) = _y ++ [y0]).
  { rewrite Hdata. apply data_field_update. }
  set (n := Nat.min (length (_y ++ [y0])) N).
  assert (Hn : 0 < n <= length _y + 1).
  { subst n. rewrite length_app. simpl. lia. }
  destruct (lookup_lt_is_Some_2 (_y ++ [y0]) (length (_y ++ [y0]) - n)) as [oldest Hold].
  { rewrite length_app. simpl. lia. }
  pose proof (default_y_fun_window s2 lbls N oldest) as Hw. cbn zeta in Hw.
  rewrite Hy' in Hw. fold n in Hw.
  rewrite Hw in Hcall; [|by rewrite Hpar|by rewrite Hlen2|done].
  injection Hcall as <- <-.
  rewrite Hcb, y_template_assign.
  assert (Hdrop : drop (length (_y ++ [y0]) - n) (_y ++ [y0])
                  = drop (length _y + 1 - n) _y ++ [y0]).
  { rewrite length_app. simpl. rewrite drop_app_le by lia. done. }
  exists pb_prev, pb. split_and!; try done.
  - rewrite Hdrop, app_assoc. apply last_snoc.
  - rewrite length_app, length_replicate, length_drop, length_app. simpl. lia.
Qed.

Lemma callbacks_frame_progress s s' : callbacks_frame s s' -> agree_on step_progress s s'.
Proof. unfold callbacks_frame, agree_on. intros ->. by destruct s. Qed.
Lemma problem_frame_progress s s' : problem_frame s s' -> agree_on step_progress s s'.
Proof. unfold problem_frame, agree_on. intros ->. by destruct s. Qed.

(** One statement of [make_step] before the step record is written. *)
Ltac progress_step HR H :=
  let a := fresh "a" in
  let s1 := fresh "s" in
  let HR' := fresh "HR" in
  eapply (bind_raise_cases (agree_on step_progress) _ _ _ _ _ _ HR) in H;
  [ destruct H as [H|(a & s1 & HR' & H)]; [exact H|clear HR; rename HR' into HR]
  | first
      [ eapply preserves_weaken; [apply callbacks_frame_progress|apply call_cb_frame]
      | eapply preserves_weaken; [apply problem_frame_progress|apply fill_opt_p_num_frame]
      | eapply preserves_weaken; [apply problem_frame_progress|apply solve_frame]
      | repeat preserves_step ] ].

(** X28.  When [t_step] is set, a [make_step] that raises has appended the
    measurement to the history and nothing else: no step record is
    written, and the initial state, input and algebraic value and the
    clock are as before. *)
Theorem failed_step_records_measurement_only st (y0 : list V) e st' :
  is_Some (t_step (params st)) ->
  make_step ext y0 st = (Raise e, st') ->
  d_log (data st') = d_log (data st) ++ [("_y", y0)] /\
  _x0 (estimates st') = _x0 (estimates st) /\
  _u0 (estimates st') = _u0 (estimates st) /\
  _z0 (estimates st') = _z0 (estimates st) /\
  _t0 (estimates st') = _t0 (estimates st).
Proof.
  intros [dt Hdt] H.
  unfold make_step, data_update_m in H.
  apply bind_raise_inv in H as [H|(u & s0 & Hrun & H)]; [discriminate|].
  apply modify_inv in Hrun as [_ ->].
  apply bind_raise_inv in H as [H|(s00 & s0 & Hrun & H)]; [discriminate|].
  apply get_inv in Hrun as [[= ->] ->].
  set (s0 := set_data (data_update "_y" y0 (data st)) st) in *.
  assert (Hgoal : agree_on step_progress s0 st').
  2:{ unfold agree_on, step_progress in Hgoal. subst s0. destruct st.
      cbn in *. by injection Hgoal as -> -> -> -> -> _. }
  assert (Hdt0 : t_step (params s0) = Some dt) by (by destruct st).
  assert (HR : agree_on step_progress s0 s0) by reflexivity.
  do 17 (progress_step HR H).
  (* the step record and the update of the estimates cannot fail *)
  exfalso. unfold agree_on, step_progress in HR. injection HR as _ _ _ _ _ Hpar.
  match type of Hpar with params ?s = _ =>
    assert (Hp : t_step (params s) = Some dt) by (rewrite Hpar; exact Hdt0);
    revert H Hp; clear; destruct s
  end.
  unfold_monad. cbn. intros H Hp. rewrite Hp in H. discriminate.
Qed.

End StepFacts.

(** * The properties on the example estimator *)

Import Example.

Lemma ex_model_p_wf : struct_wf (model_p ex_model).
Proof. split; apply (bool_decide_unpack _); vm_compute; exact I. Qed.

Lemma ex_new_constructed : MHE_init ex_ext ex_base ex_model ["k1"] = Ok ex_new.
Proof. reflexivity. Qed.

Lemma ex_configure_run : ex_configure ex_new = (Ok tt, ex_ready).
Proof. vm_compute. reflexivity. Qed.

Lemma ex_setup_run : setup ex_ext ex_ready = (Ok tt, ex_after_setup).
Proof. vm_compute. reflexivity. Qed.

Lemma ex_step_run : make_step ex_ext [x_fin 5] ex_after_setup = (Ok [x_fin 5], ex_after_step).
Proof. vm_compute. reflexivity. Qed.

Lemma ex_own_y_fun_run : ex_configure_own_y_fun ex_new = (Ok tt, ex_own_y_fun).
Proof. vm_compute. reflexivity. Qed.

(** ** Recombination (C1) *)


(** ** The assembled problem (C2) *)



(** ** The measurement requirement (C3) *)

(** C3, at the failing input: the caller has registered a measurement
    function with [set_y_fun], and [check_validity] raises the exception
    that says none was supplied. *)
Lemma check_validity_rejects_registered_y_fun :
  flag_set_y_fun (flags ex_own_y_fun) = true /\
  y_fun (callbacks ex_own_y_fun) = Some ex_y_fun /\
  fst (check_validity ex_own_y_fun) =
    Raise (Exception
      "You have not suppplied a measurement function. Use .set_y_fun or set parameter meas_from_data to True for default function."
      []).
Proof. split_and!; vm_compute; reflexivity. Qed.

(** ** The bounds check (C4) *)

(** C4, counterexample.  With the estimated parameter bounded below by 1
    and above by 0, [setup()] returns.  With the bounds of the state and
    of the input both the wrong way round, the failure message names the
    state component and not the input component. *)
Lemma bounds_check_misses_components :
  (vec_gt (dm_cat (_p_est_lb (bounds (ex_invert_p_est_bounds ex_ready))))
          (dm_cat (_p_est_ub (bounds (ex_invert_p_est_bounds ex_ready)))) = [true] /\
   fst (setup ex_ext (ex_invert_p_est_bounds ex_ready)) = Ok tt) /\
  (vec_gt (dm_cat (_x_lb (bounds (ex_invert_x_u_bounds ex_ready))))
          (dm_cat (_x_ub (bounds (ex_invert_x_u_bounds ex_ready)))) = [true] /\
   vec_gt (dm_cat (_u_lb (bounds (ex_invert_x_u_bounds ex_ready))))
          (dm_cat (_u_ub (bounds (ex_invert_x_u_bounds ex_ready)))) = [true] /\
   dm_labels (_u_lb (bounds (ex_invert_x_u_bounds ex_ready))) = [[inl "u"; inr 0]] /\
   fst (check_validity (ex_invert_x_u_bounds ex_ready)) =
     Raise (Exception bounds_msg [[inl "x"; inr 0]])).
Proof. split_and!; vm_compute; reflexivity. Qed.

Lemma bounds_gate_witness :
  fst (check_validity (ex_invert_x_u_bounds ex_ready)) =
    Raise (Exception bounds_msg
             (bound_fail (_x_lb (bounds (ex_invert_x_u_bounds ex_ready)))
                         (_x_ub (bounds (ex_invert_x_u_bounds ex_ready))))).
Proof.
  destruct (bounds_gate ex_ext (ex_invert_x_u_bounds ex_ready)) as (_ & _ & Hfail & _).
  destruct Hfail as (Hx & _).
  { split_and!; [reflexivity|by right|by left]. }
  rewrite Hx; [reflexivity|].
  intros Hc. specialize (Hc 0 (x_fin 1) (x_fin 0) eq_refl eq_refl). discriminate.
Defined.

(** ** Registration after setup (C5) *)

Lemma registration_after_setup_witness :
  (exists msg, set_objective ex_stage_cost ex_arrival_cost ex_after_setup
               = (Raise (AssertionError msg), ex_after_setup)) /\
  set_p_fun ex_p_fun ex_after_setup
    = (Ok tt, with_p_fun ex_p_fun ex_after_setup).
Proof.
  destruct (registration_after_setup ex_ext ex_ready ex_after_setup ex_setup_run)
    as (Hobj & Hp & _).
  split; [apply Hobj|].
  eapply Hp; reflexivity.
Defined.

(** C5, counterexample: after [setup()] has completed, [set_p_fun] and
    [set_y_fun] return. *)
Lemma callbacks_are_registered_after_setup :
  setup ex_ext ex_ready = (Ok tt, ex_after_setup) /\
  fst (set_p_fun ex_p_fun ex_after_setup) = Ok tt /\
  fst (set_y_fun ex_y_fun ex_after_setup) = Ok tt.
Proof. split_and!; vm_compute; reflexivity. Qed.

(** ** The step before setup (C6) *)

(** C6, at the failing input: on the estimator as constructed,
    [make_step] raises an [AttributeError] for the missing [tvp_fun], and
    the history already holds the measurement. *)
Lemma make_step_before_setup_records_measurement :
  flag_setup (flags ex_new) = false /\
  d_log (data ex_new) = [] /\
  fst (make_step ex_ext [x_fin 5] ex_new) = Raise (AttributeError "tvp_fun") /\
  d_log (data (snd (make_step ex_ext [x_fin 5] ex_new))) = [("_y", [x_fin 5])].
Proof. split_and!; vm_compute; reflexivity. Qed.

(** ** The step record (C7) *)



(** ** The solver options (C8) *)

(** C8, at the failing input: the caller supplies no option; the merged
    options of the design keep the default [expand], and the options
    the solver is constructed with are empty. *)
Lemma solver_receives_caller_options_only :
  exists pb : Problem (V := xnum),
    problem ex_after_setup = Some pb /\
    nlpsol_opts (params ex_ready) = ∅ /\
    merged_nlpsol_opts (nlpsol_opts (params ex_ready)) !! "expand" = Some (OBool false) /\
    solver_opts (S_solver pb) !! "expand" = None /\
    solver_opts (S_solver pb) = ∅.
Proof. eexists. split_and!; vm_compute; reflexivity. Qed.

(** ** Construction with an unknown name (C9) *)



(** ** The initial state (C10) *)

Lemma set_initial_state_checks_size_witness :
  (exists e, set_initial_state ex_ext (ndarray [x_fin 1; x_fin 2]) (py_bool false) ex_after_step
             = (Raise e, ex_after_step)) /\
  set_initial_state ex_ext (ndarray [x_fin 3]) (py_bool true) ex_after_step
    = (Ok tt, set_data (data_init_storage (data ex_after_step))
                (assign_x0 [x_fin 3] ex_after_step)).
Proof.
  destruct (set_initial_state_checks_size ex_ext ex_after_step (ndarray [x_fin 1; x_fin 2])
              (py_bool false)) as (Hbad & _).
  destruct (set_initial_state_checks_size ex_ext ex_after_step (ndarray [x_fin 3])
              (py_bool true)) as (_ & _ & _ & Hgood).
  split.
  - apply Hbad. vm_compute. discriminate.
  - exact (Hgood [x_fin 3] [x_fin 3] true eq_refl eq_refl eq_refl eq_refl).
Defined.

(** * The further properties on the example estimator *)

Lemma ex_second_step_run :
  make_step ex_ext [x_fin 6] ex_after_step = (Ok [x_fin 6], ex_after_two_steps).
Proof. vm_compute. reflexivity. Qed.

(** ** Setting parameters *)

Lemma set_param_guarded_witness :
  set_param [kw_n_horizon 5] ex_after_setup =
    (Raise (AssertionError "Setting parameters after setup is prohibited."), ex_after_setup) /\
  set_param [kw_n_horizon 5; kw_unknown "horizon"; kw_n_horizon 7] ex_new =
    (Ok tt, set_params
              (foldl setattr_param (params ex_new)
                 [kw_n_horizon 5; kw_unknown "horizon"; kw_n_horizon 7]) ex_new).
Proof.
  split.
  - apply (proj1 (set_param_guarded ex_after_setup [kw_n_horizon 5])). reflexivity.
  - apply (proj2 (set_param_guarded ex_new _)). reflexivity.
Defined.

Lemma set_param_calls_compose_witness :
  (set_param [kw_n_horizon 5] >> set_param [kw_n_horizon 7; kw_t_step (x_fin 1)]) ex_new
  = set_param [kw_n_horizon 5; kw_n_horizon 7; kw_t_step (x_fin 1)] ex_new.
Proof.
  exact (set_param_calls_compose ex_new [kw_n_horizon 5]
           [kw_n_horizon 7; kw_t_step (x_fin 1)] eq_refl).
Defined.

(** ** Registering the objective *)

Lemma set_objective_returns_iff_witness :
  set_objective ex_stage_cost ex_arrival_cost ex_new
  = (Ok tt, with_objective ex_stage_cost ex_arrival_cost ex_new).
Proof.
  apply (proj2 (set_objective_returns_iff ex_new ex_stage_cost ex_arrival_cost
                  (with_objective ex_stage_cost ex_arrival_cost ex_new))).
  split_and!; try reflexivity; by apply issubset_spec.
Defined.

Lemma set_objective_keeps_obj_fun_of_failed_call_witness :
  set_objective ex_stage_cost ex_foreign_arrival_cost ex_new =
    (Raise (AssertionError
       "Arrival cost equation must be solely depending on x_0, x_prev, p_0, p_prev."),
     set_objective_funs
       (mkObjective (Some (mkFunction "obj_fun" (obj_input (model ex_new)) ex_stage_cost))
          (arrival_cost_fun (objective ex_new))) ex_new).
Proof.
  apply (set_objective_keeps_obj_fun_of_failed_call ex_new ex_stage_cost
           ex_foreign_arrival_cost); reflexivity.
Defined.

(** ** Registering callbacks *)

Lemma ex_empty_p_fun_run :
  set_p_fun ex_empty_p_fun ex_new =
    (Raise (AssertionError
       "Incorrect output of p_fun. Use get_p_template to obtain the required structure."),
     snd (set_p_fun ex_empty_p_fun ex_new)).
Proof. vm_compute. reflexivity. Qed.

Lemma failed_registration_registers_nothing_witness :
  flags (snd (set_p_fun ex_empty_p_fun ex_new)) = flags ex_new /\
  p_fun (callbacks (snd (set_p_fun ex_empty_p_fun ex_new))) = None.
Proof.
  destruct (failed_registration_registers_nothing ex_new ex_empty_p_fun _ _
              (or_introl ex_empty_p_fun_run)) as (Hf & _ & Hp & _).
  split; [exact Hf|exact Hp].
Defined.

Lemma set_y_fun_refuses_other_horizon_witness :
  set_y_fun (UserFun ex_y_fun_horizon_3) ex_ready =
    (Raise (AssertionError
       "Incorrect output of y_fun. Use get_y_template to obtain the required structure."),
     ex_ready).
Proof.
  apply (set_y_fun_refuses_other_horizon ex_ready ex_y_fun_horizon_3
           (mkDM (repeat_labels "y_meas" 3 (model_y ex_model)) [x_fin 0; x_fin 0; x_fin 0])
           2 3); [reflexivity|reflexivity|reflexivity|lia|vm_compute; lia].
Defined.

(** ** The registration checks *)

Lemma check_validity_registration_order_witness :
  check_validity ex_new = (Raise (Exception objective_msg []), ex_new).
Proof. apply (proj1 (check_validity_registration_order ex_new)). reflexivity. Defined.

(** ** The initial guess *)


Lemma set_initial_state_frame_witness :
  problem (snd (set_initial_state ex_ext (ndarray [x_fin 3]) (py_bool true) ex_after_step))
    = problem ex_after_step /\
  _t0 (estimates (snd (set_initial_state ex_ext (ndarray [x_fin 3]) (py_bool true)
                         ex_after_step)))
    = _t0 (estimates ex_after_step).
Proof.
  destruct (set_initial_state_frame ex_ext ex_after_step (ndarray [x_fin 3]) (py_bool true)
              (fst (set_initial_state ex_ext (ndarray [x_fin 3]) (py_bool true) ex_after_step))
              (snd (set_initial_state ex_ext (ndarray [x_fin 3]) (py_bool true) ex_after_step)))
    as (_ & _ & Hpb & _ & _ & _ & Ht & _).
  { apply surjective_pairing. }
  split; [exact Hpb|exact Ht].
Defined.


(** ** The injected measurement function *)

Lemma default_y_fun_full_window_witness :
  default_y_fun [] ex_after_two_steps =
    (Ok (mkDM [] [x_fin 5; x_fin 6]),
     assign_y_template [[x_fin 5]; [x_fin 6]] ex_after_two_steps).
Proof.
  exact (default_y_fun_full_window ex_after_two_steps [] 2 eq_refl eq_refl
           (le_n 2) (le_S 1 1 (le_n 1))).
Defined.

Lemma default_y_fun_pads_with_oldest_witness :
  default_y_fun [] ex_one_measurement =
    (Ok (mkDM [] [x_fin 5; x_fin 5]),
     assign_y_template [[x_fin 5]; [x_fin 5]] ex_one_measurement).
Proof.
  exact (default_y_fun_pads_with_oldest ex_one_measurement [] 2 [x_fin 5] []
           eq_refl eq_refl eq_refl (le_n 2)).
Defined.

Lemma default_y_fun_empty_history_witness :
  default_y_fun [] ex_after_setup =
    (Ok (mkDM [] (concat (y_template (callbacks ex_after_setup)))), ex_after_setup).
Proof. exact (default_y_fun_empty_history ex_after_setup [] 2 eq_refl eq_refl). Defined.

(** ** The layout of the assembled problem *)

Lemma ex_assembly_run :
  _setup_mhe_optim_problem ex_ext ex_after_setup
  = (Ok tt, snd (_setup_mhe_optim_problem ex_ext ex_after_setup)).
Proof. vm_compute. reflexivity. Qed.

Lemma assembled_constraint_layout_witness :
  exists pb : Problem (V := xnum),
    problem (snd (_setup_mhe_optim_problem ex_ext ex_after_setup)) = Some pb /\
    nlp_cons pb = interval_constraints 2 0 ++ interval_constraints 2 1 /\
    opt_aux pb = [aux_k 2 recombined_p 0; aux_k 2 recombined_p 1].
Proof.
  destruct (assembled_constraint_layout ex_ext ex_after_setup _ ex_assembly_run)
    as (pb & N & g_rows & ncp & nl & Hpb & HN & Hd & _ & Hc & _ & _ & Ha).
  vm_compute in HN. injection HN as <-.
  vm_compute in Hd. injection Hd as <- <-.
  exists pb. split_and!; [exact Hpb|exact Hc|exact Ha].
Defined.

Lemma assembled_variable_bounds_witness :
  exists pb : Problem (V := xnum),
    problem (snd (_setup_mhe_optim_problem ex_ext ex_after_setup)) = Some pb /\
    ox_x (lb_opt_x pb) =
      [ [[x_neg_inf]; [x_neg_inf]; [x_neg_inf]];
        [[x_neg_inf]; [x_neg_inf]; [x_neg_inf]];
        [[x_neg_inf]; [x_neg_inf]; [x_neg_inf]] ] /\
    ox_z (ub_opt_x pb) =
      [ [[x_pos_inf]; [x_pos_inf]; [x_pos_inf]];
        [[x_pos_inf]; [x_pos_inf]; [x_pos_inf]] ].
Proof.
  destruct (assembled_variable_bounds ex_ext ex_after_setup _ ex_assembly_run)
    as (pb & N & g_rows & ncp & Hpb & HN & Hd & Hlb & Hub).
  vm_compute in HN. injection HN as <-.
  vm_compute in Hd. injection Hd as <- <-.
  exists pb. split; [exact Hpb|]. rewrite Hlb, Hub. split; reflexivity.
Defined.

(** ** The partition made by the construction *)

Lemma partition_covers_model_parameters_witness :
  keys (_p_est (part ex_new)) = ["default"; "k1"] /\
  keys (_p_set (part ex_new)) = ["k2"] /\
  struct_size (_p_est (part ex_new)) + struct_size (_p_set (part ex_new)) = 2.
Proof.
  destruct (partition_covers_model_parameters ex_ext ex_base ex_model ["k1"] ex_new
              (proj1 ex_model_p_wf) ex_new_constructed) as (He & Hs & _ & Hn).
  split_and!; [exact He|exact Hs|exact Hn].
Defined.

Lemma construction_depends_on_requested_set_witness :
  MHE_init ex_ext ex_base ex_model ["k1"; "k9"]
  = MHE_init ex_ext ex_base ex_model ["k9"; "k1"; "k1"].
Proof.
  apply (construction_depends_on_requested_set ex_ext ex_base ex_model).
  intros k _. rewrite !elem_of_cons, !elem_of_nil. tauto.
Defined.

(** ** Setting up *)

Lemma setup_installs_default_measurement_function_witness :
  meas_from_data (params ex_ready) = true /\
  flag_setup (flags ex_after_setup) = true /\
  y_fun (callbacks ex_after_setup) =
    Some (DefaultYFun (repeat_labels "y_meas" 2 (model_y ex_model))) /\
  length (y_template (callbacks ex_after_setup)) = 2.
Proof.
  destruct (setup_installs_default_measurement_function ex_ext ex_ready ex_after_setup
              ex_setup_run)
    as (_ & _ & Hm & Hs & _ & _ & _ & N & HN & Hy & Hl).
  vm_compute in HN. injection HN as <-.
  split_and!; [exact Hm|exact Hs|exact Hy|exact Hl].
Defined.

Lemma setup_leaves_initial_guess_witness :
  exists pb : Problem (V := xnum),
    problem ex_after_setup = Some pb /\
    ox_x (opt_x_num pb) =
      [ [[x_fin 0]; [x_fin 0]; [x_fin 0]];
        [[x_fin 0]; [x_fin 0]; [x_fin 0]];
        [[x_fin 0]; [x_fin 0]; [x_fin 0]] ] /\
    ox_u (opt_x_num pb) = [[x_fin 0]; [x_fin 0]].
Proof.
  destruct (setup_leaves_initial_guess ex_ext ex_ready ex_after_setup ex_setup_run)
    as (pb & N & g_rows & ncp & Hpb & HN & Hd & Hx & _ & Hu & _).
  vm_compute in HN. injection HN as <-.
  vm_compute in Hd. injection Hd as <- <-.
  exists pb. split; [exact Hpb|]. rewrite Hx, Hu. split; reflexivity.
Defined.



Lemma setup_twice_raises_witness :
  exists e st',
    setup ex_ext ex_after_setup = (Raise e, st') /\
    flag_setup (flags st') = true /\ problem st' = problem ex_after_setup.
Proof. exact (setup_twice_raises ex_ext ex_ready ex_after_setup ex_setup_run). Defined.

(** ** Stepping *)

Lemma make_step_keeps_configuration_witness :
  configuration ex_after_step = configuration ex_after_setup.
Proof.
  exact (make_step_keeps_configuration ex_ext ex_after_setup [x_fin 5] _ _ ex_step_run).
Defined.

Lemma make_step_advances_estimates_witness :
  _x0 (estimates ex_after_step) = [x_fin 5] /\
  _t0 (estimates ex_after_step) = x_fin 1.
Proof.
  destruct (make_step_advances_estimates ex_ext ex_after_setup [x_fin 5] [x_fin 5]
              ex_after_step ex_step_run)
    as (pb & dt & u_last & z_k & z_last & _ & Hdt & _ & _ & _ & Hx & _ & _ & _ & Ht).
  vm_compute in Hdt. injection Hdt as <-.
  split; [exact Hx|exact Ht].
Defined.

Lemma consecutive_steps_chain_witness :
  data_field "_y" (data ex_after_two_steps) = [[x_fin 5]; [x_fin 6]] /\
  data_field "_x" (data ex_after_two_steps) = [[x_fin 0]; [x_fin 5]] /\
  data_field "_time" (data ex_after_two_steps) = [[x_fin 0]; [x_fin 1]].
Proof.
  destruct (consecutive_steps_chain ex_ext ex_after_setup [x_fin 5] [x_fin 6] [x_fin 5]
              [x_fin 6] ex_after_step ex_after_two_steps ex_step_run ex_second_step_run)
    as (dt & Hdt & Hy & Hx & Ht).
  vm_compute in Hdt. injection Hdt as <-.
  split_and!; [exact Hy|exact Hx|exact Ht].
Defined.

Lemma default_window_ends_with_new_measurement_witness :
  last (y_template (callbacks ex_after_step)) = Some [x_fin 5] /\
  length (y_template (callbacks ex_after_step)) = 2.
Proof.
  destruct (default_window_ends_with_new_measurement ex_ext ex_after_setup
              (repeat_labels "y_meas" 2 (model_y ex_model)) 2 [x_fin 5] [x_fin 5]
              ex_after_step eq_refl eq_refl (le_S 1 1 (le_n 1)) eq_refl ex_step_run)
    as (pb_prev & pb & Hlast & Hlen & _).
  split; [exact Hlast|exact Hlen].
Defined.

Lemma ex_step_before_setup_run :
  make_step ex_ext [x_fin 5] ex_ready =
    (Raise (AttributeError "tvp_fun"), snd (make_step ex_ext [x_fin 5] ex_ready)).
Proof. vm_compute. reflexivity. Qed.

Lemma failed_step_records_measurement_only_witness :
  d_log (data (snd (make_step ex_ext [x_fin 5] ex_ready))) = [("_y", [x_fin 5])] /\
  _t0 (estimates (snd (make_step ex_ext [x_fin 5] ex_ready))) = x_fin 0.
Proof.
  destruct (failed_step_records_measurement_only ex_ext ex_ready [x_fin 5] _ _
              (ex_intro _ (x_fin 1) eq_refl) ex_step_before_setup_run)
    as (Hlog & _ & _ & _ & Ht).
  split; [exact Hlog|exact Ht].
Defined.
